(** * OpenSchool: grading, attendance, roster, CSV and storage core

    A shallow embedding of the computational core of the OpenSchool
    dashboard (js/components/gradebook, attendance and assignments,
    js/storage.js and scripts/csv-to-json.js) together with the
    properties its specification states about it.

    Conventions.
    - A JavaScript number is a [number]: a finite value (a rational; the
      doubles are the values that the program holds), negative zero, or
      one of the three special values.  Comparisons are exact.  A sum, a
      product or a quotient is the exact one rounded to the nearest
      double, ties to even, with overflow to an infinity and the signs of
      zero of IEEE 754, as the platform computes it; [double q] is the
      number that a literal or a JSON text of value [q] denotes.
    - Record fields that the code tests for absence are [jsval]s.
    - Identifiers, statuses and dates are strings compared with [===].
    - Module state ([attendanceData], [gradesData], ...) is passed
      explicitly; the platform (DOM, clock, random ids, file system,
      fetch) is an explicit input. *)

From Stdlib Require Import QArith Qabs Qround Lqa ZArith NArith Lia.
From Stdlib Require Import DecimalString.
From stdpp Require Import base option list strings gmap.

Local Open Scope string_scope.

(** ** JavaScript numbers and values *)

Module JS.

(** [Fin 0] is positive zero. *)
Inductive number : Type :=
| Fin (q : Q)
| NegZero
| PosInf
| NegInf
| NaN.

(** [a >= b] *)
Definition nge (a b : number) : bool :=
  match a, b with
  | NaN, _ | _, NaN => false
  | PosInf, _ => true
  | _, NegInf => true
  | NegInf, _ => false
  | _, PosInf => false
  | Fin x, Fin y => Qle_bool y x
  | Fin x, NegZero => Qle_bool 0%Q x
  | NegZero, Fin y => Qle_bool y 0%Q
  | NegZero, NegZero => true
  end.

(** [a > b] *)
Definition ngt (a b : number) : bool :=
  match a, b with
  | NaN, _ | _, NaN => false
  | PosInf, PosInf => false
  | PosInf, _ => true
  | NegInf, _ => false
  | Fin _, NegInf => true
  | Fin _, PosInf => false
  | Fin x, Fin y => negb (Qle_bool x y)
  | Fin x, NegZero => negb (Qle_bool x 0%Q)
  | NegZero, NegInf => true
  | NegZero, PosInf => false
  | NegZero, Fin y => negb (Qle_bool 0%Q y)
  | NegZero, NegZero => false
  end.

(** *** Rounding to a double (IEEE 754 binary64, nearest, ties to even)

    A double is [m × 2^e] for integers [|m| < 2^53] and
    [-1074 <= e <= 971]. *)

(** [2^e] *)
Definition pow2 (e : Z) : Q :=
  if (0 <=? e)%Z then inject_Z (2 ^ e) else 1 # Z.to_pos (2 ^ (- e)).

(** The [k] with [2^k <= q < 2^(k+1)], for a positive [q]. *)
Definition qlog2 (q : Q) : Z :=
  let k := (Z.log2 (Qnum q) - Z.log2 (Zpos (Qden q)))%Z in
  if Qle_bool (pow2 k) q then k else (k - 1)%Z.

(** The nearest integer, the even one of two. *)
Definition roundEven (q : Q) : Z :=
  let f := Qfloor q in
  match (q - inject_Z f ?= 1 # 2)%Q with
  | Lt => f
  | Gt => (f + 1)%Z
  | Eq => if Z.even f then f else (f + 1)%Z
  end.

(** The exponent of the last place of the doubles around a positive [q]:
    53 significant bits, none below [2^-1074]. *)
Definition quantum (q : Q) : Z := Z.max (qlog2 q - 52) (-1074).

(** The double nearest to a positive [q], unless that is beyond the
    largest double. *)
Definition nearest (q : Q) : option Q :=
  let e := quantum q in
  let r := (inject_Z (roundEven (q / pow2 e)) * pow2 e)%Q in
  if Qle_bool (pow2 1024) r then None else Some (Qred r).

Definition zero (negative : bool) : number :=
  if negative then NegZero else Fin 0%Q.

Definition inf (negative : bool) : number :=
  if negative then NegInf else PosInf.

(** The number that the exact result [q] of an operation rounds to;
    [negative] is the sign of the result when [q] is zero. *)
Definition round64 (negative : bool) (q : Q) : number :=
  match (q ?= 0)%Q with
  | Eq => zero negative
  | Gt =>
      match nearest q with
      | Some r => if Qeq_bool r 0%Q then Fin 0%Q else Fin r
      | None => PosInf
      end
  | Lt =>
      match nearest (- q) with
      | Some r => if Qeq_bool r 0%Q then NegZero else Fin (Qred (- r))
      | None => NegInf
      end
  end.

(** The number that a numeric literal, or a number of a JSON text, of
    value [q] denotes. *)
Definition double (q : Q) : number := round64 false q.

(** The sign bit. *)
Definition negative (n : number) : bool :=
  match n with
  | Fin q => negb (Qle_bool 0%Q q)
  | NegZero | NegInf => true
  | PosInf | NaN => false
  end.

(** The value of a finite number. *)
Definition finite (n : number) : option Q :=
  match n with
  | Fin q => Some q
  | NegZero => Some 0%Q
  | _ => None
  end.

(** [a + b]; an exact sum of zero is positive zero unless both terms
    are negative zero. *)
Definition nadd (a b : number) : number :=
  match a, b with
  | NaN, _ | _, NaN => NaN
  | PosInf, NegInf | NegInf, PosInf => NaN
  | PosInf, _ | _, PosInf => PosInf
  | NegInf, _ | _, NegInf => NegInf
  | NegZero, NegZero => NegZero
  | NegZero, Fin x | Fin x, NegZero => round64 false x
  | Fin x, Fin y => round64 false (x + y)
  end.

(** [a * b]; the sign of the result is that of the signs of the
    factors, zero times an infinity is NaN. *)
Definition nmul (a b : number) : number :=
  let s := xorb (negative a) (negative b) in
  match a, b with
  | NaN, _ | _, NaN => NaN
  | _, _ =>
      match finite a, finite b with
      | Some x, Some y => round64 s (x * y)
      | Some z, None | None, Some z => if Qeq_bool z 0%Q then NaN else inf s
      | None, None => inf s
      end
  end.

(** [a / b]; a non-zero value over a zero is an infinity, zero over
    zero and an infinity over an infinity are NaN. *)
Definition ndiv (a b : number) : number :=
  let s := xorb (negative a) (negative b) in
  match a, b with
  | NaN, _ | _, NaN => NaN
  | _, _ =>
      match finite a, finite b with
      | Some x, Some y =>
          if Qeq_bool y 0%Q then (if Qeq_bool x 0%Q then NaN else inf s)
          else round64 s (x / y)
      | Some _, None => zero s
      | None, Some _ => inf s
      | None, None => NaN
      end
  end.

(** The values a numeric record field can hold: absent, [null] or a
    number. *)
Inductive jsval : Type :=
| Undefined
| Null
| Num (n : number).

(** ToBoolean on those values: [undefined], [null], the zeros and [NaN]
    are falsy. *)
Definition truthy (v : jsval) : bool :=
  match v with
  | Undefined | Null => false
  | Num (Fin q) => negb (Qeq_bool q 0%Q)
  | Num NegZero => false
  | Num NaN => false
  | Num _ => true
  end.

(** ToNumber *)
Definition toNumber (v : jsval) : number :=
  match v with
  | Undefined => NaN
  | Null => Fin 0%Q
  | Num n => n
  end.

(** [a || b] *)
Definition or_else (a b : jsval) : jsval := if truthy a then a else b.

(** *** [String(n)] of a number ([Number::toString], radix 10)

    The digits are those of the shortest decimal [s × 10^(n-k)], of [k]
    digits, that reads back as the number, the one nearest to it if
    there are two. *)

Definition digits (z : Z) : string := NilZero.string_of_uint (N.to_uint (Z.to_N z)).

(** [10^e] *)
Definition pow10 (e : Z) : Q :=
  if (0 <=? e)%Z then inject_Z (10 ^ e) else 1 # Z.to_pos (10 ^ (- e)).

Definition decimalLength (z : Z) : Z := Z.of_nat (String.length (digits z)).

(** The [n] with [10^(n-1) <= q < 10^n], for a positive [q]. *)
Definition decimalExponent (q : Q) : Z :=
  let n := (decimalLength (Qnum q) - decimalLength (Zpos (Qden q)))%Z in
  if Qle_bool (pow10 n) q then (n + 1)%Z else n.

(** The decimals [(s, n)] of [k] digits next to [q], below and above. *)
Definition decimalsNear (q : Q) (n k : Z) : list (Z * Z) :=
  let lo := Qfloor (q / pow10 (n - k)) in
  let hi := (lo + 1)%Z in
  [(lo, n); if (hi =? 10 ^ k)%Z then (10 ^ (k - 1), n + 1)%Z else (hi, n)].

Definition decimalValue (k : Z) (sn : Z * Z) : Q :=
  (inject_Z sn.1 * pow10 (sn.2 - k))%Q.

Definition readsAs (q : Q) (k : Z) (sn : Z * Z) : bool :=
  match round64 false (decimalValue k sn) with
  | Fin r => Qeq_bool r q
  | _ => false
  end.

Definition closer (q : Q) (k : Z) (a b : Z * Z) : Z * Z :=
  let da := Qabs (decimalValue k a - q) in
  let db := Qabs (decimalValue k b - q) in
  match (da ?= db)%Q with
  | Lt => a
  | Gt => b
  | Eq => if Z.even a.1 then a else b
  end.

(** The search for the least [k], from [k] on; 17 digits tell any two
    doubles apart. *)
Fixpoint shortest (fuel : nat) (q : Q) (n k : Z) : Z * Z * Z :=
  match fuel with
  | O => (Qfloor (q / pow10 (n - k)), n, k)
  | S fuel' =>
      match filter (λ sn, readsAs q k sn = true) (decimalsNear q n k) with
      | [] => shortest fuel' q n (k + 1)
      | [a] => (a, k)
      | a :: b :: _ => (closer q k a b, k)
      end
  end.

Definition zeros (n : Z) : string :=
  String.string_of_list_ascii
    (replicate (Z.to_nat n) (Ascii.ascii_of_nat 48)).

Definition part (from len : Z) (s : string) : string :=
  String.substring (Z.to_nat from) (Z.to_nat len) s.

(** The text of [s × 10^(n-k)]: digits up to [10^21], a leading
    [0.] down to [10^-6], an exponent beyond. *)
Definition decimalText (snk : Z * Z * Z) : string :=
  let '(s, n, k) := snk in
  let ds := digits s in
  if (k <=? n)%Z && (n <=? 21)%Z then ds ++ zeros (n - k)
  else if (0 <? n)%Z && (n <=? 21)%Z
  then part 0 n ds ++ "." ++ part n (k - n) ds
  else if (-6 <? n)%Z && (n <=? 0)%Z then "0." ++ zeros (- n) ++ ds
  else
    let e := (n - 1)%Z in
    (if (k =? 1)%Z then ds else part 0 1 ds ++ "." ++ part 1 (k - 1) ds)
      ++ "e" ++ (if (0 <=? e)%Z then "+" else "-") ++ digits (Z.abs e).

Definition numberToString (x : number) : string :=
  match x with
  | NaN => "NaN"
  | PosInf => "Infinity"
  | NegInf => "-Infinity"
  | NegZero => "0"
  | Fin q =>
      if Qeq_bool q 0%Q then "0"
      else
        let m := Qabs q in
        (if Qle_bool 0%Q q then "" else "-")
          ++ decimalText (shortest 17 m (decimalExponent m) 1)
  end.

(** *** [Number.prototype.toFixed(1)]

    Below [10^21] the digits are those of the integer [n] for which
    [n / 10] is nearest to the magnitude of the value, the larger [n] on
    a tie; from [10^21] on the text is that of [String]; a minus sign
    goes in front of a negative value. *)
Definition tenths (q : Q) : Z := Qfloor (Qabs q * 10 + (1 # 2))%Q.

Definition toFixed1 (n : number) : string :=
  match n with
  | NaN => "NaN"
  | PosInf => "Infinity"
  | NegInf => "-Infinity"
  | NegZero => "0.0"
  | Fin q =>
      (if Qle_bool 0%Q q then "" else "-")
        ++ (if Qle_bool (pow10 21) (Qabs q)
            then numberToString (Fin (Qabs q))
            else let t := tenths q in
                 digits (t / 10) ++ "." ++ digits (t mod 10))
  end.

End JS.

Import JS.

(** ** Entities (data/sample/*.json) *)

Module User.
Record t : Type := mk {
  id : string;
  username : string;
  display_name : string;
  role : string;
  active : bool
}.
End User.

Module Enrollment.
Record t : Type := mk {
  id : string;
  student_id : string;
  class_id : string;
  status : string
}.
End Enrollment.

Module Assignment.
Record t : Type := mk {
  id : string;
  class_id : string;
  title : string;
  max_points : number;
  weight : jsval;
  status : string
}.
End Assignment.

Module Grade.
Record t : Type := mk {
  id : string;
  student_id : string;
  class_id : string;
  assignment_id : string;
  points : number;
  max_points : number;
  weight : jsval;
  letter_grade : string
}.
End Grade.

Module AttendanceRecord.
Record t : Type := mk {
  id : string;
  class_id : string;
  student_id : string;
  date : string;
  status : string;
  recorded_by : string;
  recorded_at : string;
  note : option string
}.
End AttendanceRecord.

(** [Array.prototype.find]: the first element that satisfies the
    predicate. *)
Definition js_find {A} (P : A → Prop) `{∀ x, Decision (P x)} (l : list A)
  : option A := snd <$> list_find P l.

(** The placeholder the views print where there is no value. *)
Definition dash : string := "—".

(** ** Gradebook (js/components/gradebook) *)

Module Gradebook.

(** [getLetterGrade] of the gradebook module. *)
Definition getLetterGrade (pct : number) : string :=
  if nge pct (Fin 97%Q) then "A+"
  else if nge pct (Fin 93%Q) then "A"
  else if nge pct (Fin 90%Q) then "A-"
  else if nge pct (Fin 87%Q) then "B+"
  else if nge pct (Fin 83%Q) then "B"
  else if nge pct (Fin 80%Q) then "B-"
  else if nge pct (Fin 77%Q) then "C+"
  else if nge pct (Fin 73%Q) then "C"
  else if nge pct (Fin 70%Q) then "C-"
  else if nge pct (Fin 67%Q) then "D+"
  else if nge pct (Fin 63%Q) then "D"
  else if nge pct (Fin 60%Q) then "D-"
  else "F".

(** [getClassStudents]: the users whose id is among the student ids of
    the class's active enrollments, in the order of [usersData]. *)
Definition getClassStudents (enrollmentsData : list Enrollment.t)
    (usersData : list User.t) (classId : string) : list User.t :=
  let studentIds :=
    Enrollment.student_id <$>
      filter (λ e, Enrollment.class_id e = classId
                   ∧ Enrollment.status e = "active") enrollmentsData in
  filter (λ u, User.id u ∈ studentIds) usersData.

(** The running totals [totalWeightedScore] and [totalWeight]. *)
Definition totals : Type := (number * number)%type.

Definition totals0 : totals := (Fin 0%Q, Fin 0%Q).

(** [totalWeight > 0 ? totalWeightedScore / totalWeight * 100 : none]:
    the value which the views then print with [toFixed(1)]. *)
Definition percentage (t : totals) : option number :=
  let '(totalWeightedScore, totalWeight) := t in
  if ngt totalWeight (Fin 0%Q)
  then Some (nmul (ndiv totalWeightedScore totalWeight) (Fin 100%Q))
  else None.

(** [weightedAvg] / [avg]: the text of the value, or the placeholder. *)
Definition weightedAvg (t : totals) : string :=
  match percentage t with
  | Some p => toFixed1 p
  | None => dash
  end.

(** The text of the average cell:
    [weightedAvg + (weightedAvg !== dash ? '%' : '')]. *)
Definition averageCell (t : totals) : string :=
  let avg := weightedAvg t in
  avg ++ (if decide (avg ≠ dash) then "%" else "").

(** The weight of one graded assignment in the teacher view:
    [grade.weight || a.weight || 0.25]. *)
Definition effectiveWeight (grade : Grade.t) (a : Assignment.t) : jsval :=
  or_else (or_else (Grade.weight grade) (Assignment.weight a))
          (Num (Fin 0.25%Q)).

(** One turn of the inner [classAssignments.forEach] of
    [renderClassGradebook] for student [s]. *)
Definition classStep (gradesData : list Grade.t) (s : User.t)
    (t : totals) (a : Assignment.t) : totals :=
  let '(totalWeightedScore, totalWeight) := t in
  match js_find (λ g, Grade.student_id g = User.id s
                      ∧ Grade.assignment_id g = Assignment.id a) gradesData
  with
  | Some grade =>
      let w := toNumber (effectiveWeight grade a) in
      (nadd totalWeightedScore
            (nmul (ndiv (Grade.points grade) (Grade.max_points grade)) w),
       nadd totalWeight w)
  | None => t
  end.

Definition classTotals (gradesData : list Grade.t) (s : User.t)
    (classAssignments : list Assignment.t) : totals :=
  fold_left (classStep gradesData s) classAssignments totals0.

(** The assignments of the class that are shown: not drafts. *)
Definition classAssignmentsOf (assignmentsData : list Assignment.t)
    (classId : string) : list Assignment.t :=
  filter (λ a, Assignment.class_id a = classId
               ∧ Assignment.status a ≠ "draft") assignmentsData.

(** [renderClassGradebook], the "Weighted Avg" cell of every row: one
    pair of student and cell text per student of the class. *)
Definition renderClassGradebook (gradesData : list Grade.t)
    (assignmentsData : list Assignment.t)
    (enrollmentsData : list Enrollment.t) (usersData : list User.t)
    (classId : string) : list (User.t * string) :=
  let students := getClassStudents enrollmentsData usersData classId in
  let classAssignments := classAssignmentsOf assignmentsData classId in
  (λ s, (s, averageCell (classTotals gradesData s classAssignments)))
    <$> students.

(** One turn of [classGrades.forEach] of [renderStudentGrades]. *)
Definition studentStep (t : totals) (g : Grade.t) : totals :=
  let '(totalWeightedScore, totalWeight) := t in
  (nadd totalWeightedScore
        (nmul (ndiv (Grade.points g) (Grade.max_points g))
              (toNumber (Grade.weight g))),
   nadd totalWeight (toNumber (Grade.weight g))).

Definition studentTotals (classGrades : list Grade.t) : totals :=
  fold_left studentStep classGrades totals0.

(** [renderStudentGrades], the "Weighted Average" row of the block of one
    class; a class without grades of the student has no block. *)
Definition renderStudentGrades (gradesData : list Grade.t)
    (userId classId : string) : option string :=
  let myGrades := filter (λ g, Grade.student_id g = userId) gradesData in
  let classGrades := filter (λ g, Grade.class_id g = classId) myGrades in
  match classGrades with
  | [] => None
  | _ => Some (averageCell (studentTotals classGrades))
  end.

End Gradebook.

(** ** Assignments (js/components/assignments) *)

Module Assignments.

(** [getLetterGrade] of the assignments module, a copy of the
    gradebook's. *)
Definition getLetterGrade (pct : number) : string :=
  if nge pct (Fin 97%Q) then "A+"
  else if nge pct (Fin 93%Q) then "A"
  else if nge pct (Fin 90%Q) then "A-"
  else if nge pct (Fin 87%Q) then "B+"
  else if nge pct (Fin 83%Q) then "B"
  else if nge pct (Fin 80%Q) then "B-"
  else if nge pct (Fin 77%Q) then "C+"
  else if nge pct (Fin 73%Q) then "C"
  else if nge pct (Fin 70%Q) then "C-"
  else if nge pct (Fin 67%Q) then "D+"
  else if nge pct (Fin 63%Q) then "D"
  else if nge pct (Fin 60%Q) then "D-"
  else "F".

End Assignments.

(** ** Attendance (js/components/attendance) *)

Module Attendance.

Local Open Scope list_scope.

(** [getClassStudents] of the attendance module. *)
Definition getClassStudents (enrollmentsData : list Enrollment.t)
    (usersData : list User.t) (classId : string) : list User.t :=
  let studentIds :=
    Enrollment.student_id <$>
      filter (λ e, Enrollment.class_id e = classId
                   ∧ Enrollment.status e = "active") enrollmentsData in
  filter (λ u, User.id u ∈ studentIds) usersData.

(** The natural key of an attendance record, as [saveAttendance] tests
    it. *)
Definition sameKey (classId studentId date : string)
    (a : AttendanceRecord.t) : Prop :=
  AttendanceRecord.class_id a = classId
  ∧ AttendanceRecord.student_id a = studentId
  ∧ AttendanceRecord.date a = date.

#[global] Instance sameKey_dec classId studentId date a :
  Decision (sameKey classId studentId date a).
Proof. unfold sameKey. apply _. Defined.

(** One toggle group of the roster: the student and status of its
    pressed button, if one is pressed. *)
Definition toggle : Type := option (string * string).

(** The module's state during a save: the cached table, the number of
    ids generated so far, and [count]. *)
Record state : Type := mkState {
  attendanceData : list AttendanceRecord.t;
  generated : nat;
  count : nat
}.

Section Save.

(** [generateId('att')]: the platform's [n]-th generated id. *)
Variable generateId : nat → string.

(** One turn of [toggles.forEach] of [saveAttendance]. *)
Definition saveStep (classId date : string) (user : User.t) (now : string)
    (st : state) (group : toggle) : state :=
  match group with
  | None => st
  | Some (studentId, status) =>
      let existing :=
        list_find (sameKey classId studentId date) (attendanceData st) in
      let record (id : string) :=
        AttendanceRecord.mk id classId studentId date status
                            (User.id user) now None in
      match existing with
      | Some (existingIdx, old) =>
          mkState (<[existingIdx := record (AttendanceRecord.id old)]>
                     (attendanceData st))
                  (generated st) (S (count st))
      | None =>
          mkState (attendanceData st ++ [record (generateId (generated st))])
                  (S (generated st)) (S (count st))
      end
  end.

(** [saveAttendance]: the table that is then written to the store with
    [saveData('attendance', attendanceData)], the ids used, and the
    [count] of the toast. *)
Definition saveAttendance (classId date : string) (user : User.t)
    (now : string) (toggles : list toggle)
    (attendanceData0 : list AttendanceRecord.t) (generated0 : nat) : state :=
  fold_left (saveStep classId date user now) toggles
            (mkState attendanceData0 generated0 0).

End Save.

End Attendance.

(** ** JavaScript strings as sequences of UTF-16 code units *)

Module JsString.

Local Open Scope list_scope.

Definition codeunit : Type := N.
Definition t : Type := list codeunit.

Definition QUOTE : codeunit := 34%N.
Definition COMMA : codeunit := 44%N.
Definition LF : codeunit := 10%N.
Definition CR : codeunit := 13%N.
Definition SPACE : codeunit := 32%N.

(** The text of a literal of the source (ASCII). *)
Definition lit (s : string) : t :=
  Ascii.N_of_ascii <$> String.list_ascii_of_string s.

(** WhiteSpace and LineTerminator code units, which [trim] strips. *)
Definition whiteSpace : list codeunit :=
  [9; 10; 11; 12; 13; 32; 160; 5760; 8192; 8193; 8194; 8195; 8196; 8197;
   8198; 8199; 8200; 8201; 8202; 8232; 8233; 8239; 8287; 12288; 65279]%N.

Definition isWhite (c : codeunit) : bool := bool_decide (c ∈ whiteSpace).

Fixpoint trimStart (s : t) : t :=
  match s with
  | [] => []
  | c :: rest => if isWhite c then trimStart rest else s
  end.

Definition trimEnd (s : t) : t := reverse (trimStart (reverse s)).

(** [String.prototype.trim] *)
Definition trim (s : t) : t := trimEnd (trimStart s).

(** [Array.prototype.join] on strings. *)
Fixpoint join (sep : t) (parts : list t) : t :=
  match parts with
  | [] => []
  | [p] => p
  | p :: rest => p ++ sep ++ join sep rest
  end.

(** [s.includes(c)] for a one-unit needle. *)
Definition includes (s : t) (c : codeunit) : bool := bool_decide (c ∈ s).

(** The names every object inherits from [Object.prototype]; a property
    read of one of them on an object without an own property of that
    name yields a built-in, which is truthy. *)
Definition objectPrototypeKeys : list t :=
  lit <$> ["constructor"; "__defineGetter__"; "__defineSetter__";
           "hasOwnProperty"; "__lookupGetter__"; "__lookupSetter__";
           "isPrototypeOf"; "propertyIsEnumerable"; "toString"; "valueOf";
           "__proto__"; "toLocaleString"].

(** The outcome of a property read [obj[key]] on an object literal whose
    own properties are the association list [own]. *)
Inductive property (V : Type) : Type :=
| Own (v : V)
| Inherited
| Absent.
Arguments Own {V} v.
Arguments Inherited {V}.
Arguments Absent {V}.

Fixpoint assoc {V} (key : t) (own : list (t * V)) : option V :=
  match own with
  | [] => None
  | (k, v) :: rest => if decide (k = key) then Some v else assoc key rest
  end.

Definition getProperty {V} (own : list (t * V)) (key : t) : property V :=
  match assoc key own with
  | Some v => Own v
  | None => if decide (key ∈ objectPrototypeKeys) then Inherited else Absent
  end.

End JsString.

(** ** CSV export (js/storage.js) and CSV parsing (scripts/csv-to-json.js) *)

Module Csv.

Import JsString.
Local Open Scope list_scope.

(** The values of the fields of an exported record: absent or
    [undefined], [null], a string, a number, a boolean, or an object,
    which is given by the text that [String] makes of it. *)
Inductive value : Type :=
| VUndefined
| VNull
| VString (s : JsString.t)
| VNumber (n : number)
| VBoolean (b : bool)
| VObject (text : JsString.t).

(** [String(val)] for a value that is neither [null] nor [undefined]. *)
Definition toText (val : value) : JsString.t :=
  match val with
  | VUndefined => lit "undefined"
  | VNull => lit "null"
  | VString s => s
  | VNumber n => lit (numberToString n)
  | VBoolean b => lit (if b then "true" else "false")
  | VObject text => text
  end.

(** A record: its own properties, in the order in which [Object.keys]
    lists them. *)
Definition record : Type := list (JsString.t * value).

Section Exporter.

(** [String(b)] of the built-in that a read of an inherited property
    yields (the platform's text of it). *)
Variable builtinText : JsString.t → JsString.t.

(** [String(row[c] ?? '')] *)
Definition cellText (row : record) (c : JsString.t) : JsString.t :=
  match getProperty row c with
  | Own VUndefined | Own VNull | Absent => []
  | Own val => toText val
  | Inherited => builtinText c
  end.

(** [str.replace] of every double quote by two of them. *)
Definition doubleQuotes (str : JsString.t) : JsString.t :=
  flat_map (λ c, if decide (c = QUOTE) then [QUOTE; QUOTE] else [c]) str.

(** The text of one cell of the export. *)
Definition escapeCell (str : JsString.t) : JsString.t :=
  if includes str COMMA || includes str QUOTE || includes str LF
  then [QUOTE] ++ doubleQuotes str ++ [QUOTE]
  else str.

(** [exportCSV(data, filename, columns)]: the text [csv] of the blob that
    is offered for download, or nothing for an empty [data]; [columns]
    defaults to the keys of the first record. *)
Definition exportCSV (data : list record) (columns : option (list JsString.t))
  : option JsString.t :=
  match data with
  | [] => None
  | first :: _ =>
      let cols := default (first.*1) columns in
      let header := join [COMMA] cols in
      let rows :=
        (λ row, join [COMMA] ((λ c, escapeCell (cellText row c)) <$> cols))
          <$> data in
      Some (join [LF] (header :: rows))
  end.

End Exporter.

(** [text.replace(/\r\n/g, '\n')] *)
Fixpoint replaceCRLF (text : JsString.t) : JsString.t :=
  match text with
  | [] => []
  | c :: rest =>
      match rest with
      | next :: rest' =>
          if decide (c = CR ∧ next = LF) then LF :: replaceCRLF rest'
          else c :: replaceCRLF rest
      | [] => [c]
      end
  end.

(** [text.replace(/\r/g, '\n')] *)
Definition replaceCR (text : JsString.t) : JsString.t :=
  (λ c, if decide (c = CR) then LF else c) <$> text.

(** [row.some(f => f !== '')] *)
Definition someNonEmpty (row : list JsString.t) : bool :=
  bool_decide (Exists (λ f, f ≠ []) row).

(** The end of a row: [row.push(field.trim());
    if (row.some(f => f !== '')) rows.push(row)]. *)
Definition endRow (rows : list (list JsString.t)) (row : list JsString.t)
    (field : JsString.t) : list (list JsString.t) :=
  let row' := row ++ [trim field] in
  if someNonEmpty row' then rows ++ [row'] else rows.

(** The [for] loop of [parseCSV] from index [i] on, [chars] being the
    text from [i]; the doubled-quote case skips a unit ([i++]). *)
Fixpoint parseLoop (chars : JsString.t) (rows : list (list JsString.t))
    (row : list JsString.t) (field : JsString.t) (inQuotes : bool)
  : list (list JsString.t) :=
  match chars with
  | [] => endRow rows row field
  | c :: rest =>
      if inQuotes then
        if decide (c = QUOTE) then
          match rest with
          | next :: rest' =>
              if decide (next = QUOTE)
              then parseLoop rest' rows row (field ++ [QUOTE]) true
              else parseLoop rest rows row field false
          | [] => parseLoop rest rows row field false
          end
        else parseLoop rest rows row (field ++ [c]) true
      else
        if decide (c = QUOTE) then parseLoop rest rows row field true
        else if decide (c = COMMA)
        then parseLoop rest rows (row ++ [trim field]) [] false
        else if decide (c = LF)
        then parseLoop rest (endRow rows row field) [] [] false
        else parseLoop rest rows row (field ++ [c]) false
  end.

(** [parseCSV(text)] *)
Definition parseCSV (text : JsString.t) : list (list JsString.t) :=
  let chars := replaceCR (replaceCRLF text) in
  parseLoop chars [] [] [] false.

End Csv.

(** ** CSV importer (scripts/csv-to-json.js) *)

Module Importer.

Import JsString.
Local Open Scope list_scope.

Definition fieldMap : Type := list (JsString.t * JsString.t).

Definition fieldMapOf (l : list (string * string)) : fieldMap :=
  (λ '(k, v), (lit k, lit v)) <$> l.

(** [FIELD_MAPS], an object literal: its own properties in source
    order. *)
Definition FIELD_MAPS : list (JsString.t * fieldMap) :=
  [
   (lit "users",
    fieldMapOf
     [("student_id", "id"); ("teacher_id", "id"); ("user_id", "id");
      ("id", "id"); ("username", "username"); ("user_name", "username");
      ("login", "username"); ("display_name", "display_name");
      ("name", "display_name"); ("full_name", "display_name");
      ("first_name", "_first_name"); ("last_name", "_last_name");
      ("email", "email"); ("email_address", "email"); ("role", "role");
      ("user_type", "role"); ("type", "role");
      ("year_level", "year_level"); ("grade_level", "year_level");
      ("year", "year_level")]);
   (lit "classes",
    fieldMapOf
     [("class_id", "id"); ("id", "id"); ("code", "id");
      ("class_name", "name"); ("name", "name"); ("subject", "name");
      ("teacher_id", "teacher_id"); ("teacher", "teacher_id");
      ("room", "room"); ("classroom", "room");
      ("year_level", "year_level"); ("grade", "year_level")]);
   (lit "enrollments",
    fieldMapOf
     [("enrollment_id", "id"); ("id", "id"); ("student_id", "student_id");
      ("student", "student_id"); ("class_id", "class_id");
      ("class", "class_id")]);
   (lit "attendance",
    fieldMapOf
     [("record_id", "id"); ("id", "id"); ("class_id", "class_id");
      ("class", "class_id"); ("student_id", "student_id");
      ("student", "student_id"); ("date", "date"); ("status", "status");
      ("attendance_status", "status"); ("marked_by", "marked_by");
      ("teacher", "marked_by")]);
   (lit "assignments",
    fieldMapOf
     [("assignment_id", "id"); ("id", "id"); ("class_id", "class_id");
      ("class", "class_id"); ("title", "title"); ("name", "title");
      ("description", "description"); ("details", "description");
      ("due_date", "due_date"); ("due", "due_date");
      ("max_points", "max_points"); ("points", "max_points");
      ("total_marks", "max_points"); ("weight", "weight");
      ("status", "status")]);
   (lit "submissions",
    fieldMapOf
     [("submission_id", "id"); ("id", "id");
      ("assignment_id", "assignment_id"); ("student_id", "student_id");
      ("student", "student_id"); ("submitted_at", "submitted_at");
      ("submission_date", "submitted_at"); ("content", "content");
      ("body", "content"); ("text", "content"); ("status", "status")]);
   (lit "grades",
    fieldMapOf
     [("grade_id", "id"); ("id", "id"); ("assignment_id", "assignment_id");
      ("student_id", "student_id"); ("student", "student_id");
      ("points", "points"); ("score", "points"); ("mark", "points");
      ("letter", "letter"); ("grade", "letter"); ("feedback", "feedback");
      ("comment", "feedback"); ("comments", "feedback")]);
   (lit "timetable",
    fieldMapOf
     [("slot_id", "id"); ("id", "id"); ("class_id", "class_id");
      ("class", "class_id"); ("day", "day"); ("day_of_week", "day");
      ("start_time", "start_time"); ("start", "start_time");
      ("end_time", "end_time"); ("end", "end_time"); ("room", "room");
      ("location", "room")]);
   (lit "announcements",
    fieldMapOf
     [("announcement_id", "id"); ("id", "id"); ("title", "title");
      ("subject", "title"); ("body", "body"); ("content", "body");
      ("message", "body"); ("author_id", "author_id");
      ("author", "author_id"); ("priority", "priority");
      ("status", "status")])
  ].

(** [Object.keys(FIELD_MAPS)] *)
Definition entityNames : list JsString.t := FIELD_MAPS.*1.

(** The value of a field of a converted record. *)
Inductive cell : Type :=
| CStr (s : JsString.t)
| CNum (n : number).

(** A record: its own properties in the order of [Object.keys] and of
    [JSON.stringify], which is the array indices in ascending order and
    then the other keys in the order of their creation. *)
Definition record : Type := list (JsString.t * cell).

(** The value of a key that is an array index: the decimal text, without
    a leading zero, of an integer below [2^32 - 1]. *)
Definition digitValue (c : codeunit) : option N :=
  if decide (48 ≤ c ≤ 57)%N then Some (c - 48)%N else None.

Definition arrayIndex (key : JsString.t) : option N :=
  match key with
  | [] => None
  | c :: rest =>
      if decide (c = 48%N ∧ rest ≠ []) then None
      else
        ds ← mapM digitValue key;
        let n := fold_left (λ acc d, acc * 10 + d)%N ds 0%N in
        if decide (n < 2 ^ 32 - 1)%N then Some n else None
  end.

(** The place of a new array index [n]: before the first key that is
    not an array index or is a greater one. *)
Fixpoint insertIndex (n : N) (key : JsString.t) (v : cell) (r : record)
  : record :=
  match r with
  | [] => [(key, v)]
  | (k, x) :: rest =>
      match arrayIndex k with
      | Some m =>
          if decide (m < n)%N then (k, x) :: insertIndex n key v rest
          else (key, v) :: r
      | None => (key, v) :: r
      end
  end.

(** [record[key] = v]: an own property keeps its place, a new one
    takes the place that its key gives it. *)
Definition setProperty (key : JsString.t) (v : cell) (r : record) : record :=
  match assoc key r with
  | Some _ => (λ kx, if decide (kx.1 = key) then (kx.1, v) else kx) <$> r
  | None =>
      match arrayIndex key with
      | Some n => insertIndex n key v r
      | None => r ++ [(key, v)]
      end
  end.

(** ToBoolean of [record.key] for keys that nothing inherits. *)
Definition hasTruthy (key : JsString.t) (r : record) : bool :=
  match assoc key r with
  | Some (CStr s) => bool_decide (s ≠ [])
  | Some (CNum n) => truthy (Num n)
  | None => false
  end.

(** [h.replace(/\s+/g, '_')]: every maximal run of white space becomes
    one underscore. *)
Fixpoint underscoreSpaces (inRun : bool) (h : JsString.t) : JsString.t :=
  match h with
  | [] => []
  | c :: rest =>
      if isWhite c
      then (if inRun then [] else lit "_") ++ underscoreSpaces true rest
      else c :: underscoreSpaces false rest
  end.

Definition numericFields : list JsString.t :=
  lit <$> ["max_points"; "points"; "weight"; "year_level"].

(** What the script prints, and the file it writes. *)
Inductive path : Type :=
| Given (outputFile : JsString.t)
| Sample (fileName : JsString.t).

Inductive output : Type :=
| LogUsage (entities : list JsString.t)
| ErrFileNotFound (inputFile : JsString.t)
| LogConverting (inputFile entity : JsString.t)
| LogParsed (dataRows : Z) (columns : nat)
| ErrUnknownEntity (entity : JsString.t)
| ErrAvailable (names : list JsString.t)
| LogConverted (records : nat)
| WriteFile (to : path) (records : list record)
| LogWritten (to : path).

(** How a run ends: [process.exit(code)], an uncaught error (a
    [TypeError], or the error of a file that cannot be read or
    written), or the end of the script. *)
Inductive termination : Type :=
| Exit (code : Z)
| Uncaught
| Finished.

(** What the file system holds under a name. *)
Inductive file : Type :=
| NoFile
| Unreadable
| Text (content : JsString.t).

(** The exit status of the process. *)
Definition exitCode (t : termination) : Z :=
  match t with
  | Exit code => code
  | Uncaught => 1
  | Finished => 0
  end.

Section Platform.

(** [String.prototype.toLowerCase]. *)
Variable toLowerCase : JsString.t → JsString.t.

(** [Number(value)] on a string. *)
Variable stringToNumber : JsString.t → number.

(** The property key that [b[header]] converts to when [b] is the
    built-in that [FIELD_MAPS] inherits under the name [entity] and the
    read is truthy. *)
Variable builtinProperty : JsString.t → JsString.t → option JsString.t.

(** The property key that a built-in inherited by a field map under the
    name [header] converts to. *)
Variable builtinKey : JsString.t → JsString.t.

(** [fieldMap[header]] as a property key, if truthy. *)
Definition mappedOf (entity : JsString.t) (fm : property fieldMap)
    (header : JsString.t) : option JsString.t :=
  match fm with
  | Own m =>
      match getProperty m header with
      | Own mapped => if decide (mapped = []) then None else Some mapped
      | Inherited => Some (builtinKey header)
      | Absent => None
      end
  | Inherited => builtinProperty entity header
  | Absent => None
  end.

(** The state of the inner loop over the columns of one row. *)
Record rowState : Type := mkRow {
  rec : record;
  firstName : JsString.t;
  lastName : JsString.t
}.

Definition columnStep (entity : JsString.t) (fm : property fieldMap)
    (row : list JsString.t) (st : rowState) (jh : nat * JsString.t)
  : rowState :=
  let '(j, header) := jh in
  match mappedOf entity fm header with
  | None => st
  | Some mapped =>
      let value := default [] (row !! j) in
      if decide (mapped = lit "_first_name")
      then mkRow (rec st) value (lastName st)
      else if decide (mapped = lit "_last_name")
      then mkRow (rec st) (firstName st) value
      else
        let v :=
          if decide (mapped ∈ numericFields)
          then
            let n := stringToNumber value in
            CNum (if truthy (Num n) then n else Fin 0%Q)
          else CStr value in
        mkRow (setProperty mapped v (rec st)) (firstName st) (lastName st)
  end.

(** The record of data row [i]. *)
Definition convertRow (entity : JsString.t) (fm : property fieldMap)
    (headers : list JsString.t) (i : nat) (row : list JsString.t) : record :=
  let st :=
    fold_left (columnStep entity fm row) (imap (λ j h, (j, h)) headers)
              (mkRow [] [] []) in
  let record1 :=
    if negb (hasTruthy (lit "display_name") (rec st))
       && bool_decide (firstName st ≠ [] ∨ lastName st ≠ [])
    then setProperty (lit "display_name")
           (CStr (trim (firstName st ++ [SPACE] ++ lastName st))) (rec st)
    else rec st in
  if negb (hasTruthy (lit "id") record1)
  then setProperty (lit "id")
         (CStr (take 1 entity ++ lit "-imported-"
                  ++ lit (digits (Z.of_nat i)))) record1
  else record1.

Inductive conversion : Type :=
| Exited (printed : list output) (code : Z)
| Threw
| Converted (records : list record).

(** [convertCSV(rows, entity)] *)
Definition convertCSV (rows : list (list JsString.t)) (entity : JsString.t)
  : conversion :=
  let fm := getProperty FIELD_MAPS entity in
  match fm with
  | Absent =>
      Exited [ErrUnknownEntity entity; ErrAvailable entityNames] 1
  | _ =>
      match rows with
      | [] => Threw
      | header :: dataRows =>
          let headers := (λ h, underscoreSpaces false (toLowerCase h))
                           <$> header in
          Converted (imap (λ k row, convertRow entity fm headers (S k) row)
                          dataRows)
      end
  end.

(** What the file system holds under a name, as [existsSync] and
    [readFileSync(inputFile, 'utf-8')] tell: nothing; something that
    exists but cannot be read (a directory, a file without permission),
    for which [readFileSync] throws; or a file with its text. *)
Variable files : JsString.t → file.

(** Whether [writeFileSync(output, json, 'utf-8')] returns; it throws
    otherwise (a directory that does not exist, no permission), and
    nothing is written. *)
Variable writable : path → bool.

(** The script from [const args = process.argv.slice(2)] on: what it
    prints and writes, in order, and how it ends. *)
Definition main (args : list JsString.t) : list output * termination :=
  match args with
  | inputFile :: entity :: rest =>
      match files inputFile with
      | NoFile => ([ErrFileNotFound inputFile], Exit 1)
      | Unreadable => ([LogConverting inputFile entity], Uncaught)
      | Text csvText =>
          let out1 := [LogConverting inputFile entity] in
          let rows := Csv.parseCSV csvText in
          match rows with
          | [] => (out1, Uncaught)
          | row0 :: _ =>
              let out2 :=
                out1 ++ [LogParsed (Z.of_nat (length rows) - 1)
                                   (length row0)] in
              match convertCSV rows entity with
              | Exited printed code => (out2 ++ printed, Exit code)
              | Threw => (out2, Uncaught)
              | Converted records =>
                  let to :=
                    match rest with
                    | outputFile :: _ =>
                        if decide (outputFile = [])
                        then Sample (entity ++ lit ".json")
                        else Given outputFile
                    | [] => Sample (entity ++ lit ".json")
                    end in
                  if writable to
                  then (out2 ++ [LogConverted (length records);
                                 WriteFile to records; LogWritten to],
                        Finished)
                  else (out2 ++ [LogConverted (length records)], Uncaught)
              end
          end
      end
  | _ => ([LogUsage entityNames], Exit 0)
  end.

End Platform.

End Importer.

(** ** Record store (js/storage.js) *)

Module Storage.

Definition STORAGE_PREFIX : string := "openschool_".
Definition DATA_BASE : string := "data/sample/".

(** [s.includes(needle)] *)
Fixpoint includes (needle s : string) : bool :=
  if String.prefix needle s then true
  else match s with
       | EmptyString => false
       | String _ rest => includes needle rest
       end.

(** [getBasePath] for the page at [pathname]. *)
Definition getBasePath (pathname : string) : string :=
  if includes "/pages/" pathname then "../" else "".

(** What [fetch(url)] settles to: a rejection, or a response with its
    [ok] flag, [status] and body text. *)
Inductive fetched : Type :=
| NetworkError
| Response (ok : bool) (status : nat) (body : string).

Inductive error : Type :=
| SyntaxError
| FetchFailed.

(** How the promise of an [async] function settles. *)
Inductive settled (A : Type) : Type :=
| Resolved (data : A)
| Rejected (reason : error).
Arguments Resolved {A} data.
Arguments Rejected {A} reason.

Section Platform.

(** Parsed JSON, with [JSON.parse] (which throws a [SyntaxError] on
    text that is not JSON) and the empty array. *)
Variable json : Type.
Variable JSON_parse : string → option json.
Variable emptyArray : json.

Variable fetch : string → fetched.

(** The result of a call: how the promise settles, the local storage
    afterwards and the warnings logged. *)
Record result : Type := mkResult {
  promise : settled json;
  localStorage' : gmap string string;
  warnings : list string
}.

(** The part of [loadData] after the overlay: fetch the static file. *)
Definition loadBaseline (pathname name : string)
    (ls : gmap string string) : result :=
  let basePath := getBasePath pathname in
  match fetch (basePath ++ DATA_BASE ++ name ++ ".json") with
  | NetworkError => mkResult (Rejected FetchFailed) ls []
  | Response ok status body =>
      if negb ok
      then mkResult (Resolved emptyArray) ls
             ["[storage] Failed to load " ++ name ++ ".json: "
                ++ digits (Z.of_nat status)]
      else
        match JSON_parse body with
        | Some data => mkResult (Resolved data) ls []
        | None => mkResult (Rejected SyntaxError) ls []
        end
  end.

(** [loadData(name)] *)
Definition loadData (pathname : string) (localStorage : gmap string string)
    (name : string) : result :=
  let key := STORAGE_PREFIX ++ name in
  match localStorage !! key with
  | Some cached =>
      if decide (cached = "")
      then loadBaseline pathname name localStorage
      else
        match JSON_parse cached with
        | Some data => mkResult (Resolved data) localStorage []
        | None => loadBaseline pathname name (delete key localStorage)
        end
  | None => loadBaseline pathname name localStorage
  end.

(** [saveData(name, data)], the text being [JSON.stringify(data)]. *)
Definition saveData (localStorage : gmap string string) (name text : string)
  : gmap string string :=
  <[STORAGE_PREFIX ++ name := text]> localStorage.

End Platform.

End Storage.

(** ** Sessions and reset (js/storage.js) *)

Module Sessions.

Import Storage.
Local Open Scope list_scope.

Definition SESSION_KEY : string := (STORAGE_PREFIX ++ "session")%string.

Section Platform.

Variable json : Type.
Variable JSON_parse : string → option json.
Variable JSON_stringify : json → string.

(** [getSession()]: the stored user, or [null] when there is none or the
    item is not JSON. *)
Definition getSession (sessionStorage : gmap string string) : option json :=
  match sessionStorage !! SESSION_KEY with
  | Some raw => if decide (raw = "") then None else JSON_parse raw
  | None => None
  end.

(** [setSession(user)] *)
Definition setSession (sessionStorage : gmap string string) (user : json)
  : gmap string string :=
  <[SESSION_KEY := JSON_stringify user]> sessionStorage.

(** [clearSession()] *)
Definition clearSession (sessionStorage : gmap string string)
  : gmap string string :=
  delete SESSION_KEY sessionStorage.

End Platform.

(** [key?.startsWith(STORAGE_PREFIX)] *)
Definition isOverlayKey (key : string) : Prop :=
  String.prefix STORAGE_PREFIX key = true.

(** [resetAllData()]: the keys with the prefix are collected, in the
    order in which the storage lists them, and then removed one by
    one. *)
Definition resetAllData (localStorage : gmap string string)
  : gmap string string :=
  let keys := filter isOverlayKey (map_to_list localStorage).*1 in
  fold_left (λ storage k, delete k storage) keys localStorage.

End Sessions.

(** ** Attendance: summary and roster (js/components/attendance) *)

Module AttendanceViews.

Local Open Scope list_scope.

Record summary : Type := mkSummary {
  present : nat;
  absent : nat;
  late : nat;
  excused : nat;
  total : nat
}.

(** [getClassAttendanceSummary(classId)] *)
Definition getClassAttendanceSummary
    (attendanceData : list AttendanceRecord.t) (classId : string) : summary :=
  let records :=
    filter (λ a, AttendanceRecord.class_id a = classId) attendanceData in
  let count status :=
    length (filter (λ r, AttendanceRecord.status r = status) records) in
  mkSummary (count "present") (count "absent") (count "late")
            (count "excused") (length records).

(** The statuses of the buttons of a toggle group, in their order. *)
Definition statuses : list string := ["present"; "absent"; "late"; "excused"].

(** [existing?.status || ''] of [renderRoster] for one student: the
    status of the first record of the class and day for the student. *)
Definition rosterStatus (attendanceData : list AttendanceRecord.t)
    (classId date : string) (s : User.t) : string :=
  let todayRecords :=
    filter (λ a, AttendanceRecord.class_id a = classId
                 ∧ AttendanceRecord.date a = date) attendanceData in
  match js_find (λ r, AttendanceRecord.student_id r = User.id s) todayRecords
  with
  | Some existing => AttendanceRecord.status existing
  | None => ""
  end.

(** [renderRoster] writes the id of a student into the markup as it is,
    [data-student="${s.id}"], and [saveAttendance] reads it back from
    the element that the HTML parser made of the markup.  An id comes
    back as it was written when it holds no double quote, which ends the
    attribute, no ampersand, which starts a character reference, no
    carriage return, which the parser turns into a line feed, and no
    NUL, which it replaces.  The name of a student goes into the
    [aria-label] of the group through [escapeHtml], which leaves a
    double quote as it is. *)
Definition plainAttribute (text : string) : Prop :=
  Forall (λ c, c ∉ [Ascii.ascii_of_nat 34; Ascii.ascii_of_nat 38;
                    Ascii.ascii_of_nat 13; Ascii.ascii_of_nat 0])
         (String.list_ascii_of_string text).

Definition plainLabel (text : string) : Prop :=
  Ascii.ascii_of_nat 34 ∉ String.list_ascii_of_string text.

(** The toggle group that [renderRoster] draws for a student, as
    [saveAttendance] reads it when no button has been clicked: the
    button of the stored status is pressed, if it is one of the four.
    The markup of a student whose id or name is not plain is not
    modelled. *)
Definition renderedToggle (attendanceData : list AttendanceRecord.t)
    (classId date : string) (s : User.t) : option Attendance.toggle :=
  if decide (plainAttribute (User.id s) ∧ plainLabel (User.display_name s))
  then
    let status := rosterStatus attendanceData classId date s in
    Some ((λ st, (User.id s, st)) <$> js_find (λ st, status = st) statuses)
  else None.

(** [renderRoster]: one toggle group per student of the class. *)
Definition renderRoster (attendanceData : list AttendanceRecord.t)
    (enrollmentsData : list Enrollment.t) (usersData : list User.t)
    (classId date : string) : option (list Attendance.toggle) :=
  mapM (renderedToggle attendanceData classId date)
       (Attendance.getClassStudents enrollmentsData usersData classId).

End AttendanceViews.

(** ** Submitting and grading (js/components/assignments) *)

Module Submission.
Record t : Type := mk {
  id : string;
  assignment_id : string;
  student_id : string;
  submitted_at : string;
  content : string;
  file_path : option string;
  grade : jsval;
  feedback : option string;
  graded_at : option string;
  status : string
}.
End Submission.

Module Grading.

Local Open Scope list_scope.

(** A record of the grades store as the grade modal writes it: the
    fields of a grade and who graded, when and with which comment. *)
Record gradeRecord : Type := mkGradeRecord {
  base : Grade.t;
  graded_by : string;
  graded_at : string;
  comments : option string
}.

(** The module's [submissionsData] and the two overlay items that the
    modals write, as the values they are the JSON of. *)
Record state : Type := mkState {
  submissionsData : list Submission.t;
  submissionsOverlay : option (list Submission.t);
  gradesOverlay : option (list gradeRecord)
}.

(** The warnings of the two handlers: "Points must be between 0 and
    max_points." with the assignment's max_points, and "Please enter
    your submission.". *)
Inductive warning : Type :=
| PointsOutOfRange (max_points : number)
| EmptySubmission.

Inductive outcome : Type :=
| Warned (message : warning)
| Saved (st : state).

(** [text || null] *)
Definition orNull (text : string) : option string :=
  if decide (text = "") then None else Some text.

(** [isNaN(points) || points < 0 || points > assignment.max_points] *)
Definition outOfRange (points : number) (assignment : Assignment.t) : bool :=
  match points with
  | NaN => true
  | _ => ngt (Fin 0%Q) points || ngt points (Assignment.max_points assignment)
  end.

(** The grade record that the save handler of [showGradeModal] builds. *)
Definition newGradeRecord (id : string) (sub : Submission.t)
    (assignment : Assignment.t) (user : User.t) (points : number)
    (feedback now : string) : gradeRecord :=
  mkGradeRecord
    (Grade.mk id (Submission.student_id sub) (Assignment.class_id assignment)
       (Assignment.id assignment) points (Assignment.max_points assignment)
       (or_else (Assignment.weight assignment) (Num (Fin 0.25%Q)))
       (Assignments.getLetterGrade
          (nmul (ndiv points (Assignment.max_points assignment))
                (Fin 100%Q))))
    (User.id user) now (orNull feedback).

(** The click handler of "Save Grade" in [showGradeModal(subId,
    assignment, user)], for the number [points] and the trimmed text
    [feedback] of the form; there is no modal, and no handler, for a
    [subId] that no submission has.  [nowSubmission] and [nowGrade] are
    the two readings of the clock, [gradeId] is [generateId('g')]. *)
Definition saveGrade (subId : string) (assignment : Assignment.t)
    (user : User.t) (points : number) (feedback : string)
    (nowSubmission nowGrade gradeId : string) (st : state) : option outcome :=
  match list_find (λ s, Submission.id s = subId) (submissionsData st) with
  | None => None
  | Some (idx, sub) =>
      if outOfRange points assignment
      then Some (Warned (PointsOutOfRange (Assignment.max_points assignment)))
      else
        let graded :=
          Submission.mk (Submission.id sub) (Submission.assignment_id sub)
            (Submission.student_id sub) (Submission.submitted_at sub)
            (Submission.content sub) (Submission.file_path sub)
            (Num points) (orNull feedback) (Some nowSubmission) "graded" in
        let submissionsData' := <[idx := graded]> (submissionsData st) in
        let gradesData := default [] (gradesOverlay st) in
        Some (Saved
                (mkState submissionsData' (Some submissionsData')
                   (Some (gradesData
                            ++ [newGradeRecord gradeId sub assignment user
                                               points feedback nowGrade]))))
  end.

(** The click handler of "Submit" in [showSubmitModal(assignmentId,
    user)], for the trimmed text [content]; there is no modal for an
    [assignmentId] that no assignment has. *)
Definition submitWork (assignmentsData : list Assignment.t)
    (assignmentId : string) (user : User.t) (content now subId : string)
    (st : state) : option outcome :=
  match js_find (λ a, Assignment.id a = assignmentId) assignmentsData with
  | None => None
  | Some _ =>
      if decide (content = "")
      then Some (Warned EmptySubmission)
      else
        let submission :=
          Submission.mk subId assignmentId (User.id user) now content None
                        Null None None "submitted" in
        let submissionsData' := submissionsData st ++ [submission] in
        Some (Saved (mkState submissionsData' (Some submissionsData')
                             (gradesOverlay st)))
  end.

(** [subs.length] and [ungraded] of a row of
    [renderTeacherAssignments]. *)
Definition submissionsOf (submissionsData : list Submission.t)
    (a : Assignment.t) : list Submission.t :=
  filter (λ s, Submission.assignment_id s = Assignment.id a) submissionsData.

Definition ungraded (submissionsData : list Submission.t) (a : Assignment.t)
  : nat :=
  length (filter (λ s, Submission.status s = "submitted")
                 (submissionsOf submissionsData a)).

End Grading.

(** ** The student's grades page (js/components/gradebook) *)

Module ClassSection.
Record t : Type := mk {
  id : string;
  name : string;
  teacher_id : string
}.
End ClassSection.

Module GradebookViews.

Local Open Scope list_scope.

(** What [renderStudentGrades(user)] puts into the container: a notice,
    or one block per class, with the name of the class and its
    "Weighted Average" row. *)
Inductive page : Type :=
| NoGrades
| Blocks (blocks : list (string * string)).

Definition renderStudentGrades (gradesData : list Grade.t)
    (classesData : list ClassSection.t) (enrollmentsData : list Enrollment.t)
    (user : User.t) : page :=
  let myClassIds :=
    Enrollment.class_id <$>
      filter (λ e, Enrollment.student_id e = User.id user
                   ∧ Enrollment.status e = "active") enrollmentsData in
  let myGrades := filter (λ g, Grade.student_id g = User.id user) gradesData in
  match myGrades with
  | [] => NoGrades
  | _ =>
      Blocks
        (omap (λ classId,
                 match js_find (λ c, ClassSection.id c = classId) classesData
                 with
                 | None => None
                 | Some cls =>
                     (λ cell, (ClassSection.name cls, cell)) <$>
                       Gradebook.renderStudentGrades gradesData (User.id user)
                                                     classId
                 end) myClassIds)
  end.

(** The classes that [setupTeacherGradebook] offers in the selector. *)
Definition gradebookClasses (classesData : list ClassSection.t)
    (user : User.t) : list ClassSection.t :=
  if decide (User.role user = "admin") then classesData
  else filter (λ c, ClassSection.teacher_id c = User.id user) classesData.

End GradebookViews.

(** * Properties *)

Local Open Scope list_scope.

(** ** Letter-grade bands *)

(** The band table of the specification, highest threshold first, and
    the letter it assigns: that of the first band whose threshold the
    percentage reaches, [F] if it reaches none. *)
Definition bands : list (Q * string) :=
  [(97, "A+"); (93, "A"); (90, "A-"); (87, "B+"); (83, "B"); (80, "B-");
   (77, "C+"); (73, "C"); (70, "C-"); (67, "D+"); (63, "D"); (60, "D-")]%Q.

Definition letterOfBands (p : Q) : string :=
  match List.find (λ b, Qle_bool (fst b) p) bands with
  | Some b => snd b
  | None => "F"
  end.

Ltac band t p :=
  let E := fresh "E" in
  destruct (Qle_bool t p) eqn:E;
  [ apply Qle_bool_iff in E
  | assert (p < t)%Q by (apply Qnot_le_lt; rewrite <- Qle_bool_iff, E;
                          discriminate) ].

Ltac all_bands p :=
  band 97%Q p; [| band 93%Q p; [| band 90%Q p; [| band 87%Q p;
  [| band 83%Q p; [| band 80%Q p; [| band 77%Q p; [| band 73%Q p;
  [| band 70%Q p; [| band 67%Q p; [| band 63%Q p; [| band 60%Q p]]]]]]]]]]].

Lemma getLetterGrade_copies (n : number) :
  Assignments.getLetterGrade n = Gradebook.getLetterGrade n.
Proof. reflexivity. Qed.

Lemma getLetterGrade_letterOfBands (p : Q) :
  Gradebook.getLetterGrade (Fin p) = letterOfBands p.
Proof.
  unfold Gradebook.getLetterGrade, letterOfBands, bands, nge; simpl.
  all_bands p; reflexivity.
Qed.

Lemma getLetterGrade_top (p : Q) :
  (97 <= p)%Q → Gradebook.getLetterGrade (Fin p) = "A+".
Proof.
  intros H. unfold Gradebook.getLetterGrade, nge.
  apply Qle_bool_iff in H. now rewrite H.
Qed.

Lemma getLetterGrade_bottom (p : Q) :
  (p < 60)%Q → Gradebook.getLetterGrade (Fin p) = "F".
Proof.
  intros H. unfold Gradebook.getLetterGrade, nge.
  all_bands p; try reflexivity; lra.
Qed.

(** The function is defined on the special values too. *)
Lemma getLetterGrade_special :
  Gradebook.getLetterGrade PosInf = "A+"
  ∧ Gradebook.getLetterGrade NegInf = "F"
  ∧ Gradebook.getLetterGrade NaN = "F"
  ∧ Gradebook.getLetterGrade NegZero = "F".
Proof. repeat split. Qed.

(** C2.  [getLetterGrade] (both copies) is a function of the percentage
    alone, defined for every number: it is the first band, from the top,
    whose threshold the percentage reaches.  Every [p >= 97] gives A+,
    93 gives A and 92.999 gives A-, every [p < 60] (every negative [p]
    among them) gives F, and every [p > 100] gives A+. *)
Theorem getLetterGrade_bands (p : Q) :
  ((97 <= p)%Q → Gradebook.getLetterGrade (Fin p) = "A+"
                 ∧ Assignments.getLetterGrade (Fin p) = "A+")
  ∧ ((p < 60)%Q → Gradebook.getLetterGrade (Fin p) = "F"
                  ∧ Assignments.getLetterGrade (Fin p) = "F")
  ∧ ((p < 0)%Q → Gradebook.getLetterGrade (Fin p) = "F"
                 ∧ Assignments.getLetterGrade (Fin p) = "F")
  ∧ ((100 < p)%Q → Gradebook.getLetterGrade (Fin p) = "A+"
                   ∧ Assignments.getLetterGrade (Fin p) = "A+")
  ∧ Gradebook.getLetterGrade (Fin 93) = "A"
  ∧ Assignments.getLetterGrade (Fin 93) = "A"
  ∧ Gradebook.getLetterGrade (Fin 92.999) = "A-"
  ∧ Assignments.getLetterGrade (Fin 92.999) = "A-"
  ∧ Gradebook.getLetterGrade (Fin p) = letterOfBands p
  ∧ Assignments.getLetterGrade (Fin p) = letterOfBands p.
Proof.
  repeat split; try reflexivity;
    try (first [ apply getLetterGrade_top; lra
               | apply getLetterGrade_bottom; lra ]);
    apply getLetterGrade_letterOfBands.
Qed.

Lemma getLetterGrade_bands_witness :
  Gradebook.getLetterGrade (Fin 98.5) = "A+"
  ∧ Gradebook.getLetterGrade (Fin 59.9) = "F"
  ∧ Gradebook.getLetterGrade (Fin (-12)) = "F"
  ∧ Assignments.getLetterGrade (Fin 250) = "A+".
Proof.
  split; [| split; [| split]].
  - destruct (getLetterGrade_bands 98.5) as [H _].
    apply H. unfold Qle; simpl; lia.
  - destruct (getLetterGrade_bands 59.9) as (_ & H & _).
    apply H. unfold Qlt; simpl; lia.
  - destruct (getLetterGrade_bands (-12)) as (_ & _ & H & _).
    apply H. unfold Qlt; simpl; lia.
  - destruct (getLetterGrade_bands 250) as (_ & _ & _ & H & _).
    apply H. unfold Qlt; simpl; lia.
Defined.

(** ** Roster resolution *)

Lemma getClassStudents_copies enrollmentsData usersData classId :
  Attendance.getClassStudents enrollmentsData usersData classId
  = Gradebook.getClassStudents enrollmentsData usersData classId.
Proof. reflexivity. Qed.

(** A user has an active enrollment in the class. *)
Definition activeIn (enrollmentsData : list Enrollment.t) (classId : string)
    (u : User.t) : Prop :=
  ∃ e, e ∈ enrollmentsData
       ∧ Enrollment.class_id e = classId
       ∧ Enrollment.student_id e = User.id u
       ∧ Enrollment.status e = "active".

Lemma getClassStudents_elem_of enrollmentsData usersData classId u :
  u ∈ Gradebook.getClassStudents enrollmentsData usersData classId
  ↔ u ∈ usersData ∧ activeIn enrollmentsData classId u.
Proof.
  unfold Gradebook.getClassStudents, activeIn.
  rewrite list_elem_of_filter, list_elem_of_fmap.
  split.
  - intros [(e & Hid & He) Hu]. split; [done|].
    apply list_elem_of_filter in He as [[Hc Hs] He].
    exists e. by rewrite Hid.
  - intros [Hu (e & He & Hc & Hid & Hs)]. split; [|done].
    exists e. split; [done|]. apply list_elem_of_filter. done.
Qed.

(** C5.  The roster of a class, in either module, holds exactly the users
    that have an enrollment in that class with status [active], in the
    order of the user table; a user whose enrollments in the class all
    have status [withdrawn] is not in it. *)
Theorem getClassStudents_active_roster
    (enrollmentsData : list Enrollment.t) (usersData : list User.t)
    (classId : string) (u : User.t) :
  (u ∈ Gradebook.getClassStudents enrollmentsData usersData classId
   ↔ u ∈ usersData ∧ activeIn enrollmentsData classId u)
  ∧ (u ∈ Attendance.getClassStudents enrollmentsData usersData classId
     ↔ u ∈ usersData ∧ activeIn enrollmentsData classId u)
  ∧ sublist (Gradebook.getClassStudents enrollmentsData usersData classId)
            usersData
  ∧ ((∀ e, e ∈ enrollmentsData → Enrollment.class_id e = classId
           → Enrollment.student_id e = User.id u
           → Enrollment.status e = "withdrawn")
     → (u ∉ Gradebook.getClassStudents enrollmentsData usersData classId)
       ∧ (u ∉ Attendance.getClassStudents enrollmentsData usersData classId)).
Proof.
  split; [apply getClassStudents_elem_of|].
  split; [apply getClassStudents_elem_of|].
  split; [apply sublist_filter|].
  intros Hw.
  assert (u ∉ Gradebook.getClassStudents enrollmentsData usersData classId)
    as Hn; [|done].
  rewrite getClassStudents_elem_of.
  intros [_ (e & He & Hc & Hid & Hs)].
  specialize (Hw e He Hc Hid). congruence.
Qed.

Definition roster_enrollments : list Enrollment.t :=
  [Enrollment.mk "e1" "u-ann" "c-math" "withdrawn";
   Enrollment.mk "e2" "u-bob" "c-math" "active";
   Enrollment.mk "e3" "u-ann" "c-art" "active"].

Definition roster_users : list User.t :=
  [User.mk "u-ann" "ann" "Ann" "student" true;
   User.mk "u-bob" "bob" "Bob" "student" true].

Lemma getClassStudents_active_roster_witness :
  (User.mk "u-ann" "ann" "Ann" "student" true
     ∉ Gradebook.getClassStudents roster_enrollments roster_users "c-math")
  ∧ (User.mk "u-ann" "ann" "Ann" "student" true
     ∉ Attendance.getClassStudents roster_enrollments roster_users "c-math").
Proof.
  destruct (getClassStudents_active_roster roster_enrollments roster_users
              "c-math" (User.mk "u-ann" "ann" "Ann" "student" true))
    as (_ & _ & _ & H).
  apply H. intros e He Hc Hid.
  unfold roster_enrollments in He.
  repeat (apply elem_of_cons in He as [-> | He]; simpl in *;
          try reflexivity; try discriminate).
  by apply elem_of_nil in He.
Defined.

(** A student who withdrew and enrolled again is in the roster. *)
Example getClassStudents_reenrolled :
  Gradebook.getClassStudents
    (Enrollment.mk "e4" "u-ann" "c-math" "active" :: roster_enrollments)
    roster_users "c-math" = roster_users.
Proof. reflexivity. Qed.

(** ** Attendance upsert *)

Section FindFilter.

Context {A : Type} (P : A → Prop) `{∀ x, Decision (P x)}.

Lemma list_find_split (l : list A) i x :
  list_find P l = Some (i, x) →
  ∃ l1 l2, l = l1 ++ x :: l2 ∧ length l1 = i
           ∧ Forall (λ z, ¬ P z) l1 ∧ P x.
Proof.
  intros (Hi & Hx & Hbefore)%list_find_Some.
  exists (take i l), (drop (S i) l).
  split; [by rewrite take_drop_middle|].
  split; [apply length_take_le, Nat.lt_le_incl, (lookup_lt_Some _ _ _ Hi)|].
  split; [|done].
  apply Forall_lookup. intros j y Hj.
  pose proof (lookup_lt_Some _ _ _ Hj) as Hlt.
  rewrite length_take in Hlt.
  rewrite lookup_take_lt in Hj by lia.
  apply (Hbefore j y Hj). lia.
Qed.

Lemma filter_none (l : list A) :
  Forall (λ z, ¬ P z) l → filter P l = [].
Proof.
  induction 1 as [|z l Hz _ IH]; [done|].
  by rewrite filter_cons_False.
Qed.

(** Overwriting the first match by a matching element replaces the head
    of the matches. *)
Lemma filter_insert_first (l : list A) i x y :
  list_find P l = Some (i, x) → P y →
  filter P l = x :: filter P (drop (S i) l)
  ∧ filter P (<[i := y]> l) = y :: filter P (drop (S i) l).
Proof.
  intros Hfind Hy.
  destruct (list_find_split l i x Hfind) as (l1 & l2 & -> & <- & Hl1 & Hx).
  rewrite insert_app_r_alt, Nat.sub_diag by lia. simpl.
  rewrite !filter_app, (filter_none l1 Hl1). simpl.
  rewrite !filter_cons_True by done.
  replace (drop (S (length l1)) (l1 ++ x :: l2)) with l2; [done|].
  rewrite (cons_middle x l1 l2), app_assoc.
  rewrite drop_app_length'; [done|].
  rewrite length_app. simpl. lia.
Qed.

(** Overwriting an element that does not match by one that does not
    match either leaves the matches as they are. *)
Lemma filter_insert_unrelated (l : list A) i x y :
  l !! i = Some x → ¬ P x → ¬ P y → filter P (<[i := y]> l) = filter P l.
Proof.
  intros Hi Hx Hy.
  rewrite <-(take_drop_middle l i x Hi) at 2.
  rewrite insert_take_drop by (by eapply lookup_lt_Some).
  rewrite !filter_app, !filter_cons_False by done.
  done.
Qed.

End FindFilter.

(** No toggle group of the batch has a button pressed for student [s]. *)
Definition notPressed (s : string) (toggles : list Attendance.toggle) : Prop :=
  Forall (λ g, ∀ status, g ≠ Some (s, status)) toggles.

Section Upsert.

Import Attendance.

Variable generateId : nat → string.
Variables (classId date : string).

(** Marking another student leaves the records of student [s] for the
    day as they are. *)
Lemma saveStep_other user now st s group :
  (∀ status, group ≠ Some (s, status)) →
  filter (sameKey classId s date)
         (attendanceData (saveStep generateId classId date user now st group))
  = filter (sameKey classId s date) (attendanceData st).
Proof.
  intros Hother. destruct group as [[s' status]|]; [|done].
  assert (s' ≠ s) as Hne by (intros ->; by apply (Hother status)).
  unfold saveStep.
  destruct (list_find _ _) as [[i old]|] eqn:Hfind; simpl.
  - apply list_find_Some in Hfind as (Hi & (_ & Hs & _) & _).
    apply (filter_insert_unrelated _ _ i old); [done| |];
      unfold sameKey; simpl; intros (_ & ? & _); congruence.
  - rewrite filter_app, filter_cons_False, filter_nil, app_nil_r; [done|].
    unfold sameKey; simpl. intros (_ & ? & _); congruence.
Qed.

Lemma saveSteps_other user now toggles st s :
  notPressed s toggles →
  filter (sameKey classId s date)
    (attendanceData
       (fold_left (saveStep generateId classId date user now) toggles st))
  = filter (sameKey classId s date) (attendanceData st).
Proof.
  intros Hnp. revert st.
  induction Hnp as [|g toggles Hg _ IH]; intros st; [done|].
  simpl. rewrite IH. by apply saveStep_other.
Qed.

(** Marking student [s]: the first record of the key, if there is one,
    is replaced by a record with its id, else a record with a new id is
    added; either way [note] is [null]. *)
Lemma saveStep_same user now st s status :
  filter (sameKey classId s date)
         (attendanceData
            (saveStep generateId classId date user now st (Some (s, status))))
  = match filter (sameKey classId s date) (attendanceData st) with
    | [] =>
        [AttendanceRecord.mk (generateId (generated st)) classId s date
                             status (User.id user) now None]
    | old :: others =>
        AttendanceRecord.mk (AttendanceRecord.id old) classId s date
                            status (User.id user) now None :: others
    end.
Proof.
  unfold saveStep.
  destruct (list_find _ _) as [[i old]|] eqn:Hfind; simpl.
  - edestruct (filter_insert_first (sameKey classId s date)
                 (attendanceData st) i old) as [-> ->]; [done| |done].
    by unfold sameKey.
  - apply list_find_None in Hfind.
    rewrite filter_app, (filter_none _ _ Hfind). simpl.
    rewrite filter_cons_True by (by unfold sameKey). done.
Qed.

End Upsert.

Section Overwrite.

Import Attendance.

Variable generateId : nat → string.
Variables (classId date : string).

(** Marking another student leaves the first record of student [s] for
    the day where it is. *)
Lemma saveStep_other_find user now st s group i x :
  (∀ status, group ≠ Some (s, status)) →
  list_find (sameKey classId s date) (attendanceData st) = Some (i, x) →
  list_find (sameKey classId s date)
    (attendanceData (saveStep generateId classId date user now st group))
  = Some (i, x).
Proof.
  intros Hother Hfind. destruct group as [[s' status]|]; [|done].
  assert (s' ≠ s) as Hne by (intros ->; by apply (Hother status)).
  apply list_find_Some in Hfind as (Hi & Hx & Hbefore).
  unfold saveStep.
  destruct (list_find (sameKey classId s' date) _) as [[j old]|] eqn:Hj;
    simpl; apply list_find_Some.
  - apply list_find_Some in Hj as (Hj & (_ & Hs' & _) & _).
    assert (j ≠ i) as Hji.
    { intros ->. rewrite Hi in Hj. injection Hj as ->.
      destruct Hx as (_ & Hs & _). congruence. }
    split; [by rewrite list_lookup_insert_ne|]. split; [done|].
    intros k y Hk Hlt.
    destruct (decide (k = j)) as [->|Hkj].
    + rewrite list_lookup_insert_eq in Hk by (by eapply lookup_lt_Some).
      injection Hk as <-. unfold sameKey; simpl. intros (_ & ? & _).
      congruence.
    + rewrite list_lookup_insert_ne in Hk by done. by eapply Hbefore.
  - pose proof (lookup_lt_Some _ _ _ Hi) as Hlen.
    split; [by rewrite lookup_app_l|]. split; [done|].
    intros k y Hk Hlt. rewrite lookup_app_l in Hk by lia.
    by eapply Hbefore.
Qed.

Lemma saveSteps_other_find user now toggles st s i x :
  notPressed s toggles →
  list_find (sameKey classId s date) (attendanceData st) = Some (i, x) →
  list_find (sameKey classId s date)
    (attendanceData
       (fold_left (saveStep generateId classId date user now) toggles st))
  = Some (i, x).
Proof.
  intros Hnp. revert st.
  induction Hnp as [|g toggles Hg _ IH]; intros st Hfind; [done|].
  simpl. apply IH. by apply saveStep_other_find.
Qed.

(** The overwrite itself. *)
Lemma saveStep_overwrite user now st s status i old :
  list_find (sameKey classId s date) (attendanceData st) = Some (i, old) →
  attendanceData
    (saveStep generateId classId date user now st (Some (s, status)))
  = <[i := AttendanceRecord.mk (AttendanceRecord.id old) classId s date
             status (User.id user) now None]> (attendanceData st).
Proof. intros Hfind. unfold saveStep. by rewrite Hfind. Qed.

End Overwrite.

(** C4.  From a table without a record for (class, student, date), two
    saves that each mark the student, with any statuses, by any users and
    along with any markings of other students, leave exactly one record of
    that key: after the first save the record that it created, after the
    second a record with the same id and the second status. *)
Theorem saveAttendance_upsert_twice (generateId : nat → string)
    (classId date s status1 status2 : string) (user1 user2 : User.t)
    (now1 now2 : string) (pre1 post1 pre2 post2 : list Attendance.toggle)
    (attendanceData0 : list AttendanceRecord.t) (generated0 : nat) :
  filter (Attendance.sameKey classId s date) attendanceData0 = [] →
  notPressed s pre1 → notPressed s post1 →
  notPressed s pre2 → notPressed s post2 →
  let first :=
    Attendance.saveAttendance generateId classId date user1 now1
      (pre1 ++ Some (s, status1) :: post1) attendanceData0 generated0 in
  let second :=
    Attendance.saveAttendance generateId classId date user2 now2
      (pre2 ++ Some (s, status2) :: post2)
      (Attendance.attendanceData first) (Attendance.generated first) in
  ∃ id1,
    (∃ n, id1 = generateId n)
    ∧ filter (Attendance.sameKey classId s date)
             (Attendance.attendanceData first)
      = [AttendanceRecord.mk id1 classId s date status1 (User.id user1)
                             now1 None]
    ∧ filter (Attendance.sameKey classId s date)
             (Attendance.attendanceData second)
      = [AttendanceRecord.mk id1 classId s date status2 (User.id user2)
                             now2 None].
Proof.
  intros Hfresh Hpre1 Hpost1 Hpre2 Hpost2 first second.
  assert (∃ n, filter (Attendance.sameKey classId s date)
                      (Attendance.attendanceData first)
               = [AttendanceRecord.mk (generateId n) classId s date status1
                                      (User.id user1) now1 None])
    as [n Hfirst].
  { subst first. unfold Attendance.saveAttendance.
    rewrite fold_left_app. cbn [fold_left].
    rewrite (saveSteps_other _ _ _ _ _ _ _ s Hpost1), saveStep_same.
    rewrite (saveSteps_other _ _ _ _ _ _ _ s Hpre1).
    cbn [Attendance.attendanceData]. rewrite Hfresh. by eexists. }
  exists (generateId n). split; [by exists n|]. split; [done|].
  subst second. unfold Attendance.saveAttendance.
  rewrite fold_left_app. cbn [fold_left].
  rewrite (saveSteps_other _ _ _ _ _ _ _ s Hpost2), saveStep_same.
  rewrite (saveSteps_other _ _ _ _ _ _ _ s Hpre2).
  cbn [Attendance.attendanceData]. by rewrite Hfirst.
Qed.

Definition attendance_ids (n : nat) : string :=
  match n with
  | O => "att-a"
  | S O => "att-b"
  | _ => "att-c"
  end.

Definition teacher : User.t := User.mk "u-tea" "teacher" "Tea" "teacher" true.

Lemma saveAttendance_upsert_twice_witness :
  ∃ id1,
    (∃ n, id1 = attendance_ids n)
    ∧ filter (Attendance.sameKey "c-math" "u-ann" "2026-03-02")
        (Attendance.attendanceData
           (Attendance.saveAttendance attendance_ids "c-math" "2026-03-02"
              teacher "t1" ([Some ("u-bob", "late")]
                            ++ Some ("u-ann", "absent") :: [None]) [] 0%nat))
      = [AttendanceRecord.mk id1 "c-math" "u-ann" "2026-03-02" "absent"
                             "u-tea" "t1" None]
    ∧ filter (Attendance.sameKey "c-math" "u-ann" "2026-03-02")
        (Attendance.attendanceData
           (Attendance.saveAttendance attendance_ids "c-math" "2026-03-02"
              teacher "t2" ([] ++ Some ("u-ann", "present") :: [])
              (Attendance.attendanceData
                 (Attendance.saveAttendance attendance_ids "c-math"
                    "2026-03-02" teacher "t1"
                    ([Some ("u-bob", "late")]
                     ++ Some ("u-ann", "absent") :: [None]) [] 0%nat))
              (Attendance.generated
                 (Attendance.saveAttendance attendance_ids "c-math"
                    "2026-03-02" teacher "t1"
                    ([Some ("u-bob", "late")]
                     ++ Some ("u-ann", "absent") :: [None]) [] 0%nat))))
      = [AttendanceRecord.mk id1 "c-math" "u-ann" "2026-03-02" "present"
                             "u-tea" "t2" None].
Proof.
  apply (saveAttendance_upsert_twice attendance_ids "c-math" "2026-03-02"
           "u-ann" "absent" "present" teacher teacher "t1" "t2"
           [Some ("u-bob", "late")] [None] [] [] [] 0%nat).
  - reflexivity.
  - repeat constructor. discriminate.
  - repeat constructor. discriminate.
  - constructor.
  - constructor.
Defined.

Lemma list_find_insert_first {A} (P : A → Prop) `{∀ x, Decision (P x)}
    (l : list A) i x y :
  list_find P l = Some (i, x) → P y →
  list_find P (<[i := y]> l) = Some (i, y).
Proof.
  intros (Hi & Hx & Hbefore)%list_find_Some Hy. apply list_find_Some.
  split; [by rewrite list_lookup_insert_eq by (by eapply lookup_lt_Some)|].
  split; [done|].
  intros j z Hj Hlt. rewrite list_lookup_insert_ne in Hj by lia.
  by eapply Hbefore.
Qed.

(** C10.  When a save marks a student for whom the table already has a
    record of the same class and date, the record is replaced, where it
    stands, by one that has the old id, the new status, the saving user
    as [recorded_by], the time of the save as [recorded_at] and [null] as
    [note], whatever the old record held. *)
Theorem saveAttendance_overwrite_keeps_only_id (generateId : nat → string)
    (classId date s status : string) (user : User.t) (now : string)
    (pre post : list Attendance.toggle)
    (attendanceData0 : list AttendanceRecord.t) (generated0 : nat)
    (i : nat) (old : AttendanceRecord.t) :
  list_find (Attendance.sameKey classId s date) attendanceData0
    = Some (i, old) →
  notPressed s pre → notPressed s post →
  let record :=
    AttendanceRecord.mk (AttendanceRecord.id old) classId s date status
                        (User.id user) now None in
  Attendance.attendanceData
    (Attendance.saveAttendance generateId classId date user now
       (pre ++ Some (s, status) :: post) attendanceData0 generated0) !! i
    = Some record
  ∧ Attendance.attendanceData
      (Attendance.saveAttendance generateId classId date user now
         [Some (s, status)] attendanceData0 generated0)
    = <[i := record]> attendanceData0.
Proof.
  intros Hfind Hpre Hpost record. split.
  - unfold Attendance.saveAttendance.
    rewrite fold_left_app. cbn [fold_left].
    set (st := fold_left _ pre _).
    assert (list_find (Attendance.sameKey classId s date)
                      (Attendance.attendanceData st) = Some (i, old))
      as Hst by (by apply saveSteps_other_find).
    pose proof (saveStep_overwrite generateId classId date user now st s
                  status i old Hst) as Hstep.
    assert (list_find (Attendance.sameKey classId s date)
              (Attendance.attendanceData
                 (Attendance.saveStep generateId classId date user now st
                    (Some (s, status)))) = Some (i, record)) as Hnew.
    { rewrite Hstep. eapply list_find_insert_first; [done|].
      by unfold Attendance.sameKey. }
    apply (saveSteps_other_find generateId classId date user now post _ s
             i record Hpost) in Hnew.
    by apply list_find_Some in Hnew as [? _].
  - unfold Attendance.saveAttendance. cbn [fold_left].
    by apply saveStep_overwrite.
Qed.

Definition attendance_table : list AttendanceRecord.t :=
  [AttendanceRecord.mk "att-001" "c-math" "u-bob" "2026-03-02" "present"
                       "u-tea" "t0" None;
   AttendanceRecord.mk "att-002" "c-math" "u-ann" "2026-03-02" "late"
                       "u-tea" "t0" (Some "bus strike")].

Lemma saveAttendance_overwrite_keeps_only_id_witness :
  Attendance.attendanceData
    (Attendance.saveAttendance attendance_ids "c-math" "2026-03-02" teacher
       "t1" ([None] ++ Some ("u-ann", "excused") :: []) attendance_table
       0%nat) !! 1%nat
  = Some (AttendanceRecord.mk "att-002" "c-math" "u-ann" "2026-03-02"
                              "excused" "u-tea" "t1" None).
Proof.
  apply (saveAttendance_overwrite_keeps_only_id attendance_ids "c-math"
           "2026-03-02" "u-ann" "excused" teacher "t1" [None] []
           attendance_table 0%nat 1%nat
           (AttendanceRecord.mk "att-002" "c-math" "u-ann" "2026-03-02"
                                "late" "u-tea" "t0" (Some "bus strike"))).
  - reflexivity.
  - repeat constructor. discriminate.
  - constructor.
Defined.

(** ** The import script *)

Section ImportScript.

Import JsString Importer.

Variable toLowerCase : JsString.t → JsString.t.
Variable stringToNumber : JsString.t → number.
Variable builtinProperty : JsString.t → JsString.t → option JsString.t.
Variable builtinKey : JsString.t → JsString.t.
Variable files : JsString.t → file.
Variable writable : path → bool.

Abbreviation run :=
  (main toLowerCase stringToNumber builtinProperty builtinKey files writable).

Lemma main_usage (args : list JsString.t) :
  (length args < 2)%nat → run args = ([LogUsage entityNames], Exit 0).
Proof.
  destruct args as [|a [|b rest]]; simpl; [done|done|lia].
Qed.

(** A name that is neither a key of [FIELD_MAPS] nor inherited is
    rejected, with the list of the names, and nothing is written. *)
Lemma main_unknown_entity inputFile entity rest csvText row0 rows :
  getProperty FIELD_MAPS entity = Absent →
  files inputFile = Text csvText →
  Csv.parseCSV csvText = row0 :: rows →
  run (inputFile :: entity :: rest)
  = ([LogConverting inputFile entity;
      LogParsed (Z.of_nat (length (row0 :: rows)) - 1) (length row0);
      ErrUnknownEntity entity; ErrAvailable entityNames], Exit 1).
Proof.
  intros Hent Hfile Hrows. unfold main, convertCSV.
  by rewrite Hfile, Hrows, Hent.
Qed.

(** A name that [FIELD_MAPS] inherits passes the test of [convertCSV]:
    the records are converted and written. *)
Lemma main_inherited_entity inputFile entity csvText row0 rows :
  entity ∈ objectPrototypeKeys →
  files inputFile = Text csvText →
  writable (Sample (entity ++ lit ".json")) = true →
  Csv.parseCSV csvText = row0 :: rows →
  ∃ records,
    run [inputFile; entity]
    = ([LogConverting inputFile entity;
        LogParsed (Z.of_nat (length (row0 :: rows)) - 1) (length row0);
        LogConverted (length records);
        WriteFile (Sample (entity ++ lit ".json")) records;
        LogWritten (Sample (entity ++ lit ".json"))], Finished)
    ∧ length records = length rows.
Proof.
  intros Hent Hfile Hwrite Hrows.
  assert (getProperty FIELD_MAPS entity = Inherited) as Hprop.
  { unfold objectPrototypeKeys in Hent. simpl in Hent.
    repeat (apply elem_of_cons in Hent as [-> | Hent]; [reflexivity|]).
    by apply elem_of_nil in Hent. }
  unfold main, convertCSV. rewrite Hfile, Hrows, Hprop, Hwrite.
  eexists. split; [reflexivity|]. by rewrite length_imap.
Qed.

End ImportScript.

(** The nine recognised names, as the specification lists them. *)
Definition recognizedEntities : list JsString.t :=
  JsString.lit <$> ["users"; "classes"; "enrollments"; "assignments";
                    "submissions"; "attendance"; "grades"; "timetable";
                    "announcements"].

Lemma entityNames_recognized :
  Importer.entityNames ≡ₚ recognizedEntities.
Proof.
  unfold Importer.entityNames, recognizedEntities. simpl.
  do 3 apply perm_skip.
  etrans; [apply perm_swap|]. apply perm_skip, perm_swap.
Qed.

(** A platform for the examples: ASCII lower-casing, no number read from
    any text, no property found on a built-in, one file to read, and
    every path writable. *)
Definition asciiLower (s : JsString.t) : JsString.t :=
  (λ c, if decide (65 ≤ c ≤ 90)%N then (c + 32)%N else c) <$> s.

Definition sampleFiles (name : JsString.t) : Importer.file :=
  if decide (name = JsString.lit "marks.csv")
  then Importer.Text (JsString.lit "student,score" ++ [JsString.LF]
                      ++ JsString.lit "u-ann,81")
  else Importer.NoFile.

Definition sampleRun : list JsString.t → list Importer.output * Importer.termination :=
  Importer.main asciiLower (λ _, NaN) (λ _ _, None) (λ h, h) sampleFiles
                (λ _, true).

Lemma inherited_not_recognized (entity : JsString.t) :
  entity ∈ JsString.objectPrototypeKeys → entity ∉ recognizedEntities.
Proof.
  revert entity. apply Forall_forall.
  by apply (bool_decide_unpack _); vm_compute.
Qed.

(** C7, as the script behaves: with fewer than two arguments it prints
    the usage text, which lists the entity names, and exits with status
    0; it prints nothing else and writes nothing. *)
Theorem main_usage_exits_zero
    (toLowerCase : JsString.t → JsString.t)
    (stringToNumber : JsString.t → number)
    (builtinProperty : JsString.t → JsString.t → option JsString.t)
    (builtinKey : JsString.t → JsString.t)
    (files : JsString.t → Importer.file)
    (writable : Importer.path → bool) (args : list JsString.t) :
  (length args < 2)%nat →
  let run := Importer.main toLowerCase stringToNumber builtinProperty
                           builtinKey files writable args in
  fst run = [Importer.LogUsage Importer.entityNames]
  ∧ snd run = Importer.Exit 0
  ∧ Importer.exitCode (snd run) = 0%Z.
Proof.
  intros Hlen run. subst run.
  by rewrite (main_usage _ _ _ _ _ _ args Hlen).
Qed.

Lemma main_usage_exits_zero_witness :
  fst (sampleRun [JsString.lit "marks.csv"])
    = [Importer.LogUsage Importer.entityNames]
  ∧ snd (sampleRun [JsString.lit "marks.csv"]) = Importer.Exit 0
  ∧ Importer.exitCode (snd (sampleRun [JsString.lit "marks.csv"])) = 0%Z.
Proof.
  apply (main_usage_exits_zero asciiLower (λ _, NaN) (λ _ _, None)
           (λ h, h) sampleFiles (λ _, true) [JsString.lit "marks.csv"]).
  simpl. lia.
Defined.

(** C7 as stated fails: a run with a single argument does not end with a
    non-zero status. *)
Lemma main_usage_nonzero_counterexample :
  (length [JsString.lit "marks.csv"] < 2)%nat
  ∧ ¬ (Importer.exitCode (snd (sampleRun [JsString.lit "marks.csv"])) ≠ 0%Z).
Proof. split; [simpl; lia|]. intros H. by apply H. Qed.

(** C6 at the name [constructor], which is none of the nine: the run
    (the output file being writable) prints no error, writes the
    converted records to the sample file of that name and ends
    normally. *)
Theorem main_constructor_is_written :
  (JsString.lit "constructor" ∉ recognizedEntities)
  ∧ sampleRun [JsString.lit "marks.csv"; JsString.lit "constructor"]
    = ([Importer.LogConverting (JsString.lit "marks.csv")
                               (JsString.lit "constructor");
        Importer.LogParsed 1 2;
        Importer.LogConverted 1;
        Importer.WriteFile
          (Importer.Sample (JsString.lit "constructor.json"))
          [[(JsString.lit "id",
             Importer.CStr (JsString.lit "c-imported-1"))]];
        Importer.LogWritten
          (Importer.Sample (JsString.lit "constructor.json"))],
       Importer.Finished).
Proof.
  split; [|by vm_compute].
  apply (inherited_not_recognized (JsString.lit "constructor")).
  by apply (bool_decide_unpack _).
Qed.

(** The same for every name that objects inherit, on any platform. *)
Lemma main_inherited_entity_not_rejected
    toLowerCase stringToNumber builtinProperty builtinKey files writable
    inputFile entity csvText row0 rows :
  entity ∈ JsString.objectPrototypeKeys →
  files inputFile = Importer.Text csvText →
  writable (Importer.Sample (entity ++ JsString.lit ".json")) = true →
  Csv.parseCSV csvText = row0 :: rows →
  let run := Importer.main toLowerCase stringToNumber builtinProperty
                           builtinKey files writable [inputFile; entity] in
  (entity ∉ recognizedEntities)
  ∧ snd run = Importer.Finished
  ∧ ∃ records,
      Importer.WriteFile
        (Importer.Sample (entity ++ JsString.lit ".json")) records
      ∈ fst run.
Proof.
  intros Hent Hfile Hwrite Hrows run.
  destruct (main_inherited_entity toLowerCase stringToNumber builtinProperty
              builtinKey files writable inputFile entity csvText row0 rows
              Hent Hfile Hwrite Hrows) as (records & Hrun & _).
  subst run. rewrite Hrun. simpl. split; [|split; [done|]].
  - by apply inherited_not_recognized.
  - exists records. apply list_elem_of_In. simpl. auto 10.
Qed.

(** ** Loading a dataset *)

Section LoadData.

Import Storage.

Variable json : Type.
Variable JSON_parse : string → option json.
Variable emptyArray : json.
Variable fetch : string → fetched.

(** The address of the static file of a dataset. *)
Definition baselineUrl (pathname name : string) : string :=
  (getBasePath pathname ++ DATA_BASE ++ name ++ ".json")%string.

(** A response that is not [ok] gives the empty array and one warning. *)
Lemma loadData_not_ok pathname localStorage name status body :
  localStorage !! (STORAGE_PREFIX ++ name)%string = None →
  fetch (baselineUrl pathname name) = Response false status body →
  loadData json JSON_parse emptyArray fetch pathname localStorage name
  = mkResult json (Resolved emptyArray) localStorage
      [("[storage] Failed to load " ++ name ++ ".json: "
          ++ digits (Z.of_nat status))%string].
Proof.
  intros Hnone Hfetch. unfold loadData, loadBaseline.
  fold (baselineUrl pathname name). by rewrite Hnone, Hfetch.
Qed.

(** A response that is [ok] with a body that is not JSON rejects. *)
Lemma loadData_malformed pathname localStorage name status body :
  localStorage !! (STORAGE_PREFIX ++ name)%string = None →
  fetch (baselineUrl pathname name) = Response true status body →
  JSON_parse body = None →
  loadData json JSON_parse emptyArray fetch pathname localStorage name
  = mkResult json (Rejected SyntaxError) localStorage [].
Proof.
  intros Hnone Hfetch Hparse. unfold loadData, loadBaseline.
  fold (baselineUrl pathname name). by rewrite Hnone, Hfetch, Hparse.
Qed.

(** An overlay that is not JSON is removed and the static file is used:
    the sibling path recovers. *)
Lemma loadData_malformed_overlay pathname localStorage name cached :
  localStorage !! (STORAGE_PREFIX ++ name)%string = Some cached →
  cached ≠ "" →
  JSON_parse cached = None →
  loadData json JSON_parse emptyArray fetch pathname localStorage name
  = loadBaseline json JSON_parse emptyArray fetch pathname name
      (delete (STORAGE_PREFIX ++ name)%string localStorage).
Proof.
  intros Hsome Hne Hparse. unfold loadData.
  rewrite Hsome, Hparse. by destruct (decide (cached = "")).
Qed.

End LoadData.

(** C8 at a baseline whose body is not JSON: without an overlay and with
    a response that is [ok], [loadData] rejects with the [SyntaxError] of
    [response.json()], and logs no warning. *)
Theorem loadData_malformed_baseline_rejects (json : Type)
    (JSON_parse : string → option json) (emptyArray : json)
    (fetch : string → Storage.fetched)
    (pathname name : string) (localStorage : gmap string string)
    (status : nat) (body : string) :
  localStorage !! (Storage.STORAGE_PREFIX ++ name)%string = None →
  fetch (baselineUrl pathname name) = Storage.Response true status body →
  JSON_parse body = None →
  let r := Storage.loadData json JSON_parse emptyArray fetch pathname
                            localStorage name in
  Storage.promise json r = Storage.Rejected Storage.SyntaxError
  ∧ Storage.promise json r ≠ Storage.Resolved emptyArray
  ∧ Storage.warnings json r = [].
Proof.
  intros Hnone Hfetch Hparse r. subst r.
  by rewrite (loadData_malformed json JSON_parse emptyArray fetch pathname
                localStorage name status body Hnone Hfetch Hparse).
Qed.

(** A stand-in for the platform in the examples: the only JSON text is
    that of the empty array, and every address answers with a page of
    HTML and status 200. *)
Definition parseEmptyArray (text : string) : option (list unit) :=
  if decide (text = "[]") then Some [] else None.

Definition htmlPage (url : string) : Storage.fetched :=
  Storage.Response true 200 "<!DOCTYPE html><title>Sign in</title>".

Lemma loadData_malformed_baseline_rejects_witness :
  let r := Storage.loadData (list unit) parseEmptyArray [] htmlPage
                            "/index.html" ∅ "users" in
  Storage.promise (list unit) r = Storage.Rejected Storage.SyntaxError
  ∧ Storage.promise (list unit) r ≠ Storage.Resolved []
  ∧ Storage.warnings (list unit) r = [].
Proof.
  apply (loadData_malformed_baseline_rejects (list unit) parseEmptyArray []
           htmlPage "/index.html" "users" ∅ 200
           "<!DOCTYPE html><title>Sign in</title>").
  - reflexivity.
  - reflexivity.
  - reflexivity.
Defined.

(** ** The arithmetic of the platform *)

(** Rounding: a tenth is not a double, two sums of doubles that fall
    halfway go to the even neighbour, a product beyond the largest
    double is an infinity and one below the smallest a zero of its
    sign; dividing by a zero gives an infinity of the sign of both. *)
Example round64_examples :
  double 0.1 = Fin (3602879701896397 # 36028797018963968)
  ∧ nadd (double 0.1) (double 0.2) = Fin (1351079888211149 # 4503599627370496)
  ∧ nadd (Fin 9007199254740992) (Fin 1) = Fin 9007199254740992
  ∧ nadd (Fin 9007199254740994) (Fin 1) = Fin 9007199254740996
  ∧ nmul (double 1e200) (double 1e200) = PosInf
  ∧ nmul (double 1e-200) (double 1e-200) = Fin 0
  ∧ nmul (double (-1e-200)) (double 1e-200) = NegZero
  ∧ ndiv (Fin 1) NegZero = NegInf
  ∧ ndiv (Fin 0) NegZero = NaN
  ∧ ndiv (Fin 23) (Fin 80) = Fin (2589569785738035 # 9007199254740992).
Proof. repeat split; by vm_compute. Qed.

(** The texts of numbers. *)
Example number_text_examples :
  numberToString (nadd (double 0.1) (double 0.2)) = "0.30000000000000004"
  ∧ numberToString (double 1e21) = "1e+21"
  ∧ numberToString (double 123456789012345680000) = "123456789012345680000"
  ∧ numberToString (double 0.000001) = "0.000001"
  ∧ numberToString (double 0.0000001) = "1e-7"
  ∧ numberToString NegZero = "0"
  ∧ toFixed1 (double 0.25) = "0.3"
  ∧ toFixed1 (double 0.35) = "0.3"
  ∧ toFixed1 (double (-0.04)) = "-0.0"
  ∧ toFixed1 (double 1e21) = "1e+21"
  ∧ toFixed1 NegZero = "0.0".
Proof. repeat split; by vm_compute. Qed.

(** ** Weighted averages *)

(** A text of ASCII characters only; the placeholder is none. *)
Fixpoint plain (s : string) : bool :=
  match s with
  | EmptyString => true
  | String c rest => (Ascii.nat_of_ascii c <? 128)%nat && plain rest
  end.

Lemma plain_app (s t : string) : plain (s ++ t) = plain s && plain t.
Proof.
  induction s as [|c s IH]; [done|]. simpl. by rewrite IH, andb_assoc.
Qed.

Lemma plain_substring (from len : nat) (s : string) :
  plain s = true → plain (String.substring from len s) = true.
Proof.
  revert from len. induction s as [|c s IH]; intros from len Hs.
  - by destruct from, len.
  - simpl in Hs. apply andb_true_iff in Hs as [Hc Hs].
    destruct from as [|from], len as [|len]; simpl; auto.
    by rewrite Hc, IH.
Qed.

Lemma plain_digits (z : Z) : plain (digits z) = true.
Proof.
  unfold digits, NilZero.string_of_uint.
  assert (∀ d, plain (NilEmpty.string_of_uint d) = true) as Hd.
  { induction d; simpl; auto. }
  destruct (N.to_uint (Z.to_N z)); [done|..]; apply Hd.
Qed.

Lemma plain_zeros (n : Z) : plain (zeros n) = true.
Proof.
  unfold zeros. induction (Z.to_nat n) as [|k IH]; [done|]. by simpl.
Qed.

Lemma plain_decimalText (snk : Z * Z * Z) : plain (decimalText snk) = true.
Proof.
  destruct snk as [[s n] k]. unfold decimalText, part.
  repeat match goal with
         | |- context [if ?b then _ else _] => destruct b
         end;
    rewrite ?plain_app, ?plain_digits, ?plain_zeros,
      ?(plain_substring _ _ _ (plain_digits s)); done.
Qed.

Lemma plain_numberToString (x : number) : plain (numberToString x) = true.
Proof.
  destruct x as [q| | | |]; try done. unfold numberToString.
  destruct (Qeq_bool q 0); [done|].
  rewrite plain_app, plain_decimalText. by destruct (Qle_bool 0 q).
Qed.

Lemma plain_toFixed1 (x : number) : plain (toFixed1 x) = true.
Proof.
  destruct x as [q| | | |]; try done. unfold toFixed1.
  rewrite plain_app.
  assert (plain (if Qle_bool 0 q then "" else "-") = true) as ->
    by by destruct (Qle_bool 0 q).
  destruct (Qle_bool (pow10 21) (Qabs q)); [apply plain_numberToString|].
  by rewrite !plain_app, !plain_digits.
Qed.

(** The text of a number is never the placeholder. *)
Lemma toFixed1_not_dash (x : number) : toFixed1 x ≠ dash.
Proof.
  intros Hx. pose proof (plain_toFixed1 x) as Hp. by rewrite Hx in Hp.
Qed.

(** The cell of the average, by whether there is a percentage. *)
Lemma averageCell_percentage (t : Gradebook.totals) :
  Gradebook.averageCell t
  = match Gradebook.percentage t with
    | Some x => (toFixed1 x ++ "%")%string
    | None => dash
    end.
Proof.
  unfold Gradebook.averageCell, Gradebook.weightedAvg.
  destruct (Gradebook.percentage t) as [x|].
  - destruct (decide _) as [|Hd]; [done|].
    exfalso. apply Hd, toFixed1_not_dash.
  - by destruct (decide _).
Qed.

(** A grade entry of the specification: points, max_points and weight. *)
Definition entry : Type := (number * number * number)%type.

(** The sums of the specification and its percentage, in the arithmetic
    of the platform: the entries are added one by one, from 0, and
    every quotient, product and sum is rounded to the nearest double. *)
Definition addScore (acc : number) (e : entry) : number :=
  let '(p, m, w) := e in nadd acc (nmul (ndiv p m) w).

Definition addWeight (acc : number) (e : entry) : number :=
  let '(_, _, w) := e in nadd acc w.

Definition weighted_score (es : list entry) : number :=
  fold_left addScore es (Fin 0).

Definition total_weight (es : list entry) : number :=
  fold_left addWeight es (Fin 0).

Definition spec_percentage (es : list entry) : number :=
  nmul (ndiv (weighted_score es) (total_weight es)) (Fin 100).

(** The same sums and percentage over the rationals, without any
    rounding. *)
Definition exact_score (es : list (Q * Q * Q)) : Q :=
  foldr (λ '(p, m, w) acc, p / m * w + acc)%Q 0%Q es.

Definition exact_weight (es : list (Q * Q * Q)) : Q :=
  foldr (λ '(_, _, w) acc, w + acc)%Q 0%Q es.

Definition exact_percentage (es : list (Q * Q * Q)) : Q :=
  (exact_score es / exact_weight es * 100)%Q.

(** The grades of one student in one class, as [renderStudentGrades]
    selects them. *)
Definition classGradesOf (gradesData : list Grade.t) (userId classId : string)
  : list Grade.t :=
  filter (λ g, Grade.class_id g = classId)
         (filter (λ g, Grade.student_id g = userId) gradesData).

(** The grade that [renderClassGradebook] finds for a student and an
    assignment, and the graded assignments of a student. *)
Definition gradeFor (gradesData : list Grade.t) (s : User.t)
    (a : Assignment.t) : option Grade.t :=
  js_find (λ g, Grade.student_id g = User.id s
                ∧ Grade.assignment_id g = Assignment.id a) gradesData.

Definition gradedEntries (gradesData : list Grade.t) (s : User.t)
    (classAssignments : list Assignment.t) : list (Grade.t * Assignment.t) :=
  omap (λ a, (λ g, (g, a)) <$> gradeFor gradesData s a) classAssignments.

(** The entry of a grade in the student view: its weight is the number
    that the weight field of the grade converts to. *)
Definition studentEntry (g : Grade.t) : entry :=
  (Grade.points g, Grade.max_points g, toNumber (Grade.weight g)).

(** The entry of a graded assignment in the teacher view: its weight is
    [grade.weight || a.weight || 0.25]. *)
Definition classEntry (ga : Grade.t * Assignment.t) : entry :=
  (Grade.points ga.1, Grade.max_points ga.1,
   toNumber (Gradebook.effectiveWeight ga.1 ga.2)).

Lemma studentTotals_fold (gs : list Grade.t) (S W : number) :
  fold_left Gradebook.studentStep gs (S, W)
  = (fold_left addScore (studentEntry <$> gs) S,
     fold_left addWeight (studentEntry <$> gs) W).
Proof.
  revert S W. induction gs as [|g gs IH]; intros S W; [done|].
  cbn [fold_left fmap list_fmap]. unfold Gradebook.studentStep at 2.
  by rewrite IH.
Qed.

Lemma classTotals_fold (gradesData : list Grade.t) (s : User.t)
    (classAssignments : list Assignment.t) (S W : number) :
  fold_left (Gradebook.classStep gradesData s) classAssignments (S, W)
  = (fold_left addScore
       (classEntry <$> gradedEntries gradesData s classAssignments) S,
     fold_left addWeight
       (classEntry <$> gradedEntries gradesData s classAssignments) W).
Proof.
  revert S W.
  induction classAssignments as [|a classAssignments IH]; intros S W; [done|].
  cbn [fold_left]. unfold gradedEntries. cbn [omap list_omap].
  fold (gradedEntries gradesData s classAssignments).
  unfold Gradebook.classStep at 2. fold (gradeFor gradesData s a).
  destruct (gradeFor gradesData s a) as [g|]; simpl; by rewrite IH.
Qed.

Lemma studentTotals_entries (gs : list Grade.t) :
  Gradebook.studentTotals gs
  = (weighted_score (studentEntry <$> gs), total_weight (studentEntry <$> gs)).
Proof. apply studentTotals_fold. Qed.

Lemma classTotals_entries gradesData s classAssignments :
  Gradebook.classTotals gradesData s classAssignments
  = (weighted_score (classEntry <$> gradedEntries gradesData s classAssignments),
     total_weight (classEntry <$> gradedEntries gradesData s classAssignments)).
Proof. apply classTotals_fold. Qed.

(** The percentage and the cell for the sums of the entries [es]. *)
Lemma entries_cell (es : list entry) :
  (ngt (total_weight es) (Fin 0) = true →
   Gradebook.percentage (weighted_score es, total_weight es)
     = Some (spec_percentage es)
   ∧ Gradebook.averageCell (weighted_score es, total_weight es)
     = (toFixed1 (spec_percentage es) ++ "%")%string)
  ∧ (ngt (total_weight es) (Fin 0) = false →
     Gradebook.percentage (weighted_score es, total_weight es) = None
     ∧ Gradebook.averageCell (weighted_score es, total_weight es) = dash).
Proof.
  rewrite averageCell_percentage. unfold Gradebook.percentage.
  split; intros ->; done.
Qed.

Lemma renderStudentGrades_cell gradesData userId classId :
  Gradebook.renderStudentGrades gradesData userId classId
  = match classGradesOf gradesData userId classId with
    | [] => None
    | gs => Some (Gradebook.averageCell (Gradebook.studentTotals gs))
    end.
Proof.
  unfold Gradebook.renderStudentGrades, classGradesOf.
  by destruct (filter _ (filter _ _)).
Qed.

(** The two entries of the specification's example. *)
Definition example_entries : list entry :=
  [(Fin 80, Fin 100, Fin 0.5); (Fin 60, Fin 100, Fin 0.5)].

Definition ann : User.t := User.mk "u-ann" "ann" "Ann" "student" true.

Definition example_assignments : list Assignment.t :=
  [Assignment.mk "a1" "c-math" "Quiz" (Fin 100) (Num (Fin 0.5)) "published";
   Assignment.mk "a2" "c-math" "Essay" (Fin 100) (Num (Fin 0.5)) "published"].

Definition example_grades : list Grade.t :=
  [Grade.mk "g1" "u-ann" "c-math" "a1" (Fin 80) (Fin 100) (Num (Fin 0.5)) "B-";
   Grade.mk "g2" "u-ann" "c-math" "a2" (Fin 60) (Fin 100) (Num (Fin 0.5)) "D-"].

(** C1, as the views compute it.  The entries of one student in one
    class are the grades of the student in the class; the weight of an
    entry is, in the student view, the number that the weight field of
    the grade converts to and, in the teacher view, the effective weight
    [grade.weight || a.weight || 0.25].  Both views add up
    [points / max_points * weight] and the weights entry by entry, from
    0, in the arithmetic of the platform.  When the sum of the weights
    is greater than 0 the percentage is that of the specification's
    formula in that arithmetic, and the cell shows it with one decimal
    and a percent sign; otherwise (a sum that is 0, negative or NaN) no
    percentage is computed and the cell is the placeholder.  The student
    view shows no block at all for a class without grades, the teacher
    view the placeholder for a student without graded assignments.  The
    entries 80/100 and 60/100 of weight 0.5 each give 70. *)
Theorem weighted_average_by_view (gradesData : list Grade.t)
    (userId classId : string) (s : User.t)
    (classAssignments : list Assignment.t) :
  let gs := classGradesOf gradesData userId classId in
  let es := studentEntry <$> gs in
  let es' := classEntry <$> gradedEntries gradesData s classAssignments in
  ((ngt (total_weight es) (Fin 0) = true →
      Gradebook.percentage (Gradebook.studentTotals gs)
        = Some (spec_percentage es)
      ∧ Gradebook.renderStudentGrades gradesData userId classId
        = Some (toFixed1 (spec_percentage es) ++ "%")%string)
   ∧ (ngt (total_weight es) (Fin 0) = false → gs ≠ [] →
      Gradebook.percentage (Gradebook.studentTotals gs) = None
      ∧ Gradebook.renderStudentGrades gradesData userId classId = Some dash)
   ∧ (gs = [] →
      Gradebook.renderStudentGrades gradesData userId classId = None))
  ∧ ((ngt (total_weight es') (Fin 0) = true →
        Gradebook.percentage
          (Gradebook.classTotals gradesData s classAssignments)
          = Some (spec_percentage es')
        ∧ Gradebook.averageCell
            (Gradebook.classTotals gradesData s classAssignments)
          = (toFixed1 (spec_percentage es') ++ "%")%string)
     ∧ (ngt (total_weight es') (Fin 0) = false →
        Gradebook.percentage
          (Gradebook.classTotals gradesData s classAssignments) = None
        ∧ Gradebook.averageCell
            (Gradebook.classTotals gradesData s classAssignments) = dash))
  ∧ spec_percentage example_entries = Fin 70
  ∧ Gradebook.renderStudentGrades example_grades "u-ann" "c-math"
    = Some "70.0%"
  ∧ Gradebook.averageCell
      (Gradebook.classTotals example_grades ann example_assignments)
    = "70.0%".
Proof.
  intros gs es es'. split; [|split; [|split; [|split]]].
  - pose proof (renderStudentGrades_cell gradesData userId classId)
      as Hrender.
    fold gs in Hrender. rewrite Hrender.
    pose proof (studentTotals_entries gs) as Htotals.
    clearbody gs. subst es. rewrite Htotals.
    destruct (entries_cell (studentEntry <$> gs)) as [Hpos Hzero].
    split; [|split].
    + intros Hw. destruct (Hpos Hw) as [Hx Hcell]. split; [done|].
      destruct gs as [|g gs']; [done|]. by rewrite Htotals, Hcell.
    + intros Hw Hne. destruct (Hzero Hw) as [Hx Hcell]. split; [done|].
      destruct gs as [|g gs']; [done|]. by rewrite Htotals, Hcell.
    + by intros ->.
  - rewrite classTotals_entries. fold es'. apply entries_cell.
  - by vm_compute.
  - by vm_compute.
  - by vm_compute.
Qed.

Lemma weighted_average_by_view_witness :
  Gradebook.renderStudentGrades example_grades "u-ann" "c-math"
    = Some "70.0%"
  ∧ Gradebook.averageCell
      (Gradebook.classTotals example_grades ann example_assignments)
    = "70.0%".
Proof.
  destruct (weighted_average_by_view example_grades "u-ann" "c-math" ann
              example_assignments)
    as ((Hstudent & _) & (Hclass & _) & _).
  split.
  - apply Hstudent. reflexivity.
  - apply Hclass. reflexivity.
Defined.

(** A gradebook of the teacher view with one grade, of weight 0, for an
    assignment of weight 0.5; and one grade of 23 out of 80, of weight
    1. *)
Definition zero_weight_grades : list Grade.t :=
  [Grade.mk "g1" "u-ann" "c-math" "a1" (Fin 80) (Fin 100) (Num (Fin 0)) "B-"].

Definition class_enrollments : list Enrollment.t :=
  [Enrollment.mk "e1" "u-ann" "c-math" "active"].

Definition rounded_grades : list Grade.t :=
  [Grade.mk "g1" "u-ann" "c-math" "a1" (Fin 23) (Fin 80) (Num (Fin 1)) "F"].

(** C1 as stated fails in the teacher view: the only entry has weight 0,
    so the sum of the weights is 0, and the cell is not the placeholder
    but 80.0%.  It fails in both views for the grade of 23 out of 80:
    the formula gives 28.75, which is 28.8 to one decimal, and the views
    show 28.7%, the quotient and the product being rounded. *)
Lemma weighted_average_zero_weight_counterexample :
  (studentEntry <$> zero_weight_grades = [(Fin 80, Fin 100, Fin 0)]
   ∧ total_weight [(Fin 80, Fin 100, Fin 0)] = Fin 0
   ∧ Gradebook.renderClassGradebook zero_weight_grades example_assignments
       class_enrollments [ann] "c-math" = [(ann, "80.0%")]
   ∧ "80.0%" ≠ dash)
  ∧ ((exact_percentage [(23, 80, 1)%Q] == 28.75)%Q
     ∧ toFixed1 (Fin (exact_percentage [(23, 80, 1)%Q])) = "28.8"
     ∧ Gradebook.renderStudentGrades rounded_grades "u-ann" "c-math"
       = Some "28.7%"
     ∧ Gradebook.renderClassGradebook rounded_grades example_assignments
         class_enrollments [ann] "c-math" = [(ann, "28.7%")]).
Proof.
  split.
  - split; [reflexivity|]. split; [reflexivity|].
    split; [by vm_compute|discriminate].
  - split; [reflexivity|]. split; [by vm_compute|].
    split; by vm_compute.
Qed.

(** ** Grades without a weight of their own in the teacher view *)





Lemma gradedEntries_cons gradesData s a g post :
  gradeFor gradesData s a = Some g →
  gradedEntries gradesData s (a :: post)
  = (g, a) :: gradedEntries gradesData s post.
Proof.
  intros Hg. unfold gradedEntries. cbn [omap list_omap]. by rewrite Hg.
Qed.


(** Two graded assignments of weight 0.5; the second grade has weight 0
    of its own. *)
Definition quiz : Assignment.t :=
  Assignment.mk "a1" "c-math" "Quiz" (Fin 100) (Num (Fin 0.5)) "published".

Definition essay : Assignment.t :=
  Assignment.mk "a2" "c-math" "Essay" (Fin 100) (Num (Fin 0.5)) "published".





(** The rounding decides in the other direction too: a quiz of 23 out
    of 80, of weight 0.3, shows 28.7%; with an essay of 23 out of 80 of
    no weight of its own, which is counted with the 0.15 of its
    assignment, the average shows 28.8%, although the percentage of the
    essay is that of the quiz. *)
Example falsy_weight_grade_rounding :
  let quiz := Assignment.mk "a1" "c-math" "Quiz" (Fin 80) (Num (double 0.3))
                            "published" in
  let essay := Assignment.mk "a2" "c-math" "Essay" (Fin 80)
                             (Num (double 0.15)) "published" in
  let grades :=
    [Grade.mk "g1" "u-ann" "c-math" "a1" (Fin 23) (Fin 80) (Num (double 0.3))
              "";
     Grade.mk "g2" "u-ann" "c-math" "a2" (Fin 23) (Fin 80) Null ""] in
  Gradebook.averageCell (Gradebook.classTotals grades ann [quiz]) = "28.7%"
  ∧ Gradebook.averageCell (Gradebook.classTotals grades ann [quiz; essay])
    = "28.8%".
Proof. split; by vm_compute. Qed.

(** ** CSV round trip *)

Section CsvLoop.

Import JsString Csv.

(** The continuation of the text after a cell: the end, a comma or a
    line feed, never a quote. *)
Definition afterCell (k : JsString.t) : Prop := head k ≠ Some QUOTE.

Lemma app_snoc {A} (f : list A) (c : A) (t : list A) :
  (f ++ [c]) ++ t = f ++ c :: t.
Proof. by rewrite <-app_assoc. Qed.

Lemma parseLoop_plain (t k : JsString.t) rows row f :
  Forall (λ c, c ≠ QUOTE ∧ c ≠ COMMA ∧ c ≠ LF) t →
  parseLoop (t ++ k) rows row f false = parseLoop k rows row (f ++ t) false.
Proof.
  intros Ht. revert f.
  induction Ht as [|c t (Hq & Hc & Hl) _ IH]; intros f.
  - by rewrite app_nil_r.
  - cbn [app parseLoop].
    repeat (destruct (decide _) as [?|_]; [congruence|]).
    by rewrite IH, app_snoc.
Qed.

Lemma parseLoop_quoted (t k : JsString.t) rows row f :
  afterCell k →
  parseLoop (doubleQuotes t ++ QUOTE :: k) rows row f true
  = parseLoop k rows row (f ++ t) false.
Proof.
  intros Hk. revert f. induction t as [|c t IH]; intros f.
  - cbn [doubleQuotes flat_map app parseLoop].
    rewrite decide_True, app_nil_r by done.
    destruct k as [|next k']; [done|].
    rewrite decide_False; [done|]. intros ->. by apply Hk.
  - unfold doubleQuotes. cbn [flat_map]. fold (doubleQuotes t).
    destruct (decide (c = QUOTE)) as [->|Hc].
    + cbn [app parseLoop]. rewrite !decide_True by done.
      by rewrite IH, app_snoc.
    + cbn [app parseLoop]. rewrite decide_False by done.
      by rewrite IH, app_snoc.
Qed.

Lemma includes_false (t : JsString.t) (c : codeunit) :
  includes t c = false → Forall (λ x, x ≠ c) t.
Proof.
  unfold includes. intros Hb%bool_decide_eq_false.
  apply Forall_forall. intros x Hx ->. done.
Qed.

(** A cell of the export reads back as its text. *)
Lemma parseLoop_cell (t k : JsString.t) rows row f :
  afterCell k →
  parseLoop (escapeCell t ++ k) rows row f false
  = parseLoop k rows row (f ++ t) false.
Proof.
  intros Hk. unfold escapeCell.
  destruct (includes t COMMA || includes t QUOTE || includes t LF) eqn:Hesc.
  - rewrite <-!app_assoc. cbn [app parseLoop].
    rewrite decide_True by done. by apply parseLoop_quoted.
  - apply orb_false_iff in Hesc as [Hesc Hl].
    apply orb_false_iff in Hesc as [Hc Hq].
    apply parseLoop_plain.
    pose proof (includes_false _ _ Hc) as Hc'.
    pose proof (includes_false _ _ Hq) as Hq'.
    pose proof (includes_false _ _ Hl) as Hl'.
    apply Forall_forall. intros x Hx.
    rewrite Forall_forall in Hc', Hq', Hl'. auto.
Qed.

(** The row and the field that the loop holds when it has read the
    cells [c :: cells] of a line. *)
Fixpoint pending (row : list JsString.t) (c : JsString.t)
    (cells : list JsString.t) : list JsString.t * JsString.t :=
  match cells with
  | [] => (row, c)
  | c' :: cells' => pending (row ++ [trim c]) c' cells'
  end.

Lemma pending_row row c cells :
  (pending row c cells).1 ++ [trim (pending row c cells).2]
  = row ++ (trim <$> c :: cells).
Proof.
  revert row c. induction cells as [|c' cells IH]; intros row c; [done|].
  simpl. rewrite IH. by rewrite <-app_assoc.
Qed.

Lemma parseLoop_line (c : JsString.t) (cells : list JsString.t) k rows row :
  afterCell k →
  parseLoop (join [COMMA] (escapeCell <$> c :: cells) ++ k) rows row [] false
  = parseLoop k rows (pending row c cells).1 (pending row c cells).2 false.
Proof.
  intros Hk. revert row c. induction cells as [|c' cells IH]; intros row c.
  - simpl. by rewrite parseLoop_cell.
  - cbn [fmap list_fmap join]. cbn [fmap list_fmap] in IH.
    rewrite <-!app_assoc. rewrite parseLoop_cell by done.
    cbn [app parseLoop]. rewrite decide_False by done.
    rewrite decide_True by done. simpl. apply IH.
Qed.

End CsvLoop.

Section CsvRoundTrip.

Import JsString Csv.

(** The line of the export for the cell texts [cells]. *)
Definition lineOf (cells : list JsString.t) : JsString.t :=
  join [COMMA] (escapeCell <$> cells).

(** A row survives parsing as it is: no cell changes under [trim], and
    not all cells are empty. *)
Definition rowOk (cells : list JsString.t) : Prop :=
  Forall (λ t, trim t = t) cells ∧ Exists (λ t, t ≠ []) cells.

Lemma fmap_fixed {A} (f : A → A) (l : list A) :
  Forall (λ x, f x = x) l → f <$> l = l.
Proof.
  induction 1 as [|x l Hx _ IH]; [done|]. by rewrite fmap_cons, Hx, IH.
Qed.

Lemma endRow_pending rows c cells :
  rowOk (c :: cells) →
  endRow rows (pending [] c cells).1 (pending [] c cells).2
  = rows ++ [c :: cells].
Proof.
  intros [Htrim Hsome]. unfold endRow.
  rewrite pending_row, app_nil_l, (fmap_fixed trim _ Htrim).
  unfold someNonEmpty. by rewrite bool_decide_eq_true_2.
Qed.

Lemma join_cons_cons (sep p q : JsString.t) (rest : list JsString.t) :
  join sep (p :: q :: rest) = p ++ sep ++ join sep (q :: rest).
Proof. reflexivity. Qed.

Lemma parseLoop_lines (r : list JsString.t) (rs rows : list (list JsString.t)) :
  rowOk r → Forall rowOk rs →
  parseLoop (join [LF] (lineOf <$> r :: rs)) rows [] [] false
  = rows ++ r :: rs.
Proof.
  intros Hr Hrs. revert r rows Hr.
  induction Hrs as [|r' rs Hr' _ IH]; intros r rows Hr.
  - destruct r as [|c cells]; [by destruct Hr as [_ ?%Exists_nil]|].
    cbn [fmap list_fmap join]. unfold lineOf.
    rewrite <-(app_nil_r (join _ _)), parseLoop_line by done.
    cbn [parseLoop]. by apply endRow_pending.
  - destruct r as [|c cells]; [by destruct Hr as [_ ?%Exists_nil]|].
    rewrite !fmap_cons, join_cons_cons, <-(fmap_cons lineOf r' rs).
    unfold lineOf at 1.
    rewrite parseLoop_line by done.
    cbn [app parseLoop].
    rewrite !decide_False, decide_True by done.
    rewrite endRow_pending by done.
    rewrite IH by done. by rewrite <-app_assoc.
Qed.

Lemma replaceCRLF_no_CR (text : JsString.t) :
  CR ∉ text → replaceCRLF text = text.
Proof.
  induction text as [|c rest IH]; [done|]. intros Hcr.
  apply not_elem_of_cons in Hcr as [Hc Hrest].
  cbn [replaceCRLF]. destruct rest as [|next rest']; [done|].
  rewrite decide_False by (intros [? _]; congruence).
  by rewrite IH.
Qed.

Lemma replaceCR_no_CR (text : JsString.t) :
  CR ∉ text → replaceCR text = text.
Proof.
  intros Hcr. unfold replaceCR. apply fmap_fixed, Forall_forall.
  intros c Hc. rewrite decide_False; [done|]. by intros ->.
Qed.

Lemma parseCSV_no_CR (text : JsString.t) :
  CR ∉ text → parseCSV text = parseLoop text [] [] [] false.
Proof.
  intros Hcr. unfold parseCSV.
  by rewrite replaceCRLF_no_CR, replaceCR_no_CR.
Qed.

Lemma join_not_elem_of (x : codeunit) (sep : JsString.t)
    (parts : list JsString.t) :
  x ∉ sep → Forall (λ p, x ∉ p) parts → x ∉ join sep parts.
Proof.
  intros Hsep. induction 1 as [|p parts Hp Hparts IH]; [by apply not_elem_of_nil|].
  cbn [join]. destruct parts as [|p' parts']; [done|].
  rewrite !not_elem_of_app. auto.
Qed.

Lemma doubleQuotes_not_elem_of (x : codeunit) (t : JsString.t) :
  x ≠ QUOTE → x ∉ t → x ∉ doubleQuotes t.
Proof.
  intros Hx. induction t as [|c t IH]; [done|].
  intros [Hc Ht]%not_elem_of_cons.
  unfold doubleQuotes. cbn [flat_map]. fold (doubleQuotes t).
  apply not_elem_of_app. split; [|by apply IH].
  destruct (decide (c = QUOTE));
    repeat (apply not_elem_of_cons; split; [done|]); apply not_elem_of_nil.
Qed.

Lemma escapeCell_not_elem_of (x : codeunit) (t : JsString.t) :
  x ≠ QUOTE → x ∉ t → x ∉ escapeCell t.
Proof.
  intros Hx Ht. unfold escapeCell.
  destruct (_ || _); [|done].
  assert (x ∉ [QUOTE]) as Hquote
    by (apply not_elem_of_cons; split; [done|apply not_elem_of_nil]).
  rewrite !not_elem_of_app. split; [done|]. split; [|done].
  by apply doubleQuotes_not_elem_of.
Qed.

Lemma escapeCell_plain (t : JsString.t) :
  COMMA ∉ t → QUOTE ∉ t → LF ∉ t → escapeCell t = t.
Proof.
  intros Hc Hq Hl. unfold escapeCell, includes.
  by rewrite !bool_decide_eq_false_2.
Qed.

End CsvRoundTrip.

(** A column name that the header carries unchanged, and a cell text that
    the parser returns unchanged. *)
Definition headerOk (h : JsString.t) : Prop :=
  (JsString.COMMA ∉ h) ∧ (JsString.QUOTE ∉ h) ∧ (JsString.LF ∉ h)
  ∧ (JsString.CR ∉ h) ∧ JsString.trim h = h.

Definition cellOk (t : JsString.t) : Prop :=
  (JsString.CR ∉ t) ∧ JsString.trim t = t.

(** The cells of a record under the columns. *)
Definition cellsOf (builtinText : JsString.t → JsString.t)
    (cols : list JsString.t) (row : Csv.record) : list JsString.t :=
  Csv.cellText builtinText row <$> cols.

Lemma exportCSV_lines builtinText first data cols :
  Forall headerOk cols →
  Csv.exportCSV builtinText (first :: data) (Some cols)
  = Some (JsString.join [JsString.LF]
            (lineOf <$> cols :: (cellsOf builtinText cols <$> first :: data))).
Proof.
  intros Hcols. unfold Csv.exportCSV. cbn [default].
  f_equal. rewrite (fmap_cons lineOf). f_equal. f_equal.
  - unfold lineOf. f_equal. symmetry. apply fmap_fixed.
    eapply Forall_impl; [done|]. intros h (? & ? & ? & _).
    by apply escapeCell_plain.
  - rewrite <-list_fmap_compose. apply list_fmap_ext. intros _ row _.
    unfold lineOf, cellsOf. simpl. by rewrite <-list_fmap_compose.
Qed.

(** C3, as far as it holds.  For a non-empty array of records, whatever
    their fields hold, and a column list: when no column name holds a
    comma, a quote, a line feed or a carriage return, no column name and
    no cell text changes under [trim] or holds a carriage return, and the
    header and every record have a non-empty cell, parsing the export
    gives the column names, in order, followed by the cell texts of every
    record, in order.  The cell text of a field is the text that
    [String] makes of its value, and the empty text for a field that is
    [null] or absent: for a string that string, commas, quotes and line
    feeds included, for a number its decimal text. *)
Theorem parseCSV_exportCSV_round_trip (builtinText : JsString.t → JsString.t)
    (data : list Csv.record) (cols : list JsString.t) :
  data ≠ [] →
  Forall headerOk cols →
  Exists (λ h, h ≠ []) cols →
  Forall (λ row, Forall cellOk (cellsOf builtinText cols row)
                 ∧ Exists (λ t, t ≠ []) (cellsOf builtinText cols row)) data →
  Csv.parseCSV <$> Csv.exportCSV builtinText data (Some cols)
    = Some (cols :: (cellsOf builtinText cols <$> data))
  ∧ (∀ row c s, JsString.getProperty row c = JsString.Own (Csv.VString s) →
                Csv.cellText builtinText row c = s)
  ∧ (∀ row c n, JsString.getProperty row c = JsString.Own (Csv.VNumber n) →
                Csv.cellText builtinText row c
                = JsString.lit (numberToString n))
  ∧ (∀ row c val,
       JsString.getProperty row c = JsString.Own val →
       Csv.cellText builtinText row c
       = match val with
         | Csv.VUndefined | Csv.VNull => []
         | _ => Csv.toText val
         end).
Proof.
  intros Hdata Hcols Hhead Hrows. split; [|split; [|split]].
  - destruct data as [|first data]; [done|].
    rewrite exportCSV_lines by done. cbn [fmap option_fmap option_map].
    f_equal.
    assert (rowOk cols) as Hcols_ok.
    { split; [|done]. eapply Forall_impl; [done|]. by intros h (_&_&_&_&?). }
    assert (Forall rowOk (cellsOf builtinText cols <$> first :: data))
      as Hrows_ok.
    { apply Forall_fmap. eapply Forall_impl; [done|].
      intros row [Hcells Hsome]. split; [|done].
      eapply Forall_impl; [done|]. by intros t [_ ?]. }
    rewrite parseCSV_no_CR; [by rewrite parseLoop_lines|].
    apply join_not_elem_of;
      [apply not_elem_of_cons; split; [done|apply not_elem_of_nil]|].
    apply Forall_fmap, Forall_cons. split.
    + apply join_not_elem_of;
        [apply not_elem_of_cons; split; [done|apply not_elem_of_nil]|].
      apply Forall_fmap. eapply Forall_impl; [done|].
      intros h (_ & _ & _ & Hcr & _). by apply escapeCell_not_elem_of.
    + apply Forall_fmap. eapply Forall_impl; [done|].
      intros row [Hcells _].
      apply join_not_elem_of;
        [apply not_elem_of_cons; split; [done|apply not_elem_of_nil]|].
      apply Forall_fmap. eapply Forall_impl; [done|].
      intros t [Hcr _]. by apply escapeCell_not_elem_of.
  - intros row c s Hprop. unfold Csv.cellText. by rewrite Hprop.
  - intros row c n Hprop. unfold Csv.cellText. by rewrite Hprop.
  - intros row c val Hprop. unfold Csv.cellText. rewrite Hprop.
    by destruct val.
Qed.

(** The title of the specification's example, with its quotes and comma,
    and a note of two lines; the second record holds a number and a
    boolean, as the records of the grade exports do. *)
Definition say_hi : JsString.t :=
  JsString.lit "Say " ++ [JsString.QUOTE] ++ JsString.lit "Hi"
    ++ [JsString.QUOTE] ++ JsString.lit ", please".

Definition two_lines : JsString.t :=
  JsString.lit "first" ++ [JsString.LF] ++ JsString.lit "second".

Definition csv_records : list Csv.record :=
  [[(JsString.lit "id", Csv.VString (JsString.lit "a1"));
    (JsString.lit "title", Csv.VString say_hi)];
   [(JsString.lit "id", Csv.VString (JsString.lit "a2"));
    (JsString.lit "title", Csv.VString two_lines);
    (JsString.lit "note", Csv.VNull);
    (JsString.lit "points", Csv.VNumber (double 8.5));
    (JsString.lit "late", Csv.VBoolean false)]].

Definition csv_columns : list JsString.t :=
  [JsString.lit "id"; JsString.lit "title"; JsString.lit "note";
   JsString.lit "points"; JsString.lit "late"].

Definition noBuiltin (c : JsString.t) : JsString.t := [].

Lemma parseCSV_exportCSV_round_trip_witness :
  Csv.parseCSV <$> Csv.exportCSV noBuiltin csv_records (Some csv_columns)
    = Some [csv_columns;
            [JsString.lit "a1"; say_hi; []; []; []];
            [JsString.lit "a2"; two_lines; []; JsString.lit "8.5";
             JsString.lit "false"]].
Proof.
  apply (parseCSV_exportCSV_round_trip noBuiltin csv_records csv_columns).
  - discriminate.
  - repeat constructor; by apply (bool_decide_unpack _); vm_compute.
  - apply Exists_cons_hd. discriminate.
  - repeat constructor;
      try (by apply (bool_decide_unpack _); vm_compute);
      apply Exists_cons_hd; discriminate.
Defined.

(** C3 as stated fails for a value with a space at either end: the
    parser trims it. *)
Lemma parseCSV_exportCSV_counterexample :
  Csv.cellText noBuiltin
    [(JsString.lit "id", Csv.VString (JsString.lit " x "))]
    (JsString.lit "id") = JsString.lit " x "
  ∧ Csv.parseCSV <$>
      Csv.exportCSV noBuiltin
        [[(JsString.lit "id", Csv.VString (JsString.lit " x "))]]
        (Some [JsString.lit "id"])
    = Some [[JsString.lit "id"]; [JsString.lit "x"]]
  ∧ JsString.lit "x" ≠ JsString.lit " x ".
Proof. split; [reflexivity|]. split; [by vm_compute|]. discriminate. Qed.

(** Further departures: a record all of whose cells are empty is dropped,
    a carriage return comes back as a line feed, a column name with a
    comma comes back as two, and a number comes back as its text. *)
Example parseCSV_exportCSV_blank_row :
  Csv.parseCSV <$>
    Csv.exportCSV noBuiltin
      [[(JsString.lit "id", Csv.VString (JsString.lit "a1"))];
       [(JsString.lit "id", Csv.VString [])]]
      (Some [JsString.lit "id"])
  = Some [[JsString.lit "id"]; [JsString.lit "a1"]].
Proof. by vm_compute. Qed.

Example parseCSV_exportCSV_carriage_return :
  Csv.parseCSV <$>
    Csv.exportCSV noBuiltin
      [[(JsString.lit "id",
         Csv.VString (JsString.lit "a," ++ [JsString.CR] ++ JsString.lit "b"))]]
      (Some [JsString.lit "id"])
  = Some [[JsString.lit "id"];
          [JsString.lit "a," ++ [JsString.LF] ++ JsString.lit "b"]].
Proof. by vm_compute. Qed.

Example parseCSV_exportCSV_number :
  Csv.parseCSV <$>
    Csv.exportCSV noBuiltin
      [[(JsString.lit "points", Csv.VNumber (nadd (double 0.1) (double 0.2)))]]
      (Some [JsString.lit "points"])
  = Some [[JsString.lit "points"]; [JsString.lit "0.30000000000000004"]].
Proof. by vm_compute. Qed.

Example parseCSV_exportCSV_header_quote :
  Csv.parseCSV <$>
    Csv.exportCSV noBuiltin
      [[(JsString.lit "a" ++ [JsString.QUOTE] ++ JsString.lit "b",
         Csv.VString (JsString.lit "x"))]]
      (Some [JsString.lit "a" ++ [JsString.QUOTE] ++ JsString.lit "b"])
  = Some [[JsString.lit "ab" ++ [JsString.LF] ++ JsString.lit "x"]].
Proof. by vm_compute. Qed.

Example parseCSV_exportCSV_header_line_feed :
  Csv.parseCSV <$>
    Csv.exportCSV noBuiltin
      [[(JsString.lit "a" ++ [JsString.LF] ++ JsString.lit "b",
         Csv.VString (JsString.lit "x"))]]
      (Some [JsString.lit "a" ++ [JsString.LF] ++ JsString.lit "b"])
  = Some [[JsString.lit "a"]; [JsString.lit "b"]; [JsString.lit "x"]].
Proof. by vm_compute. Qed.

Example exportCSV_empty_data :
  Csv.exportCSV noBuiltin [] (Some [JsString.lit "id"]) = None.
Proof. reflexivity. Qed.

Example parseCSV_exportCSV_header_comma :
  Csv.parseCSV <$>
    Csv.exportCSV noBuiltin
      [[(JsString.lit "last,first", Csv.VString (JsString.lit "Ann"))]]
      (Some [JsString.lit "last,first"])
  = Some [[JsString.lit "last"; JsString.lit "first"]; [JsString.lit "Ann"]].
Proof. by vm_compute. Qed.

(** * Further properties of the code *)

(** ** The record store: overlay, baseline, reset and session *)

Lemma overlay_key_inj (name name' : string) :
  (Storage.STORAGE_PREFIX ++ name)%string
  = (Storage.STORAGE_PREFIX ++ name')%string → name = name'.
Proof. unfold Storage.STORAGE_PREFIX. simpl. by intros [=]. Qed.

Lemma overlay_key_prefix (name : string) :
  Sessions.isOverlayKey (Storage.STORAGE_PREFIX ++ name)%string.
Proof.
  unfold Sessions.isOverlayKey, Storage.STORAGE_PREFIX. simpl.
  repeat (destruct (Ascii.ascii_dec _ _); [|done]). by destruct name.
Qed.

Section StoreFacts.

Import Storage.

Variable json : Type.
Variable JSON_parse : string → option json.
Variable JSON_stringify : json → string.
Variable emptyArray : json.
Variable fetch : string → fetched.

Abbreviation load := (loadData json JSON_parse emptyArray fetch).

Lemma loadData_saved pathname localStorage name text data :
  text ≠ "" → JSON_parse text = Some data →
  load pathname (saveData localStorage name text) name
  = mkResult json (Resolved data) (saveData localStorage name text) [].
Proof.
  intros Hne Hparse. unfold loadData, saveData.
  rewrite lookup_insert_eq, Hparse. by destruct (decide (text = "")).
Qed.

Lemma loadBaseline_promise pathname name ls ls' :
  promise json (loadBaseline json JSON_parse emptyArray fetch pathname name ls)
  = promise json
      (loadBaseline json JSON_parse emptyArray fetch pathname name ls')
  ∧ warnings json
      (loadBaseline json JSON_parse emptyArray fetch pathname name ls)
    = warnings json
        (loadBaseline json JSON_parse emptyArray fetch pathname name ls').
Proof.
  unfold loadBaseline. destruct (fetch _) as [|[] status body]; simpl;
    [done| |done].
  by destruct (JSON_parse body).
Qed.

Lemma loadData_other_name pathname localStorage name name' text :
  name ≠ name' →
  promise json (load pathname (saveData localStorage name text) name')
  = promise json (load pathname localStorage name')
  ∧ warnings json (load pathname (saveData localStorage name text) name')
    = warnings json (load pathname localStorage name').
Proof.
  intros Hne. unfold loadData, saveData.
  rewrite lookup_insert_ne by (intros ?%overlay_key_inj; done).
  destruct (localStorage !! _) as [cached|]; [|apply loadBaseline_promise].
  destruct (decide (cached = "")); [apply loadBaseline_promise|].
  destruct (JSON_parse cached); [done|apply loadBaseline_promise].
Qed.

End StoreFacts.

(** X1.  What [saveData] stores under a name is what [loadData] gives
    back for that name, whatever the static file holds and whether or
    not it can be fetched: the overlay is served without a warning and
    the storage stays as it is.  (The text is that of a JSON value and
    not empty.) *)
Theorem loadData_after_saveData (json : Type)
    (JSON_parse : string → option json) (emptyArray : json)
    (fetch : string → Storage.fetched) (pathname name text : string)
    (localStorage : gmap string string) (data : json) :
  text ≠ "" → JSON_parse text = Some data →
  Storage.loadData json JSON_parse emptyArray fetch pathname
    (Storage.saveData localStorage name text) name
  = Storage.mkResult json (Storage.Resolved data)
      (Storage.saveData localStorage name text) [].
Proof. apply loadData_saved. Qed.

Definition unreachable (url : string) : Storage.fetched :=
  Storage.NetworkError.

Lemma loadData_after_saveData_witness :
  Storage.loadData (list unit) parseEmptyArray [] unreachable "/index.html"
    (Storage.saveData ∅ "grades" "[]") "grades"
  = Storage.mkResult (list unit) (Storage.Resolved [])
      (Storage.saveData ∅ "grades" "[]") [].
Proof.
  apply (loadData_after_saveData (list unit) parseEmptyArray [] unreachable
           "/index.html" "grades" "[]" ∅ []).
  - discriminate.
  - reflexivity.
Defined.

(** X2.  Saving one dataset does not change what loading another one
    gives: the promise settles the same way and the same warnings are
    logged. *)
Theorem loadData_after_saveData_other (json : Type)
    (JSON_parse : string → option json) (emptyArray : json)
    (fetch : string → Storage.fetched) (pathname name name' text : string)
    (localStorage : gmap string string) :
  name ≠ name' →
  Storage.promise json
    (Storage.loadData json JSON_parse emptyArray fetch pathname
       (Storage.saveData localStorage name text) name')
  = Storage.promise json
      (Storage.loadData json JSON_parse emptyArray fetch pathname
         localStorage name')
  ∧ Storage.warnings json
      (Storage.loadData json JSON_parse emptyArray fetch pathname
         (Storage.saveData localStorage name text) name')
    = Storage.warnings json
        (Storage.loadData json JSON_parse emptyArray fetch pathname
           localStorage name').
Proof. apply loadData_other_name. Qed.

Lemma loadData_after_saveData_other_witness :
  Storage.promise (list unit)
    (Storage.loadData (list unit) parseEmptyArray [] htmlPage "/index.html"
       (Storage.saveData ∅ "grades" "[]") "users")
  = Storage.promise (list unit)
      (Storage.loadData (list unit) parseEmptyArray [] htmlPage "/index.html"
         ∅ "users").
Proof.
  apply (loadData_after_saveData_other (list unit) parseEmptyArray []
           htmlPage "/index.html" "grades" "users" "[]" ∅).
  discriminate.
Defined.

(** X3.  An overlay that is not JSON is removed from the storage and the
    static file is served in its place; a second load finds no overlay
    and serves the same data, leaving the storage alone. *)
Theorem loadData_discards_corrupt_overlay (json : Type)
    (JSON_parse : string → option json) (emptyArray : json)
    (fetch : string → Storage.fetched) (pathname name cached body : string)
    (status : nat) (localStorage : gmap string string) (data : json) :
  localStorage !! (Storage.STORAGE_PREFIX ++ name)%string = Some cached →
  cached ≠ "" → JSON_parse cached = None →
  fetch (baselineUrl pathname name) = Storage.Response true status body →
  JSON_parse body = Some data →
  let cleaned := delete (Storage.STORAGE_PREFIX ++ name)%string localStorage in
  Storage.loadData json JSON_parse emptyArray fetch pathname localStorage name
  = Storage.mkResult json (Storage.Resolved data) cleaned []
  ∧ Storage.loadData json JSON_parse emptyArray fetch pathname cleaned name
    = Storage.mkResult json (Storage.Resolved data) cleaned [].
Proof.
  intros Hcached Hne Hbad Hfetch Hbody cleaned. split.
  - rewrite (loadData_malformed_overlay json JSON_parse emptyArray fetch
               pathname localStorage name cached Hcached Hne Hbad).
    unfold Storage.loadBaseline. fold (baselineUrl pathname name).
    by rewrite Hfetch, Hbody.
  - unfold Storage.loadData, Storage.loadBaseline. subst cleaned.
    fold (baselineUrl pathname name).
    by rewrite lookup_delete_eq, Hfetch, Hbody.
Qed.

Definition emptyArrayFile (url : string) : Storage.fetched :=
  Storage.Response true 200 "[]".

Lemma loadData_discards_corrupt_overlay_witness :
  Storage.loadData (list unit) parseEmptyArray [] emptyArrayFile "/index.html"
    {[ "openschool_users" := "{oops" ]} "users"
  = Storage.mkResult (list unit) (Storage.Resolved [])
      (delete "openschool_users" {[ "openschool_users" := "{oops" ]}) [].
Proof.
  apply (loadData_discards_corrupt_overlay (list unit) parseEmptyArray []
           emptyArrayFile "/index.html" "users" "{oops" "[]" 200
           {[ "openschool_users" := "{oops" ]} []).
  - reflexivity.
  - discriminate.
  - reflexivity.
  - reflexivity.
  - reflexivity.
Defined.

(** X4.  Without an overlay (none, or an empty item), a response that is
    not [ok] gives the empty array and exactly one warning, which names
    the file and the status; the storage is not touched. *)
Theorem loadData_failed_response_is_empty (json : Type)
    (JSON_parse : string → option json) (emptyArray : json)
    (fetch : string → Storage.fetched) (pathname name body : string)
    (status : nat) (localStorage : gmap string string) :
  (localStorage !! (Storage.STORAGE_PREFIX ++ name)%string = None
   ∨ localStorage !! (Storage.STORAGE_PREFIX ++ name)%string = Some "") →
  fetch (baselineUrl pathname name) = Storage.Response false status body →
  Storage.loadData json JSON_parse emptyArray fetch pathname localStorage name
  = Storage.mkResult json (Storage.Resolved emptyArray) localStorage
      [("[storage] Failed to load " ++ name ++ ".json: "
          ++ digits (Z.of_nat status))%string].
Proof.
  intros [Hnone|Hempty] Hfetch.
  - by apply loadData_not_ok with (body := body).
  - unfold Storage.loadData, Storage.loadBaseline.
    fold (baselineUrl pathname name). by rewrite Hempty, Hfetch.
Qed.

Definition notFound (url : string) : Storage.fetched :=
  Storage.Response false 404 "Not Found".

Lemma loadData_failed_response_is_empty_witness :
  Storage.loadData (list unit) parseEmptyArray [] notFound "/pages/class.html"
    ∅ "timetable"
  = Storage.mkResult (list unit) (Storage.Resolved []) ∅
      ["[storage] Failed to load timetable.json: 404"].
Proof.
  apply (loadData_failed_response_is_empty (list unit) parseEmptyArray []
           notFound "/pages/class.html" "timetable" "Not Found" 404 ∅).
  - left. reflexivity.
  - reflexivity.
Defined.

Lemma lookup_delete_all (keys : list string) (m : gmap string string)
    (k : string) :
  fold_left (λ storage key, delete key storage) keys m !! k
  = if decide (k ∈ keys) then None else m !! k.
Proof.
  revert m. induction keys as [|key keys IH]; intros m; cbn [fold_left].
  - by destruct (decide (k ∈ [])) as [?%elem_of_nil|].
  - rewrite IH.
    destruct (decide (k ∈ keys)) as [Hin|Hnin];
      destruct (decide (k ∈ key :: keys)) as [Hin'|Hnin']; try done.
    + exfalso. apply Hnin'. by apply list_elem_of_further.
    + apply elem_of_cons in Hin' as [->|?]; [|done].
      apply lookup_delete_eq.
    + apply lookup_delete_ne. intros ->. apply Hnin', list_elem_of_here.
Qed.

Lemma resetAllData_lookup (localStorage : gmap string string) (k : string) :
  Sessions.resetAllData localStorage !! k
  = if decide (Sessions.isOverlayKey k) then None else localStorage !! k.
Proof.
  unfold Sessions.resetAllData. rewrite lookup_delete_all.
  destruct (decide (Sessions.isOverlayKey k)) as [Hk|Hk].
  - destruct (localStorage !! k) as [v|] eqn:Hv.
    + rewrite decide_True; [done|].
      apply list_elem_of_filter. split; [done|].
      apply list_elem_of_fmap. exists (k, v). split; [done|].
      by apply elem_of_map_to_list.
    + by destruct (decide _).
  - rewrite decide_False; [done|].
    by intros [? _]%list_elem_of_filter.
Qed.

(** X5.  [resetAllData] removes every item whose key starts with the
    prefix and keeps every other item; after it, [loadData] of any
    dataset goes to the static file, as without an overlay. *)
Theorem resetAllData_clears_overlays (json : Type)
    (JSON_parse : string → option json) (emptyArray : json)
    (fetch : string → Storage.fetched) (pathname name key : string)
    (localStorage : gmap string string) :
  Sessions.resetAllData localStorage
    !! (Storage.STORAGE_PREFIX ++ name)%string = None
  ∧ (¬ Sessions.isOverlayKey key →
     Sessions.resetAllData localStorage !! key = localStorage !! key)
  ∧ Storage.loadData json JSON_parse emptyArray fetch pathname
      (Sessions.resetAllData localStorage) name
    = Storage.loadBaseline json JSON_parse emptyArray fetch pathname name
        (Sessions.resetAllData localStorage).
Proof.
  assert (Sessions.resetAllData localStorage
            !! (Storage.STORAGE_PREFIX ++ name)%string = None) as Hgone.
  { rewrite resetAllData_lookup, decide_True; [done|].
    apply overlay_key_prefix. }
  split; [done|]. split.
  - intros Hk. by rewrite resetAllData_lookup, decide_False.
  - unfold Storage.loadData. by rewrite Hgone.
Qed.

Lemma resetAllData_clears_overlays_witness :
  Sessions.resetAllData
    {[ "openschool_grades" := "[]"; "theme" := "dark" ]} !! "theme"
  = ({[ "openschool_grades" := "[]"; "theme" := "dark" ]}
       : gmap string string) !! "theme".
Proof.
  destruct (resetAllData_clears_overlays (list unit) parseEmptyArray []
              notFound "/index.html" "grades" "theme"
              {[ "openschool_grades" := "[]"; "theme" := "dark" ]})
    as (_ & Hkept & _).
  apply Hkept. unfold Sessions.isOverlayKey. simpl. discriminate.
Defined.

(** X6.  The session: [getSession] gives back the user that [setSession]
    stored (the text being JSON for the user, and not empty), gives
    [null] after [clearSession], and gives [null] instead of throwing
    when the item is not JSON; neither call touches any other item. *)
Theorem session_round_trip (json : Type) (JSON_parse : string → option json)
    (JSON_stringify : json → string) (user : json) (raw key : string)
    (sessionStorage : gmap string string) :
  (JSON_stringify user ≠ "" →
   JSON_parse (JSON_stringify user) = Some user →
   Sessions.getSession json JSON_parse
     (Sessions.setSession json JSON_stringify sessionStorage user)
   = Some user)
  ∧ Sessions.getSession json JSON_parse (Sessions.clearSession sessionStorage)
    = None
  ∧ (JSON_parse raw = None →
     Sessions.getSession json JSON_parse
       (<[Sessions.SESSION_KEY := raw]> sessionStorage) = None)
  ∧ (key ≠ Sessions.SESSION_KEY →
     Sessions.setSession json JSON_stringify sessionStorage user !! key
     = sessionStorage !! key
     ∧ Sessions.clearSession sessionStorage !! key = sessionStorage !! key).
Proof.
  unfold Sessions.getSession, Sessions.setSession, Sessions.clearSession.
  split; [|split; [|split]].
  - intros Hne Hparse. rewrite lookup_insert_eq, Hparse.
    by destruct (decide _).
  - by rewrite lookup_delete_eq.
  - intros Hbad. rewrite lookup_insert_eq, Hbad. by destruct (decide _).
  - intros Hkey. by rewrite lookup_insert_ne, lookup_delete_ne.
Qed.

(** A stand-in for the platform's JSON of a user: the text is the
    user's name. *)
Definition parseName (text : string) : option string := Some text.

Lemma session_round_trip_witness :
  Sessions.getSession string parseName
    (Sessions.setSession string (λ name, name) ∅ "teacher")
  = Some "teacher".
Proof.
  destruct (session_round_trip string parseName (λ name, name) "teacher"
              "" "theme" ∅) as (Hset & _).
  apply Hset.
  - discriminate.
  - reflexivity.
Defined.

(** ** Attendance: what a save keeps *)

Section SaveFrame.

Import Attendance.

Variable generateId : nat → string.
Variables (classId date : string).

(** The toggle group marks the key (class, student, date). *)
Definition marks (group : toggle) (c s d : string) : Prop :=
  c = classId ∧ d = date ∧ ∃ status, group = Some (s, status).

Lemma saveStep_foreign user now st group c s d :
  ¬ marks group c s d →
  filter (sameKey c s d)
         (attendanceData (saveStep generateId classId date user now st group))
  = filter (sameKey c s d) (attendanceData st).
Proof.
  intros Hforeign. destruct group as [[s' status]|]; [|done].
  assert (¬ (c = classId ∧ s = s' ∧ d = date)) as Hne.
  { intros (-> & -> & ->). apply Hforeign. repeat split. by eexists. }
  unfold saveStep.
  destruct (list_find _ _) as [[i old]|] eqn:Hfind; simpl.
  - apply list_find_Some in Hfind as (Hi & (Hc & Hs & Hd) & _).
    apply (filter_insert_unrelated _ _ i old); [done| |];
      unfold sameKey; simpl; intros (? & ? & ?); apply Hne;
      repeat split; congruence.
  - rewrite filter_app, filter_cons_False, filter_nil, app_nil_r; [done|].
    unfold sameKey; simpl. intros (? & ? & ?). by apply Hne.
Qed.

Lemma saveSteps_foreign user now toggles st c s d :
  Forall (λ group, ¬ marks group c s d) toggles →
  filter (sameKey c s d)
    (attendanceData
       (fold_left (saveStep generateId classId date user now) toggles st))
  = filter (sameKey c s d) (attendanceData st).
Proof.
  intros Hf. revert st.
  induction Hf as [|g toggles Hg _ IH]; intros st; [done|].
  cbn [fold_left]. rewrite IH. by apply saveStep_foreign.
Qed.

(** A step changes the number of records of a key only from 0 to 1. *)
Lemma saveStep_key_count user now st group c s d :
  let before := length (filter (sameKey c s d) (attendanceData st)) in
  let after :=
    length (filter (sameKey c s d)
              (attendanceData
                 (saveStep generateId classId date user now st group))) in
  after = before ∨ (before = 0 ∧ after = 1).
Proof.
  intros before after. subst before after.
  assert (marks group c s d ∨ ¬ marks group c s d)
    as [(-> & -> & status & ->)|Hforeign].
  { destruct group as [[s' status]|];
      [|right; by intros (_ & _ & ? & ?)].
    destruct (decide (c = classId ∧ d = date ∧ s = s')) as [(-> & -> & ->)|Hne].
    - left. repeat split. by eexists.
    - right. intros (-> & -> & ? & [= -> _]). by apply Hne. }
  - rewrite saveStep_same.
    destruct (filter _ (attendanceData st)); simpl; auto.
  - left. by rewrite saveStep_foreign.
Qed.

(** The ids of the table after a step: those before, and the new id if
    one was generated. *)
Lemma saveStep_ids user now st group :
  let st' := saveStep generateId classId date user now st group in
  AttendanceRecord.id <$> attendanceData st'
  = (AttendanceRecord.id <$> attendanceData st)
      ++ (generateId <$> seq (generated st) (generated st' - generated st))
  ∧ (generated st ≤ generated st')%nat
  ∧ count st' = (count st + length (option_list group))%nat.
Proof.
  destruct group as [[s status]|]; cbn zeta.
  - unfold saveStep.
    destruct (list_find _ _) as [[i old]|] eqn:Hfind; simpl.
    + apply list_find_Some in Hfind as (Hi & _).
      rewrite Nat.sub_diag, app_nil_r, list_fmap_insert. simpl.
      split; [|lia].
      apply list_insert_id. by rewrite list_lookup_fmap, Hi.
    + rewrite fmap_app. simpl.
      replace (S (generated st) - generated st) with 1 by lia.
      split; [done|lia].
  - simpl. rewrite Nat.sub_diag, app_nil_r. split; [done|lia].
Qed.

End SaveFrame.

(** X7.  A save never changes the records of a key that it does not
    mark: those of a student who has no button pressed in the batch
    (no implicit absence), of another class, and of another day. *)
Theorem saveAttendance_keeps_unmarked (generateId : nat → string)
    (classId date : string) (user : User.t) (now : string)
    (toggles : list Attendance.toggle)
    (attendanceData0 : list AttendanceRecord.t) (generated0 : nat)
    (c s d : string) :
  (c ≠ classId ∨ d ≠ date ∨ notPressed s toggles) →
  filter (Attendance.sameKey c s d)
    (Attendance.attendanceData
       (Attendance.saveAttendance generateId classId date user now toggles
          attendanceData0 generated0))
  = filter (Attendance.sameKey c s d) attendanceData0.
Proof.
  intros Hunmarked. unfold Attendance.saveAttendance.
  rewrite saveSteps_foreign; [done|].
  destruct Hunmarked as [Hc|[Hd|Hs]].
  - apply Forall_forall. by intros g _ (? & _).
  - apply Forall_forall. by intros g _ (_ & ? & _).
  - eapply Forall_impl; [exact Hs|].
    intros g Hg (_ & _ & status & ->). by apply (Hg status).
Qed.

Lemma saveAttendance_keeps_unmarked_witness :
  filter (Attendance.sameKey "c-math" "u-bob" "2026-03-02")
    (Attendance.attendanceData
       (Attendance.saveAttendance attendance_ids "c-math" "2026-03-02"
          teacher "t1" [Some ("u-ann", "absent"); None] attendance_table
          0%nat))
  = filter (Attendance.sameKey "c-math" "u-bob" "2026-03-02")
           attendance_table.
Proof.
  apply (saveAttendance_keeps_unmarked attendance_ids "c-math" "2026-03-02"
           teacher "t1" [Some ("u-ann", "absent"); None] attendance_table
           0%nat "c-math" "u-bob" "2026-03-02").
  right. right. repeat constructor; discriminate.
Defined.

Lemma saveSteps_keys_unique (generateId : nat → string)
    (classId date : string) (user : User.t) (now : string)
    (toggles : list Attendance.toggle) (st : Attendance.state) :
  (∀ c s d,
     (length (filter (Attendance.sameKey c s d)
                (Attendance.attendanceData st)) ≤ 1)%nat) →
  ∀ c s d,
    (length
       (filter (Attendance.sameKey c s d)
          (Attendance.attendanceData
             (fold_left (Attendance.saveStep generateId classId date user now)
                toggles st))) ≤ 1)%nat.
Proof.
  revert st. induction toggles as [|g toggles IH]; intros st Hst; [apply Hst|].
  cbn [fold_left]. apply IH. intros c' s' d'.
  pose proof (saveStep_key_count generateId classId date user now st g
                c' s' d') as Hstep.
  specialize (Hst c' s' d'). simpl in Hstep. lia.
Qed.

(** X8.  A save keeps the table free of duplicates: if no (class,
    student, date) has more than one record before, none has after. *)
Theorem saveAttendance_keeps_keys_unique (generateId : nat → string)
    (classId date : string) (user : User.t) (now : string)
    (toggles : list Attendance.toggle)
    (attendanceData0 : list AttendanceRecord.t) (generated0 : nat) :
  (∀ c s d,
     (length (filter (Attendance.sameKey c s d) attendanceData0) ≤ 1)%nat) →
  ∀ c s d,
    (length
       (filter (Attendance.sameKey c s d)
          (Attendance.attendanceData
             (Attendance.saveAttendance generateId classId date user now
                toggles attendanceData0 generated0))) ≤ 1)%nat.
Proof.
  intros Hunique. unfold Attendance.saveAttendance.
  by apply saveSteps_keys_unique.
Qed.

Lemma saveAttendance_keeps_keys_unique_witness :
  (length
     (filter (Attendance.sameKey "c-math" "u-ann" "2026-03-02")
        (Attendance.attendanceData
           (Attendance.saveAttendance attendance_ids "c-math" "2026-03-02"
              teacher "t1" [Some ("u-ann", "absent")] [] 0%nat))) ≤ 1)%nat.
Proof.
  apply (saveAttendance_keeps_keys_unique attendance_ids "c-math"
           "2026-03-02" teacher "t1" [Some ("u-ann", "absent")] [] 0%nat).
  intros c s d. simpl. lia.
Defined.

Lemma saveSteps_ids (generateId : nat → string) (classId date : string)
    (user : User.t) (now : string) (toggles : list Attendance.toggle)
    (st : Attendance.state) :
  let st' :=
    fold_left (Attendance.saveStep generateId classId date user now) toggles
              st in
  AttendanceRecord.id <$> Attendance.attendanceData st'
  = (AttendanceRecord.id <$> Attendance.attendanceData st)
      ++ (generateId <$>
            seq (Attendance.generated st)
                (Attendance.generated st' - Attendance.generated st))
  ∧ (Attendance.generated st ≤ Attendance.generated st')%nat
  ∧ Attendance.count st'
    = (Attendance.count st + length (omap id toggles))%nat.
Proof.
  revert st. induction toggles as [|g toggles IH]; intros st; cbn [fold_left].
  - cbn zeta. rewrite Nat.sub_diag. simpl. rewrite app_nil_r.
    split; [done|lia].
  - destruct (IH (Attendance.saveStep generateId classId date user now st g))
      as (Hids & Hgen & Hcount).
    destruct (saveStep_ids generateId classId date user now st g)
      as (Hids1 & Hgen1 & Hcount1). cbn zeta in *.
    split; [|split; [lia|]].
    + rewrite Hids, Hids1, <-app_assoc, <-fmap_app. do 2 f_equal.
      remember (Attendance.generated st) as a.
      remember (Attendance.generated
                  (Attendance.saveStep generateId classId date user now st g))
        as b.
      remember (Attendance.generated (fold_left _ _ _)) as c.
      clear Heqa Heqb Heqc.
      assert (c - a = (b - a) + (c - b))%nat as -> by lia.
      rewrite seq_app. do 2 f_equal. lia.
    + rewrite Hcount, Hcount1.
      assert (length (omap id (g :: toggles))
              = length (option_list g) + length (omap id toggles))%nat as ->
        by (by destruct g).
      lia.
Qed.

(** X9.  A save changes no id and removes no record: the ids of the
    table afterwards are those before, in place, followed by the ids
    generated during the save, in the order of their generation; the
    count of the toast is the number of groups with a pressed button. *)
Theorem saveAttendance_ids_and_count (generateId : nat → string)
    (classId date : string) (user : User.t) (now : string)
    (toggles : list Attendance.toggle)
    (attendanceData0 : list AttendanceRecord.t) (generated0 : nat) :
  let saved :=
    Attendance.saveAttendance generateId classId date user now toggles
      attendanceData0 generated0 in
  AttendanceRecord.id <$> Attendance.attendanceData saved
  = (AttendanceRecord.id <$> attendanceData0)
      ++ (generateId <$>
            seq generated0 (Attendance.generated saved - generated0))
  ∧ (generated0 ≤ Attendance.generated saved)%nat
  ∧ Attendance.count saved = length (omap id toggles).
Proof. apply saveSteps_ids. Qed.

(** ** Attendance: the roster after a save *)

Lemma js_find_cons {A} (P : A → Prop) `{∀ x, Decision (P x)} (x : A)
    (l : list A) :
  js_find P (x :: l) = if decide (P x) then Some x else js_find P l.
Proof.
  unfold js_find. cbn [list_find]. destruct (decide (P x)); [done|].
  by destruct (list_find P l) as [[i y]|].
Qed.

(** The record that [renderRoster] finds for a student is the first
    record of the key. *)
Lemma rosterStatus_head (attendanceData : list AttendanceRecord.t)
    (classId date : string) (s : User.t) :
  AttendanceViews.rosterStatus attendanceData classId date s
  = match head (filter (Attendance.sameKey classId (User.id s) date)
                       attendanceData) with
    | Some existing => AttendanceRecord.status existing
    | None => ""
    end.
Proof.
  unfold AttendanceViews.rosterStatus.
  induction attendanceData as [|a att IH]; [done|].
  rewrite (filter_cons (λ a, _ ∧ _)), filter_cons.
  destruct (decide (AttendanceRecord.class_id a = classId
                    ∧ AttendanceRecord.date a = date)) as [[Hc Hd]|Hne].
  - rewrite js_find_cons.
    destruct (decide (AttendanceRecord.student_id a = User.id s)) as [Hs|Hs].
    + by rewrite decide_True.
    + rewrite decide_False by (by intros (_ & ? & _)). apply IH.
  - rewrite decide_False by (intros (? & _ & ?); by apply Hne). apply IH.
Qed.

(** X10.  What a save marks for a student is what the roster of that
    class and day then shows for the student: the status of the pressed
    button, whatever records the table held before. *)
Theorem rosterStatus_after_saveAttendance (generateId : nat → string)
    (classId date status : string) (s user : User.t) (now : string)
    (pre post : list Attendance.toggle)
    (attendanceData0 : list AttendanceRecord.t) (generated0 : nat) :
  notPressed (User.id s) pre → notPressed (User.id s) post →
  AttendanceViews.rosterStatus
    (Attendance.attendanceData
       (Attendance.saveAttendance generateId classId date user now
          (pre ++ Some (User.id s, status) :: post) attendanceData0
          generated0))
    classId date s
  = status.
Proof.
  intros Hpre Hpost. rewrite rosterStatus_head.
  unfold Attendance.saveAttendance. rewrite fold_left_app. cbn [fold_left].
  rewrite (saveSteps_other _ _ _ _ _ _ _ (User.id s) Hpost), saveStep_same.
  by destruct (filter _ _).
Qed.

Lemma rosterStatus_after_saveAttendance_witness :
  AttendanceViews.rosterStatus
    (Attendance.attendanceData
       (Attendance.saveAttendance attendance_ids "c-math" "2026-03-02"
          teacher "t1" ([None] ++ Some (User.id ann, "excused") :: [])
          attendance_table 0%nat))
    "c-math" "2026-03-02" ann
  = "excused".
Proof.
  apply (rosterStatus_after_saveAttendance attendance_ids "c-math"
           "2026-03-02" "excused" ann teacher "t1" [None] []
           attendance_table 0%nat).
  - repeat constructor. discriminate.
  - constructor.
Defined.

Section UntouchedRoster.

Import Attendance.

Variable generateId : nat → string.
Variables (classId date : string).

(** The status of the first record of a student for the class and day. *)
Definition keyStatus (attendanceData : list AttendanceRecord.t) (s : string)
  : option string :=
  AttendanceRecord.status <$> head (filter (sameKey classId s date)
                                           attendanceData).

(** The group, if pressed, repeats the status that the table holds. *)
Definition repeats (attendanceData : list AttendanceRecord.t)
    (group : toggle) : Prop :=
  ∀ s status, group = Some (s, status) →
              keyStatus attendanceData s = Some status.

Lemma saveStep_repeats user now st group :
  repeats (attendanceData st) group →
  let st' := saveStep generateId classId date user now st group in
  generated st' = generated st
  ∧ length (attendanceData st') = length (attendanceData st)
  ∧ ∀ s, keyStatus (attendanceData st') s = keyStatus (attendanceData st) s.
Proof.
  intros Hrep. destruct group as [[s status]|]; [|done].
  specialize (Hrep s status eq_refl). cbn zeta.
  split; [|split].
  - unfold saveStep.
    destruct (list_find _ _) as [[i old]|] eqn:Hfind; [done|].
    apply list_find_None in Hfind. unfold keyStatus in Hrep.
    by rewrite (filter_none _ _ Hfind) in Hrep.
  - unfold saveStep.
    destruct (list_find _ _) as [[i old]|] eqn:Hfind;
      [simpl; apply length_insert|].
    apply list_find_None in Hfind. unfold keyStatus in Hrep.
    by rewrite (filter_none _ _ Hfind) in Hrep.
  - intros s'. unfold keyStatus in *.
    destruct (decide (s' = s)) as [->|Hne].
    + rewrite saveStep_same.
      destruct (filter _ (attendanceData st)) as [|old others]; [done|].
      simpl in *. done.
    + rewrite saveStep_other; [done|]. by intros status' [= ->].
Qed.

Lemma saveSteps_repeats user now toggles attendanceData0 st :
  Forall (repeats attendanceData0) toggles →
  (∀ s, keyStatus (attendanceData st) s = keyStatus attendanceData0 s) →
  let st' := fold_left (saveStep generateId classId date user now) toggles st in
  generated st' = generated st
  ∧ length (attendanceData st') = length (attendanceData st)
  ∧ ∀ s, keyStatus (attendanceData st') s = keyStatus attendanceData0 s.
Proof.
  intros Hall. revert st.
  induction Hall as [|g toggles Hg _ IH]; intros st Hst; [done|].
  cbn [fold_left].
  assert (repeats (attendanceData st) g) as Hg'.
  { intros s status Heq. rewrite Hst. by apply Hg. }
  destruct (saveStep_repeats user now st g Hg') as (Hgen & Hlen & Hkey).
  destruct (IH (saveStep generateId classId date user now st g))
    as (Hgen' & Hlen' & Hkey').
  { intros s. by rewrite Hkey. }
  cbn zeta in *. rewrite Hgen', Hlen'. done.
Qed.

End UntouchedRoster.

Lemma rosterStatus_keyStatus attendanceData classId date (s : User.t) :
  AttendanceViews.rosterStatus attendanceData classId date s
  = default "" (keyStatus classId date attendanceData (User.id s)).
Proof.
  rewrite rosterStatus_head. unfold keyStatus. by destruct (head _).
Qed.

Lemma renderedToggle_repeats attendanceData classId date (s : User.t) group :
  AttendanceViews.renderedToggle attendanceData classId date s = Some group →
  repeats classId date attendanceData group.
Proof.
  unfold AttendanceViews.renderedToggle.
  destruct (decide _) as [_|]; [|done]. intros [= <-] s' status.
  destruct (js_find _ _) as [st|] eqn:Hfind; [|done].
  intros [= <- <-]. unfold js_find in Hfind.
  destruct (list_find _ _) as [[i st']|] eqn:Hlf; [|done].
  injection Hfind as ->.
  apply list_find_Some in Hlf as (Hin%list_elem_of_lookup_2 & Hst & _).
  rewrite rosterStatus_keyStatus in Hst.
  destruct (keyStatus _ _ _ _) as [status|]; simpl in Hst; [by subst|].
  subst. unfold AttendanceViews.statuses in Hin.
  repeat (apply elem_of_cons in Hin as [?|Hin]; [discriminate|]).
  by apply elem_of_nil in Hin.
Qed.

(** X11.  For a class whose students have ids without a double quote,
    an ampersand, a carriage return or a NUL, and names without a double
    quote: the roster draws one toggle group for each student, and
    saving it as it was drawn, with no button clicked, creates no
    record, generates no id and changes no status: the roster of every
    class and day shows for every student what it showed before. *)
Theorem saveAttendance_rendered_roster (generateId : nat → string)
    (classId date : string) (user : User.t) (now : string)
    (attendanceData0 : list AttendanceRecord.t) (generated0 : nat)
    (enrollmentsData : list Enrollment.t) (usersData : list User.t) :
  Forall (λ s, AttendanceViews.plainAttribute (User.id s)
               ∧ AttendanceViews.plainLabel (User.display_name s))
         (Attendance.getClassStudents enrollmentsData usersData classId) →
  ∃ toggles,
    AttendanceViews.renderRoster attendanceData0 enrollmentsData usersData
      classId date = Some toggles
    ∧ length toggles
      = length (Attendance.getClassStudents enrollmentsData usersData classId)
    ∧ let saved :=
        Attendance.saveAttendance generateId classId date user now toggles
          attendanceData0 generated0 in
      Attendance.generated saved = generated0
      ∧ length (Attendance.attendanceData saved) = length attendanceData0
      ∧ AttendanceRecord.id <$> Attendance.attendanceData saved
        = AttendanceRecord.id <$> attendanceData0
      ∧ ∀ c d s,
          AttendanceViews.rosterStatus (Attendance.attendanceData saved) c d s
          = AttendanceViews.rosterStatus attendanceData0 c d s.
Proof.
  intros Hplain.
  assert (is_Some (AttendanceViews.renderRoster attendanceData0
                     enrollmentsData usersData classId date))
    as [toggles Hroster].
  { unfold AttendanceViews.renderRoster. apply mapM_is_Some.
    eapply Forall_impl; [done|]. intros s Hs. simpl.
    unfold AttendanceViews.renderedToggle. by rewrite decide_True. }
  exists toggles. split; [done|].
  unfold AttendanceViews.renderRoster in Hroster.
  apply mapM_Some in Hroster.
  split; [symmetry; by eapply Forall2_length|].
  intros saved.
  assert (Forall (repeats classId date attendanceData0) toggles) as Hall.
  { eapply Forall2_Forall_r; [done|]. apply Forall_forall.
    intros s _ group. apply renderedToggle_repeats. }
  destruct (saveSteps_repeats generateId classId date user now _
              attendanceData0
              (Attendance.mkState attendanceData0 generated0 0) Hall)
    as (Hgen & Hlen & Hkey); [done|].
  fold (Attendance.saveAttendance generateId classId date user now
          toggles attendanceData0 generated0) in *.
  fold saved in Hgen, Hlen, Hkey. simpl in Hgen, Hlen.
  split; [done|]. split; [done|]. split.
  - destruct (saveSteps_ids generateId classId date user now toggles
                (Attendance.mkState attendanceData0 generated0 0))
      as (Hids & _).
    fold (Attendance.saveAttendance generateId classId date user now
            toggles attendanceData0 generated0) in Hids.
    fold saved in Hids. rewrite Hids, Hgen. simpl.
    by rewrite Nat.sub_diag, app_nil_r.
  - intros c d s.
    destruct (decide (c = classId ∧ d = date)) as [[-> ->]|Hne].
    + by rewrite !rosterStatus_keyStatus, Hkey.
    + rewrite !rosterStatus_head. subst saved.
      unfold Attendance.saveAttendance. rewrite saveSteps_foreign; [done|].
      apply Forall_forall. intros g _ (? & ? & _). by apply Hne.
Qed.

Lemma saveAttendance_rendered_roster_witness :
  ∃ toggles,
    AttendanceViews.renderRoster attendance_table class_enrollments [ann]
      "c-math" "2026-03-02" = Some toggles
    ∧ length toggles = 1%nat
    ∧ Attendance.generated
        (Attendance.saveAttendance attendance_ids "c-math" "2026-03-02"
           teacher "t1" toggles attendance_table 0%nat) = 0%nat.
Proof.
  destruct (saveAttendance_rendered_roster attendance_ids "c-math"
              "2026-03-02" teacher "t1" attendance_table 0%nat
              class_enrollments [ann])
    as (toggles & Hroster & Hlen & Hgen & _).
  - by apply (bool_decide_unpack _); vm_compute.
  - exists toggles. split; [exact Hroster|]. split; [exact Hlen|exact Hgen].
Defined.

(** ** Attendance: the summary of a class *)

Lemma status_counts (records : list AttendanceRecord.t) :
  (length (filter (λ r, AttendanceRecord.status r = "present") records)
   + length (filter (λ r, AttendanceRecord.status r = "absent") records)
   + length (filter (λ r, AttendanceRecord.status r = "late") records)
   + length (filter (λ r, AttendanceRecord.status r = "excused") records)
   + length (filter (λ r, AttendanceRecord.status r
                          ∉ AttendanceViews.statuses) records)
   = length records)%nat.
Proof.
  induction records as [|r records IH]; [done|].
  rewrite !filter_cons.
  destruct (decide (AttendanceRecord.status r ∉ AttendanceViews.statuses))
    as [Hout|Hin].
  - unfold AttendanceViews.statuses in Hout.
    rewrite !not_elem_of_cons in Hout.
    destruct Hout as (? & ? & ? & ? & _).
    rewrite !decide_False by done. simpl. lia.
  - apply dec_stable in Hin. unfold AttendanceViews.statuses in Hin.
    repeat (apply elem_of_cons in Hin as [Hin|Hin];
            [rewrite Hin; simpl; lia|]).
    by apply elem_of_nil in Hin.
Qed.

(** X12.  In the summary of a class the four counts never add up to more
    than [total], which is the number of records of the class; they add
    up to it exactly when every record of the class has one of the four
    statuses. *)
Theorem getClassAttendanceSummary_counts
    (attendanceData : list AttendanceRecord.t) (classId : string) :
  let s := AttendanceViews.getClassAttendanceSummary attendanceData classId in
  let counted :=
    (AttendanceViews.present s + AttendanceViews.absent s
     + AttendanceViews.late s + AttendanceViews.excused s)%nat in
  (counted ≤ AttendanceViews.total s)%nat
  ∧ AttendanceViews.total s
    = length (filter (λ a, AttendanceRecord.class_id a = classId)
                     attendanceData)
  ∧ (counted = AttendanceViews.total s
     ↔ Forall (λ a, AttendanceRecord.class_id a = classId →
                    AttendanceRecord.status a ∈ AttendanceViews.statuses)
              attendanceData).
Proof.
  intros s counted. subst s counted.
  unfold AttendanceViews.getClassAttendanceSummary. cbn.
  set (records := filter _ attendanceData).
  pose proof (status_counts records) as Hsum.
  split; [lia|]. split; [done|].
  assert (length (filter (λ r, AttendanceRecord.status r
                               ∉ AttendanceViews.statuses) records) = 0%nat
          ↔ Forall (λ a, AttendanceRecord.class_id a = classId →
                         AttendanceRecord.status a ∈ AttendanceViews.statuses)
                   attendanceData) as Hother.
  { rewrite length_zero_iff_nil. split.
    - intros Hnil. apply Forall_forall. intros a Ha Hc.
      destruct (decide (AttendanceRecord.status a ∈ AttendanceViews.statuses))
        as [|Hout]; [done|].
      assert (a ∈ filter (λ r, AttendanceRecord.status r
                               ∉ AttendanceViews.statuses) records) as Hin.
      { apply list_elem_of_filter. split; [done|].
        apply list_elem_of_filter. done. }
      rewrite Hnil in Hin. by apply elem_of_nil in Hin.
    - intros Hall. apply filter_none, Forall_forall.
      intros a [Hc Ha]%list_elem_of_filter Hout.
      rewrite Forall_forall in Hall. by apply Hout, Hall. }
  rewrite <-Hother. lia.
Qed.

Lemma getClassAttendanceSummary_counts_witness :
  let s := AttendanceViews.getClassAttendanceSummary attendance_table
             "c-math" in
  (AttendanceViews.present s + AttendanceViews.absent s
   + AttendanceViews.late s + AttendanceViews.excused s)%nat
  = AttendanceViews.total s.
Proof.
  destruct (getClassAttendanceSummary_counts attendance_table "c-math")
    as (_ & _ & Hiff).
  apply Hiff.
  repeat (apply Forall_cons; split;
          [intros _; cbn;
           repeat first [apply list_elem_of_here | apply list_elem_of_further]
          |]).
  constructor.
Defined.

(** ** Letter grades are monotone *)

(** The letters from the lowest to the highest, and the place of a
    letter among them. *)
Definition letters : list string :=
  ["F"; "D-"; "D"; "D+"; "C-"; "C"; "C+"; "B-"; "B"; "B+"; "A-"; "A"; "A+"].

Definition letterRank (letter : string) : nat :=
  default 0%nat (fst <$> list_find (λ l, l = letter) letters).

(** X13.  A higher percentage never gets a lower letter, and every
    result is one of the thirteen letters. *)
Theorem getLetterGrade_monotone (p q : Q) :
  (p <= q)%Q →
  (letterRank (Gradebook.getLetterGrade (Fin p))
   ≤ letterRank (Gradebook.getLetterGrade (Fin q)))%nat
  ∧ Gradebook.getLetterGrade (Fin p) ∈ letters
  ∧ Assignments.getLetterGrade (Fin p) = Gradebook.getLetterGrade (Fin p).
Proof.
  intros Hpq. split; [|split; [|reflexivity]].
  - unfold Gradebook.getLetterGrade, nge.
    all_bands p; all_bands q; first [lra | vm_compute; lia].
  - unfold Gradebook.getLetterGrade, nge.
    all_bands p; apply (bool_decide_unpack _); by vm_compute.
Qed.

Lemma getLetterGrade_monotone_witness :
  (letterRank (Gradebook.getLetterGrade (Fin 79.9))
   ≤ letterRank (Gradebook.getLetterGrade (Fin 80)))%nat.
Proof.
  destruct (getLetterGrade_monotone 79.9 80) as [H _].
  - unfold Qle; simpl; lia.
  - exact H.
Defined.

(** ** The student's grades page *)

Lemma omap_cons {A B} (f : A → option B) (x : A) (l : list A) :
  omap f (x :: l)
  = match f x with Some y => y :: omap f l | None => omap f l end.
Proof. reflexivity. Qed.

(** Whether the student has a grade in a class. *)
Definition gradedIn (gradesData : list Grade.t) (userId classId : string)
  : Prop :=
  Exists (λ g, Grade.student_id g = userId ∧ Grade.class_id g = classId)
         gradesData.

#[global] Instance gradedIn_dec gradesData userId classId :
  Decision (gradedIn gradesData userId classId).
Proof. unfold gradedIn. apply _. Defined.

Lemma classGradesOf_nil gradesData userId classId :
  classGradesOf gradesData userId classId = []
  ↔ ¬ gradedIn gradesData userId classId.
Proof.
  unfold classGradesOf, gradedIn.
  induction gradesData as [|g gradesData IH].
  - split; [intros _ H; by apply Exists_nil in H|done].
  - rewrite Exists_cons, filter_cons.
    destruct (decide (Grade.student_id g = userId)) as [Hs|Hs].
    + rewrite filter_cons.
      destruct (decide (Grade.class_id g = classId)) as [Hc|Hc].
      * split; [done|]. intros H. exfalso. apply H. by left.
      * rewrite IH. split; [|tauto]. intros H [[_ ?]|?]; tauto.
    + rewrite IH. split; [|tauto]. intros H [[? _]|?]; tauto.
Qed.

(** The enrollments for which the page shows a block: the active ones
    of the student whose class exists and holds a grade of the
    student. *)
Definition shown (gradesData : list Grade.t)
    (classesData : list ClassSection.t) (user : User.t) (e : Enrollment.t)
  : Prop :=
  (Enrollment.student_id e = User.id user ∧ Enrollment.status e = "active")
  ∧ is_Some (js_find (λ c, ClassSection.id c = Enrollment.class_id e)
                     classesData)
  ∧ gradedIn gradesData (User.id user) (Enrollment.class_id e).

#[global] Instance shown_dec gradesData classesData user e :
  Decision (shown gradesData classesData user e).
Proof. unfold shown. apply _. Defined.

(** The block of an enrollment: the name of the first class with the id
    of the enrollment's class, and the cell of the weighted average of
    the student's grades in that class. *)
Definition blockOf (gradesData : list Grade.t)
    (classesData : list ClassSection.t) (user : User.t) (e : Enrollment.t)
  : string * string :=
  (default ""
     (ClassSection.name
        <$> js_find (λ c, ClassSection.id c = Enrollment.class_id e)
                    classesData),
   Gradebook.averageCell
     (Gradebook.studentTotals
        (classGradesOf gradesData (User.id user) (Enrollment.class_id e)))).

(** X14.  The student's page shows a notice when the student has no
    grade at all.  Otherwise it shows one block for each active
    enrollment of the student whose class exists and holds a grade of
    the student, in the order of the enrollments and as often as the
    student is enrolled, with the name of the class and the weighted
    average of the student's grades in it.  Grades in a class without an
    active enrollment are not shown. *)
Theorem renderStudentGrades_blocks (gradesData : list Grade.t)
    (classesData : list ClassSection.t) (enrollmentsData : list Enrollment.t)
    (user : User.t) :
  (filter (λ g, Grade.student_id g = User.id user) gradesData = [] →
   GradebookViews.renderStudentGrades gradesData classesData enrollmentsData
     user = GradebookViews.NoGrades)
  ∧ (filter (λ g, Grade.student_id g = User.id user) gradesData ≠ [] →
     GradebookViews.renderStudentGrades gradesData classesData
       enrollmentsData user
     = GradebookViews.Blocks
         (blockOf gradesData classesData user
            <$> filter (shown gradesData classesData user) enrollmentsData)).
Proof.
  unfold GradebookViews.renderStudentGrades. split; [by intros ->|].
  intros Hne.
  destruct (filter (λ g, Grade.student_id g = User.id user) gradesData)
    as [|g gs] eqn:Hgs; [done|].
  f_equal. clear Hgs Hne g gs.
  induction enrollmentsData as [|e enrollmentsData IH]; [done|].
  rewrite !filter_cons.
  destruct (decide (Enrollment.student_id e = User.id user
                    ∧ Enrollment.status e = "active")) as [He|He].
  - rewrite fmap_cons, omap_cons, IH, renderStudentGrades_cell.
    destruct (decide (shown gradesData classesData user e))
      as [(_ & [cls Hcls] & Hgraded)|Hshown].
    + rewrite fmap_cons, Hcls.
      destruct (classGradesOf gradesData (User.id user)
                  (Enrollment.class_id e)) as [|g gs] eqn:Hgs;
        [by apply classGradesOf_nil in Hgs|].
      simpl. f_equal. unfold blockOf. by rewrite Hcls, Hgs.
    + destruct (js_find _ classesData) as [cls|] eqn:Hcls; [|done].
      destruct (classGradesOf gradesData (User.id user)
                  (Enrollment.class_id e)) as [|g gs] eqn:Hgs; [done|].
      exfalso. apply Hshown. split; [done|]. split; [by eexists|].
      destruct (decide (gradedIn gradesData (User.id user)
                          (Enrollment.class_id e))) as [|Hn]; [done|].
      apply classGradesOf_nil in Hn. by rewrite Hn in Hgs.
  - rewrite decide_False by (by intros [? _]). apply IH.
Qed.

Definition math : ClassSection.t := ClassSection.mk "c-math" "Maths" "u-tea".

(** A student who is enrolled twice in a class sees its block twice. *)
Lemma renderStudentGrades_blocks_witness :
  GradebookViews.renderStudentGrades example_grades [math]
    [Enrollment.mk "e1" "u-ann" "c-math" "active";
     Enrollment.mk "e2" "u-ann" "c-art" "active";
     Enrollment.mk "e3" "u-ann" "c-math" "active"] ann
  = GradebookViews.Blocks [("Maths", "70.0%"); ("Maths", "70.0%")].
Proof.
  destruct (renderStudentGrades_blocks example_grades [math]
              [Enrollment.mk "e1" "u-ann" "c-math" "active";
               Enrollment.mk "e2" "u-ann" "c-art" "active";
               Enrollment.mk "e3" "u-ann" "c-math" "active"] ann)
    as [_ Hblocks].
  rewrite Hblocks; [by vm_compute|discriminate].
Defined.

(** ** Grading a submission *)

Lemma outOfRange_fin (p m : Q) (assignment : Assignment.t) :
  Assignment.max_points assignment = Fin m →
  Grading.outOfRange (Fin p) assignment = false ↔ (0 <= p ∧ p <= m)%Q.
Proof.
  intros Hm. unfold Grading.outOfRange, ngt. rewrite Hm.
  rewrite orb_false_iff, !negb_false_iff, !Qle_bool_iff. done.
Qed.

(** X15.  With a finite max_points, the grade modal saves exactly the
    points from 0 to max_points, both included, and answers everything
    else, NaN too, with the warning, changing nothing. *)
Theorem saveGrade_accepts_exactly_in_range (subId : string)
    (assignment : Assignment.t) (user : User.t) (p m : Q)
    (feedback nowSubmission nowGrade gradeId : string) (st : Grading.state)
    (idx : nat) (sub : Submission.t) :
  list_find (λ s, Submission.id s = subId) (Grading.submissionsData st)
    = Some (idx, sub) →
  Assignment.max_points assignment = Fin m →
  ((0 <= p ∧ p <= m)%Q
   ↔ ∃ st', Grading.saveGrade subId assignment user (Fin p) feedback
              nowSubmission nowGrade gradeId st
            = Some (Grading.Saved st'))
  ∧ ((p < 0 ∨ m < p)%Q
     ↔ Grading.saveGrade subId assignment user (Fin p) feedback
         nowSubmission nowGrade gradeId st
       = Some (Grading.Warned (Grading.PointsOutOfRange (Fin m))))
  ∧ Grading.saveGrade subId assignment user NaN feedback nowSubmission
      nowGrade gradeId st
    = Some (Grading.Warned (Grading.PointsOutOfRange (Fin m))).
Proof.
  intros Hfind Hm. unfold Grading.saveGrade. rewrite Hfind.
  pose proof (outOfRange_fin p m assignment Hm) as Hrange.
  split; [|split].
  - destruct (Grading.outOfRange (Fin p) assignment).
    + split; [intros H; by apply Hrange in H|by intros [st' [=]]].
    + split; [by eexists|intros _; by apply Hrange].
  - rewrite Hm. destruct (Grading.outOfRange (Fin p) assignment).
    + split; [done|]. intros _.
      destruct (Qlt_le_dec p 0) as [?|H0]; [by left|].
      destruct (Qlt_le_dec m p) as [?|H1]; [by right|].
      assert (true = false) by (by apply Hrange). done.
    + split; [|done]. intros Hout.
      assert (0 <= p ∧ p <= m)%Q as [? ?] by (by apply Hrange).
      destruct Hout; lra.
  - by rewrite Hm.
Qed.

Definition essay_submission : Submission.t :=
  Submission.mk "sub-1" "a2" "u-ann" "t0" "My essay" None Null None None
                "submitted".

Definition grading_state : Grading.state :=
  Grading.mkState [essay_submission] None None.

Lemma saveGrade_accepts_exactly_in_range_witness :
  ∃ st', Grading.saveGrade "sub-1" essay teacher (Fin 100) "" "t1" "t2" "g-1"
           grading_state
         = Some (Grading.Saved st').
Proof.
  destruct (saveGrade_accepts_exactly_in_range "sub-1" essay teacher 100 100
              "" "t1" "t2" "g-1" grading_state 0%nat essay_submission)
    as (Hin & _).
  - reflexivity.
  - reflexivity.
  - apply Hin. split; unfold Qle; simpl; lia.
Defined.

(** X16.  A saved grade adds exactly one record at the end of the grades
    store and leaves the records before it as they are; without a
    stored overlay the store then holds the new record alone.  The
    record carries the student of the submission, the assignment, the
    points, the weight of the assignment, or 0.25 when that is falsy,
    which is never falsy, and the letter of [points / max_points * 100]
    as the platform computes it, quotient and product rounded.  The
    submission gets the points and the status graded, in place; no other
    submission changes, and the stored submissions are those of the
    module. *)
Theorem saveGrade_effects (subId : string) (assignment : Assignment.t)
    (user : User.t) (points : number)
    (feedback nowSubmission nowGrade gradeId : string) (st st' : Grading.state)
    (idx : nat) (sub : Submission.t) :
  list_find (λ s, Submission.id s = subId) (Grading.submissionsData st)
    = Some (idx, sub) →
  Grading.saveGrade subId assignment user points feedback nowSubmission
    nowGrade gradeId st = Some (Grading.Saved st') →
  (∃ record,
     Grading.gradesOverlay st'
     = Some (default [] (Grading.gradesOverlay st) ++ [record])
     ∧ Grade.id (Grading.base record) = gradeId
     ∧ Grade.student_id (Grading.base record) = Submission.student_id sub
     ∧ Grade.class_id (Grading.base record) = Assignment.class_id assignment
     ∧ Grade.assignment_id (Grading.base record) = Assignment.id assignment
     ∧ Grade.points (Grading.base record) = points
     ∧ Grade.max_points (Grading.base record)
       = Assignment.max_points assignment
     ∧ Grade.weight (Grading.base record)
       = or_else (Assignment.weight assignment) (Num (Fin 0.25))
     ∧ truthy (Grade.weight (Grading.base record)) = true
     ∧ Grade.letter_grade (Grading.base record)
       = Assignments.getLetterGrade
           (nmul (ndiv points (Assignment.max_points assignment)) (Fin 100))
     ∧ Grading.graded_by record = User.id user)
  ∧ Grading.submissionsOverlay st' = Some (Grading.submissionsData st')
  ∧ length (Grading.submissionsData st')
    = length (Grading.submissionsData st)
  ∧ (∃ graded,
       Grading.submissionsData st' !! idx = Some graded
       ∧ Submission.status graded = "graded"
       ∧ Submission.grade graded = Num points
       ∧ Submission.id graded = subId
       ∧ Submission.student_id graded = Submission.student_id sub
       ∧ Submission.assignment_id graded = Submission.assignment_id sub
       ∧ Submission.content graded = Submission.content sub)
  ∧ ∀ j, j ≠ idx →
         Grading.submissionsData st' !! j = Grading.submissionsData st !! j.
Proof.
  intros Hfind. unfold Grading.saveGrade. rewrite Hfind.
  destruct (Grading.outOfRange points assignment); [done|].
  intros [= <-]. cbn [Grading.gradesOverlay Grading.submissionsOverlay
                       Grading.submissionsData].
  apply list_find_Some in Hfind as (Hidx & Hid & _).
  pose proof (lookup_lt_Some _ _ _ Hidx) as Hlt.
  split; [|split; [done|split; [apply length_insert|split]]].
  - eexists. split; [reflexivity|]. simpl. repeat split; try done.
    unfold or_else. by destruct (truthy (Assignment.weight assignment)) eqn:E.
  - eexists. rewrite list_lookup_insert_eq by done.
    split; [reflexivity|]. by simpl.
  - intros j Hj. by rewrite list_lookup_insert_ne.
Qed.

Lemma saveGrade_effects_witness :
  ∃ record,
    Grading.gradesOverlay
      (Grading.mkState
         [Submission.mk "sub-1" "a2" "u-ann" "t0" "My essay" None
                        (Num (Fin 90)) None (Some "t1") "graded"]
         (Some [Submission.mk "sub-1" "a2" "u-ann" "t0" "My essay" None
                              (Num (Fin 90)) None (Some "t1") "graded"])
         (Some [Grading.newGradeRecord "g-1" essay_submission essay teacher
                                       (Fin 90) "" "t2"]))
    = Some (default [] (Grading.gradesOverlay grading_state) ++ [record])
    ∧ Grade.letter_grade (Grading.base record) = "A-".
Proof.
  destruct (saveGrade_effects "sub-1" essay teacher (Fin 90) "" "t1" "t2"
              "g-1" grading_state
              (Grading.mkState
                 [Submission.mk "sub-1" "a2" "u-ann" "t0" "My essay" None
                                (Num (Fin 90)) None (Some "t1") "graded"]
                 (Some [Submission.mk "sub-1" "a2" "u-ann" "t0" "My essay"
                                      None (Num (Fin 90)) None (Some "t1")
                                      "graded"])
                 (Some [Grading.newGradeRecord "g-1" essay_submission essay
                                               teacher (Fin 90) "" "t2"]))
              0%nat essay_submission)
    as ((record & Hstore & _ & _ & _ & _ & _ & _ & _ & _ & Hletter & _) & _).
  - reflexivity.
  - reflexivity.
  - exists record. split; [exact Hstore|]. rewrite Hletter. reflexivity.
Defined.

(** The letter is that of the rounded percentage: 9.7 points out of 10
    are stored with A+, the quotient and the product being rounded to
    97, where the exact percentage of those points is below 97. *)
Example saveGrade_letter_rounding :
  let tenPoints := Assignment.mk "a3" "c-math" "Test" (Fin 10) Undefined
                                 "published" in
  ∃ p,
    double 9.7 = Fin p
    ∧ Grade.letter_grade
        (Grading.base
           (Grading.newGradeRecord "g-2" essay_submission tenPoints teacher
                                   (Fin p) "" "t2")) = "A+"
    ∧ (p / 10 * 100 < 97)%Q
    ∧ Assignments.getLetterGrade (Fin (p / 10 * 100)) = "A".
Proof.
  eexists. split; [by vm_compute|]. split; [by vm_compute|].
  split; by vm_compute.
Qed.

Lemma ungraded_split (l1 l2 : list Submission.t) (x : Submission.t)
    (a : Assignment.t) :
  Grading.ungraded (l1 ++ x :: l2) a
  = (Grading.ungraded l1 a + Grading.ungraded [x] a
     + Grading.ungraded l2 a)%nat
  ∧ length (Grading.submissionsOf (l1 ++ x :: l2) a)
    = (length (Grading.submissionsOf l1 a)
       + length (Grading.submissionsOf [x] a)
       + length (Grading.submissionsOf l2 a))%nat.
Proof.
  unfold Grading.ungraded, Grading.submissionsOf.
  rewrite (cons_middle x l1 l2), !filter_app, !length_app. lia.
Qed.

(** X17.  Grading a submission whose status is submitted lowers the
    count of ungraded submissions of its assignment by one and that of
    no other assignment; the number of submissions listed for any
    assignment stays the same. *)
Theorem saveGrade_ungraded_count (subId : string) (assignment a : Assignment.t)
    (user : User.t) (points : number)
    (feedback nowSubmission nowGrade gradeId : string) (st st' : Grading.state)
    (idx : nat) (sub : Submission.t) :
  list_find (λ s, Submission.id s = subId) (Grading.submissionsData st)
    = Some (idx, sub) →
  Submission.status sub = "submitted" →
  Grading.saveGrade subId assignment user points feedback nowSubmission
    nowGrade gradeId st = Some (Grading.Saved st') →
  Grading.ungraded (Grading.submissionsData st) a
  = (Grading.ungraded (Grading.submissionsData st') a
     + (if decide (Submission.assignment_id sub = Assignment.id a)
        then 1 else 0))%nat
  ∧ length (Grading.submissionsOf (Grading.submissionsData st') a)
    = length (Grading.submissionsOf (Grading.submissionsData st) a).
Proof.
  intros Hfind Hstatus. unfold Grading.saveGrade. rewrite Hfind.
  destruct (Grading.outOfRange points assignment); [done|].
  intros [= <-]. cbn [Grading.submissionsData].
  destruct (list_find_split _ _ _ _ Hfind) as (l1 & l2 & Hl & <- & _ & _).
  rewrite Hl. rewrite insert_app_r_alt, Nat.sub_diag by lia.
  cbn [insert list_insert].
  destruct (ungraded_split l1 l2 sub a) as [-> ->].
  match goal with
  | |- context [l1 ++ ?g :: l2] =>
      destruct (ungraded_split l1 l2 g a) as [-> ->];
      assert (Grading.ungraded [g] a = 0%nat) as ->;
      [|assert (length (Grading.submissionsOf [g] a)
                = length (Grading.submissionsOf [sub] a)) as ->]
  end.
  - unfold Grading.ungraded, Grading.submissionsOf.
    rewrite filter_cons. simpl.
    destruct (decide _); [|done]. by rewrite filter_cons_False.
  - unfold Grading.submissionsOf. rewrite !filter_cons. simpl.
    by destruct (decide _).
  - split; [|lia].
    assert (Grading.ungraded [sub] a
            = if decide (Submission.assignment_id sub = Assignment.id a)
              then 1%nat else 0%nat) as ->; [|lia].
    unfold Grading.ungraded, Grading.submissionsOf. rewrite filter_cons.
    destruct (decide _); [|done]. by rewrite filter_cons_True.
Qed.

Lemma saveGrade_ungraded_count_witness :
  Grading.ungraded (Grading.submissionsData grading_state) essay
  = (Grading.ungraded
       [Submission.mk "sub-1" "a2" "u-ann" "t0" "My essay" None
                      (Num (Fin 90)) None (Some "t1") "graded"] essay
     + (if decide (Submission.assignment_id essay_submission
                   = Assignment.id essay) then 1 else 0))%nat.
Proof.
  destruct (saveGrade_ungraded_count "sub-1" essay essay teacher (Fin 90) ""
              "t1" "t2" "g-1" grading_state
              (Grading.mkState
                 [Submission.mk "sub-1" "a2" "u-ann" "t0" "My essay" None
                                (Num (Fin 90)) None (Some "t1") "graded"]
                 (Some [Submission.mk "sub-1" "a2" "u-ann" "t0" "My essay"
                                      None (Num (Fin 90)) None (Some "t1")
                                      "graded"])
                 (Some [Grading.newGradeRecord "g-1" essay_submission essay
                                               teacher (Fin 90) "" "t2"]))
              0%nat essay_submission) as [Hcount _].
  - reflexivity.
  - reflexivity.
  - reflexivity.
  - exact Hcount.
Defined.

Lemma js_find_app_r {A} (P : A → Prop) `{∀ x, Decision (P x)}
    (l1 l2 : list A) :
  js_find P l1 = None → js_find P (l1 ++ l2) = js_find P l2.
Proof.
  unfold js_find. intros Hnone.
  destruct (list_find P l1) as [[i x]|] eqn:Hfind; [done|].
  rewrite list_find_app_r by done.
  by destruct (list_find P l2) as [[j y]|].
Qed.

(** X18.  A grade saved for a student who had no grade for the
    assignment in the store is the one that the teacher's gradebook then
    finds for that student and assignment, and counts with the weight
    that was stored with it, the assignment's or 0.25.  Over that
    assignment alone the gradebook shows
    [(points / max_points * weight) / weight * 100], as the platform
    computes it, to one decimal when the weight is greater than 0, and
    the placeholder otherwise; the letter stored with the grade is that
    of [points / max_points * 100], as the platform computes it. *)
Theorem saveGrade_then_gradebook (subId : string) (assignment : Assignment.t)
    (user s : User.t) (points : number)
    (feedback nowSubmission nowGrade gradeId : string) (st st' : Grading.state)
    (idx : nat) (sub : Submission.t) :
  list_find (λ x, Submission.id x = subId) (Grading.submissionsData st)
    = Some (idx, sub) →
  Grading.saveGrade subId assignment user points feedback nowSubmission
    nowGrade gradeId st = Some (Grading.Saved st') →
  User.id s = Submission.student_id sub →
  gradeFor (Grading.base <$> default [] (Grading.gradesOverlay st)) s
           assignment = None →
  let w := toNumber (or_else (Assignment.weight assignment) (Num (Fin 0.25))) in
  let es := [(points, Assignment.max_points assignment, w)] in
  ∃ grades record,
    Grading.gradesOverlay st' = Some (grades ++ [record])
    ∧ gradeFor (Grading.base <$> grades ++ [record]) s assignment
      = Some (Grading.base record)
    ∧ Gradebook.classTotals (Grading.base <$> grades ++ [record]) s
        [assignment]
      = (weighted_score es, total_weight es)
    ∧ (ngt (total_weight es) (Fin 0) = true →
       Gradebook.averageCell
         (Gradebook.classTotals (Grading.base <$> grades ++ [record]) s
            [assignment])
       = (toFixed1 (spec_percentage es) ++ "%")%string)
    ∧ (ngt (total_weight es) (Fin 0) = false →
       Gradebook.averageCell
         (Gradebook.classTotals (Grading.base <$> grades ++ [record]) s
            [assignment]) = dash)
    ∧ Grade.letter_grade (Grading.base record)
      = Gradebook.getLetterGrade
          (nmul (ndiv points (Assignment.max_points assignment)) (Fin 100)).
Proof.
  intros Hfind Hsave Hs Hnone w es.
  unfold Grading.saveGrade in Hsave. rewrite Hfind in Hsave.
  destruct (Grading.outOfRange points assignment); [done|].
  injection Hsave as <-. cbn [Grading.gradesOverlay].
  set (record := Grading.newGradeRecord gradeId sub assignment user points
                   feedback nowGrade).
  set (grades := default [] (Grading.gradesOverlay st)) in *.
  exists grades, record. split; [done|].
  assert (gradeFor (Grading.base <$> grades ++ [record]) s assignment
          = Some (Grading.base record)) as Hfor.
  { unfold gradeFor in *. rewrite fmap_app, js_find_app_r by done.
    simpl. rewrite js_find_cons, decide_True; [done|]. by simpl. }
  split; [done|].
  assert (truthy (or_else (Assignment.weight assignment) (Num (Fin 0.25)))
          = true) as Htruthy.
  { unfold or_else. by destruct (truthy (Assignment.weight assignment)) eqn:E. }
  assert (classEntry
            <$> gradedEntries (Grading.base <$> grades ++ [record]) s
                  [assignment] = es) as Hentries.
  { rewrite (gradedEntries_cons _ _ _ (Grading.base record)) by done.
    cbn [gradedEntries omap list_omap fmap list_fmap]. subst es.
    unfold classEntry. cbn [fst snd]. do 2 f_equal.
    unfold Gradebook.effectiveWeight. simpl.
    unfold or_else at 2. rewrite Htruthy.
    unfold or_else at 1. by rewrite Htruthy. }
  rewrite classTotals_entries, Hentries.
  split; [done|].
  destruct (entries_cell es) as [Hpos Hzero].
  split; [intros Hw; by destruct (Hpos Hw)|].
  split; [intros Hw; by destruct (Hzero Hw)|].
  reflexivity.
Qed.

Lemma saveGrade_then_gradebook_witness :
  ∃ grades record,
    Grading.gradesOverlay
      (Grading.mkState
         [Submission.mk "sub-1" "a2" "u-ann" "t0" "My essay" None
                        (Num (Fin 90)) None (Some "t1") "graded"]
         (Some [Submission.mk "sub-1" "a2" "u-ann" "t0" "My essay" None
                              (Num (Fin 90)) None (Some "t1") "graded"])
         (Some [Grading.newGradeRecord "g-1" essay_submission essay teacher
                                       (Fin 90) "" "t2"]))
    = Some (grades ++ [record])
    ∧ Gradebook.averageCell
        (Gradebook.classTotals (Grading.base <$> grades ++ [record]) ann
           [essay])
      = "90.0%".
Proof.
  destruct (saveGrade_then_gradebook "sub-1" essay teacher ann (Fin 90) ""
              "t1" "t2" "g-1" grading_state
              (Grading.mkState
                 [Submission.mk "sub-1" "a2" "u-ann" "t0" "My essay" None
                                (Num (Fin 90)) None (Some "t1") "graded"]
                 (Some [Submission.mk "sub-1" "a2" "u-ann" "t0" "My essay"
                                      None (Num (Fin 90)) None (Some "t1")
                                      "graded"])
                 (Some [Grading.newGradeRecord "g-1" essay_submission essay
                                               teacher (Fin 90) "" "t2"]))
              0%nat essay_submission)
    as (grades & record & Hstore & _ & _ & Hcell & _).
  - reflexivity.
  - reflexivity.
  - reflexivity.
  - reflexivity.
  - exists grades, record. split; [exact Hstore|].
    rewrite Hcell; [by vm_compute|reflexivity].
Defined.

(** The average shown for the grade and the letter stored with it come
    from different roundings: 51 points out of 80, graded under a
    weight of 0.5, are shown as 63.7%, where the exact percentage 63.75
    has 63.8 as its first decimal. *)
Example saveGrade_then_gradebook_rounding :
  let es := [(Fin 51, Fin 80, Fin 0.5)] in
  toFixed1 (spec_percentage es) = "63.7"
  ∧ toFixed1 (Fin (exact_percentage [(51, 80, 0.5)%Q])) = "63.8".
Proof. split; by vm_compute. Qed.

(** X19.  Handing in work with a non-empty text adds one submission of
    the student, with status submitted and no grade, at the end of the
    list, whether or not the student had handed in before; the count of
    ungraded submissions of that assignment goes up by one, the grades
    store is not touched.  An empty text is answered with a warning. *)
Theorem submitWork_adds_submission (assignmentsData : list Assignment.t)
    (assignmentId : string) (user : User.t) (content now subId : string)
    (st : Grading.state) (a : Assignment.t) :
  js_find (λ x, Assignment.id x = assignmentId) assignmentsData = Some a →
  (content = "" →
   Grading.submitWork assignmentsData assignmentId user content now subId st
   = Some (Grading.Warned Grading.EmptySubmission))
  ∧ (content ≠ "" →
     ∃ st' submission,
       Grading.submitWork assignmentsData assignmentId user content now
         subId st = Some (Grading.Saved st')
       ∧ Grading.submissionsData st'
         = Grading.submissionsData st ++ [submission]
       ∧ Grading.submissionsOverlay st' = Some (Grading.submissionsData st')
       ∧ Grading.gradesOverlay st' = Grading.gradesOverlay st
       ∧ Submission.status submission = "submitted"
       ∧ Submission.grade submission = Null
       ∧ Submission.student_id submission = User.id user
       ∧ Submission.assignment_id submission = assignmentId
       ∧ Grading.ungraded (Grading.submissionsData st') a
         = S (Grading.ungraded (Grading.submissionsData st) a)
       ∧ length (filter (λ x, Submission.assignment_id x = assignmentId
                              ∧ Submission.student_id x = User.id user)
                        (Grading.submissionsData st'))
         = S (length (filter (λ x, Submission.assignment_id x = assignmentId
                                   ∧ Submission.student_id x = User.id user)
                             (Grading.submissionsData st)))).
Proof.
  intros Hfind. unfold Grading.submitWork. rewrite Hfind.
  assert (Assignment.id a = assignmentId) as Ha.
  { unfold js_find in Hfind.
    destruct (list_find _ _) as [[i x]|] eqn:Hlf; [|done].
    injection Hfind as ->. by apply list_find_Some in Hlf as (_ & ? & _). }
  split; intros Hcontent.
  - by rewrite decide_True.
  - rewrite decide_False by done. eexists _, _. split; [reflexivity|].
    cbn [Grading.submissionsData Grading.submissionsOverlay
         Grading.gradesOverlay].
    repeat split; try done.
    + unfold Grading.ungraded, Grading.submissionsOf.
      rewrite !filter_app, !length_app.
      rewrite (filter_cons_True _ _ []) by (by simpl).
      rewrite filter_cons_True by done. simpl. lia.
    + rewrite filter_app, length_app.
      rewrite filter_cons_True by done. simpl. lia.
Qed.

Lemma submitWork_adds_submission_witness :
  ∃ st' submission,
    Grading.submitWork example_assignments "a2" ann "My essay" "t0" "sub-1"
      (Grading.mkState [] None None) = Some (Grading.Saved st')
    ∧ Grading.submissionsData st' = [] ++ [submission].
Proof.
  destruct (submitWork_adds_submission example_assignments "a2" ann
              "My essay" "t0" "sub-1" (Grading.mkState [] None None) essay)
    as [_ Hsaved].
  - reflexivity.
  - destruct Hsaved as (st' & submission & Hsubmit & Hdata & _).
    + discriminate.
    + exists st', submission. split; [exact Hsubmit|exact Hdata].
Defined.

(** ** What the parser returns *)

Section ParserInvariant.

Import JsString Csv.

(** A property of the rows and the row under way that every end of row
    and every end of field keeps, holds of what [parseLoop] returns. *)
Lemma parseLoop_invariant (I : list (list JsString.t) → Prop)
    (J : list JsString.t → Prop) :
  J [] →
  (∀ row field, J row → J (row ++ [trim field])) →
  (∀ rows row field, I rows → J row → I (endRow rows row field)) →
  ∀ chars rows row field inQuotes,
    I rows → J row → I (parseLoop chars rows row field inQuotes).
Proof.
  intros Hnil Hfield Hrow chars.
  induction chars as [chars IH] using (induction_ltof1 _ length).
  unfold ltof in IH. intros rows row field inQuotes HI HJ.
  destruct chars as [|c rest]; [by apply Hrow|].
  cbn [parseLoop]. destruct inQuotes.
  - destruct (decide (c = QUOTE)).
    + destruct rest as [|next rest'].
      * apply IH; [simpl; lia|done|done].
      * destruct (decide (next = QUOTE)); apply IH; simpl; try lia; done.
    + apply IH; [simpl; lia|done|done].
  - destruct (decide (c = QUOTE)); [apply IH; [simpl; lia|done|done]|].
    destruct (decide (c = COMMA));
      [apply IH; [simpl; lia|done|by apply Hfield]|].
    destruct (decide (c = LF)).
    + apply IH; [simpl; lia|by apply Hrow|done].
    + apply IH; [simpl; lia|done|done].
Qed.

Lemma trimStart_trimmed (s : JsString.t) :
  trimStart (trimStart s) = trimStart s.
Proof.
  induction s as [|c s IH]; [done|]. simpl.
  destruct (isWhite c) eqn:Hc; [done|]. simpl. by rewrite Hc.
Qed.

Lemma trimStart_snoc (s : JsString.t) (c : codeunit) :
  isWhite c = false → trimStart (s ++ [c]) = trimStart s ++ [c].
Proof.
  intros Hc. induction s as [|x s IH]; simpl; [by rewrite Hc|].
  by destruct (isWhite x).
Qed.

(** [trim] changes nothing in what it returns. *)
Lemma trim_idempotent (s : JsString.t) : trim (trim s) = trim s.
Proof.
  unfold trim.
  assert (∀ t, trimStart t = t → trimStart (trimEnd t) = trimEnd t) as Hkeep.
  { intros t Ht. destruct t as [|c t]; [done|].
    simpl in Ht. destruct (isWhite c) eqn:Hc.
    - exfalso. assert (length (trimStart t) ≤ length t)%nat as Hlen.
      { clear. induction t as [|x t IH]; simpl; [done|].
        destruct (isWhite x); simpl; lia. }
      rewrite Ht in Hlen. simpl in Hlen. lia.
    - unfold trimEnd. rewrite reverse_cons, trimStart_snoc by done.
      rewrite reverse_app. simpl. by rewrite Hc. }
  rewrite Hkeep by apply trimStart_trimmed.
  unfold trimEnd. by rewrite reverse_involutive, trimStart_trimmed.
Qed.

End ParserInvariant.

(** X20.  Whatever the text, [parseCSV] returns no row whose fields are
    all empty, and no field that [trim] would change. *)
Theorem parseCSV_rows_kept (text : JsString.t) :
  Forall (λ row, Exists (λ f, f ≠ []) row
                 ∧ Forall (λ f, JsString.trim f = f) row)
         (Csv.parseCSV text).
Proof.
  unfold Csv.parseCSV.
  apply (parseLoop_invariant
           (Forall (λ row, Exists (λ f, f ≠ []) row
                           ∧ Forall (λ f, JsString.trim f = f) row))
           (Forall (λ f, JsString.trim f = f))).
  - constructor.
  - intros row field Hrow. apply Forall_app. split; [done|].
    constructor; [apply trim_idempotent|constructor].
  - intros rows row field Hrows Hrow. unfold Csv.endRow, Csv.someNonEmpty.
    destruct (bool_decide _) eqn:Hsome; [|done].
    apply bool_decide_eq_true in Hsome.
    apply Forall_app. split; [done|]. constructor; [|constructor].
    split; [done|]. apply Forall_app. split; [done|].
    constructor; [apply trim_idempotent|constructor].
  - constructor.
  - constructor.
Qed.

(** ** Line endings *)

(** The text with every line feed written as carriage return and line
    feed, and with every line feed written as a carriage return. *)
Definition withCRLF (text : JsString.t) : JsString.t :=
  flat_map (λ c, if decide (c = JsString.LF)
                 then [JsString.CR; JsString.LF] else [c]) text.

Definition withCR (text : JsString.t) : JsString.t :=
  (λ c, if decide (c = JsString.LF) then JsString.CR else c) <$> text.

Lemma replaceCRLF_cons (c : JsString.codeunit) (text : JsString.t) :
  c ≠ JsString.CR → Csv.replaceCRLF (c :: text) = c :: Csv.replaceCRLF text.
Proof.
  intros Hc. cbn [Csv.replaceCRLF]. destruct text as [|next rest]; [done|].
  by rewrite decide_False by (by intros [? _]).
Qed.

Lemma replaceCRLF_withCRLF (text : JsString.t) :
  JsString.CR ∉ text → Csv.replaceCRLF (withCRLF text) = text.
Proof.
  induction text as [|c text IH]; [done|].
  intros [Hc Htext]%not_elem_of_cons.
  unfold withCRLF. cbn [flat_map]. fold (withCRLF text).
  destruct (decide (c = JsString.LF)) as [->|Hlf].
  - cbn [app Csv.replaceCRLF]. rewrite decide_True by done.
    by rewrite IH.
  - cbn [app]. rewrite replaceCRLF_cons by done. by rewrite IH.
Qed.

Lemma replaceCRLF_no_LF (text : JsString.t) :
  JsString.LF ∉ text → Csv.replaceCRLF text = text.
Proof.
  induction text as [|c text IH]; [done|].
  intros [Hc Htext]%not_elem_of_cons.
  cbn [Csv.replaceCRLF]. destruct text as [|next rest]; [done|].
  apply not_elem_of_cons in Htext as [Hnext Hrest].
  rewrite decide_False by (by intros [_ ?]).
  rewrite IH; [done|]. by apply not_elem_of_cons.
Qed.

(** X21.  The three ways of ending a line are one to the parser: a text
    without carriage returns parses the same when its line feeds are
    written as carriage return and line feed, or as carriage returns. *)
Theorem parseCSV_line_endings (text : JsString.t) :
  JsString.CR ∉ text →
  Csv.parseCSV (withCRLF text) = Csv.parseCSV text
  ∧ Csv.parseCSV (withCR text) = Csv.parseCSV text.
Proof.
  intros Hcr. unfold Csv.parseCSV.
  rewrite replaceCRLF_withCRLF, (replaceCRLF_no_CR text) by done.
  split; [done|]. f_equal.
  rewrite replaceCRLF_no_LF, (replaceCR_no_CR text) by
    (try done; unfold withCR; rewrite list_elem_of_fmap;
     intros (c & Hc & _); by destruct (decide (c = JsString.LF))).
  unfold withCR, Csv.replaceCR. rewrite <-list_fmap_compose.
  apply fmap_fixed, Forall_forall. intros c Hc. simpl.
  destruct (decide (c = JsString.LF)) as [->|Hlf].
  - by rewrite decide_True.
  - rewrite decide_False; [done|]. by intros ->.
Qed.

Lemma parseCSV_line_endings_witness :
  Csv.parseCSV (withCRLF (JsString.lit "id,name" ++ [JsString.LF]
                          ++ JsString.lit "1,Ann"))
  = Csv.parseCSV (JsString.lit "id,name" ++ [JsString.LF]
                  ++ JsString.lit "1,Ann").
Proof.
  apply (parseCSV_line_endings (JsString.lit "id,name" ++ [JsString.LF]
                                ++ JsString.lit "1,Ann")).
  by apply (bool_decide_unpack _); vm_compute.
Defined.

(** ** The converter *)

(** The keys that are array indices, and the place that a new one
    takes among the keys of a record. *)
Example arrayIndex_keys :
  Importer.arrayIndex <$>
    (JsString.lit <$> ["0"; "7"; "01"; "4294967294"; "4294967295"; "1a";
                       ""; "id"])
  = [Some 0%N; Some 7%N; None; Some 4294967294%N; None; None; None; None].
Proof. by vm_compute. Qed.

Example setProperty_key_order :
  (Importer.setProperty (JsString.lit "name") (Importer.CStr [])
     (Importer.setProperty (JsString.lit "1") (Importer.CStr [])
        (Importer.setProperty (JsString.lit "id") (Importer.CStr [])
           (Importer.setProperty (JsString.lit "2") (Importer.CStr [])
              [])))).*1
  = JsString.lit <$> ["1"; "2"; "id"; "name"].
Proof. by vm_compute. Qed.

Section Converter.

Import JsString Importer.

Variable toLowerCase : JsString.t → JsString.t.
Variable stringToNumber : JsString.t → number.
Variable builtinProperty : JsString.t → JsString.t → option JsString.t.
Variable builtinKey : JsString.t → JsString.t.

Lemma assoc_app_None {V} (key : JsString.t) (v : V)
    (r : list (JsString.t * V)) :
  assoc key r = None → assoc key (r ++ [(key, v)]) = Some v.
Proof.
  induction r as [|[k x] r IH]; simpl.
  - by rewrite decide_True.
  - destruct (decide (k = key)); [done|]. apply IH.
Qed.

Lemma assoc_insertIndex (n : N) (key : JsString.t) (v : cell) (r : record) :
  assoc key r = None → assoc key (insertIndex n key v r) = Some v.
Proof.
  induction r as [|[k x] r IH]; simpl.
  - by rewrite decide_True.
  - destruct (decide (k = key)) as [|Hne]; [done|]. intros Hr.
    destruct (arrayIndex k) as [m|]; simpl.
    + destruct (decide (m < n)%N); simpl.
      * rewrite decide_False by done. by apply IH.
      * by rewrite decide_True.
    + by rewrite decide_True.
Qed.

Lemma assoc_setProperty (key : JsString.t) (v : cell) (r : record) :
  assoc key (setProperty key v r) = Some v.
Proof.
  unfold setProperty. destruct (assoc key r) as [x|] eqn:Hr.
  - induction r as [|[k y] r IH]; [done|]. simpl in *.
    destruct (decide (k = key)) as [->|Hne]; simpl.
    + by rewrite decide_True.
    + rewrite decide_False by done. by apply IH.
  - destruct (arrayIndex key) as [n|].
    + by apply assoc_insertIndex.
    + by apply assoc_app_None.
Qed.

Lemma setProperty_Forall (P : JsString.t * cell → Prop) (key : JsString.t)
    (v : cell) (r : record) :
  Forall P r → P (key, v) → Forall P (setProperty key v r).
Proof.
  intros Hr Hv. unfold setProperty. destruct (assoc key r) as [x|].
  - apply Forall_fmap. eapply Forall_impl; [done|].
    intros [k y] Hk. simpl. by destruct (decide (k = key)) as [->|].
  - destruct (arrayIndex key) as [n|].
    + induction Hr as [|[k y] r Hy Hr IH]; simpl; [by constructor|].
      destruct (arrayIndex k) as [m|]; [|by repeat constructor].
      destruct (decide (m < n)%N); by repeat constructor.
    + apply Forall_app. split; [done|]. by constructor.
Qed.

(** The value of a field has the type that the name of the field asks
    for: a number that is not NaN for the four numeric fields, a string
    for every other field. *)
Definition typed (field : JsString.t * cell) : Prop :=
  match field.2 with
  | CNum n => field.1 ∈ numericFields ∧ n ≠ NaN
  | CStr _ => field.1 ∉ numericFields
  end.

Lemma columnStep_typed entity fm row st jh :
  Forall typed (rec st) →
  Forall typed (rec (columnStep stringToNumber builtinProperty builtinKey
                       entity fm row st jh)).
Proof.
  intros Hst. destruct jh as [j header]. unfold columnStep.
  destruct (mappedOf _ _ _ _ _) as [mapped|]; [|done].
  destruct (decide (mapped = lit "_first_name")); [done|].
  destruct (decide (mapped = lit "_last_name")); [done|].
  cbn [rec]. apply setProperty_Forall; [done|].
  destruct (decide (mapped ∈ numericFields)) as [Hnum|Hstr]; [|done].
  split; [done|].
  destruct (truthy (Num (stringToNumber (default [] (row !! j))))) eqn:Ht;
    [|done].
  intros Hnan. by rewrite Hnan in Ht.
Qed.

Lemma convertRow_typed entity fm headers i row :
  Forall typed (convertRow stringToNumber builtinProperty builtinKey entity
                  fm headers i row)
  ∧ hasTruthy (lit "id")
      (convertRow stringToNumber builtinProperty builtinKey entity fm
         headers i row) = true.
Proof.
  unfold convertRow.
  set (st := fold_left _ _ _).
  assert (Forall typed (rec st)) as Hst.
  { subst st. generalize (imap (λ j h, (j, h)) headers).
    assert (Forall typed (rec (mkRow [] [] []))) as H0 by constructor.
    revert H0. generalize (mkRow [] [] []).
    intros st0 H0 l. revert st0 H0.
    induction l as [|jh l IH]; intros st0 H0; [done|].
    cbn [fold_left]. by apply IH, columnStep_typed. }
  set (record1 := if _ && _ then _ else rec st).
  assert (Forall typed record1) as H1.
  { subst record1. destruct (_ && _); [|done].
    apply setProperty_Forall; [done|].
    unfold typed. simpl. by apply (bool_decide_unpack _). }
  destruct (hasTruthy (lit "id") record1) eqn:Hid; simpl.
  - done.
  - split.
    + apply setProperty_Forall; [done|].
      unfold typed. simpl. by apply (bool_decide_unpack _).
    + unfold hasTruthy. rewrite assoc_setProperty.
      apply bool_decide_eq_true.
      destruct (take 1 entity); discriminate.
Qed.

End Converter.

(** X22.  Whatever the rows and the platform, a conversion that returns
    records returns one for each row after the first, each with a
    non-empty id; in every record the fields max_points, points, weight
    and year_level hold numbers that are not NaN and every other field
    holds a string. *)
Theorem convertCSV_records_well_formed
    (toLowerCase : JsString.t → JsString.t)
    (stringToNumber : JsString.t → number)
    (builtinProperty : JsString.t → JsString.t → option JsString.t)
    (builtinKey : JsString.t → JsString.t)
    (rows : list (list JsString.t)) (entity : JsString.t)
    (records : list Importer.record) :
  Importer.convertCSV toLowerCase stringToNumber builtinProperty builtinKey
    rows entity = Importer.Converted records →
  S (length records) = length rows
  ∧ Forall (λ record,
              Importer.hasTruthy (JsString.lit "id") record = true
              ∧ Forall typed record) records.
Proof.
  unfold Importer.convertCSV.
  destruct (JsString.getProperty Importer.FIELD_MAPS entity) as [m| |];
    [| |done]; (destruct rows as [|header dataRows]; [done|]);
    intros [= <-]; (split; [by rewrite length_imap|]);
    apply Forall_forall; intros record Hin;
    apply list_elem_of_lookup in Hin as [k Hk];
    rewrite list_lookup_imap in Hk;
    destruct (dataRows !! k) as [row|]; simpl in Hk; try done;
    injection Hk as <-;
    edestruct convertRow_typed as [Htyped Hid]; split; eauto.
Qed.

Lemma convertCSV_records_well_formed_witness :
  S (length [[(JsString.lit "id",
               Importer.CStr (JsString.lit "c-imported-1"))]])
  = length [[JsString.lit "student"; JsString.lit "score"];
            [JsString.lit "u-ann"; JsString.lit "81"]].
Proof.
  apply (convertCSV_records_well_formed asciiLower (λ _, NaN) (λ _ _, None)
           (λ h, h)
           [[JsString.lit "student"; JsString.lit "score"];
            [JsString.lit "u-ann"; JsString.lit "81"]]
           (JsString.lit "constructor")
           [[(JsString.lit "id",
              Importer.CStr (JsString.lit "c-imported-1"))]]).
  by vm_compute.
Defined.

(** X23.  For users, a file whose columns are first_name and last_name
    gives every row with a name a display_name made of the two parts
    with one space between them, trimmed, and the generated id
    [u-imported-] followed by the number of the row; nothing else is
    kept.  (Lower-casing leaves the two column names as they are.) *)
Theorem convertCSV_users_names
    (toLowerCase : JsString.t → JsString.t)
    (stringToNumber : JsString.t → number)
    (builtinProperty : JsString.t → JsString.t → option JsString.t)
    (builtinKey : JsString.t → JsString.t)
    (names : list (JsString.t * JsString.t)) :
  toLowerCase (JsString.lit "first_name") = JsString.lit "first_name" →
  toLowerCase (JsString.lit "last_name") = JsString.lit "last_name" →
  Forall (λ name, name.1 ≠ [] ∨ name.2 ≠ []) names →
  Importer.convertCSV toLowerCase stringToNumber builtinProperty builtinKey
    ([JsString.lit "first_name"; JsString.lit "last_name"]
       :: ((λ name, [name.1; name.2]) <$> names))
    (JsString.lit "users")
  = Importer.Converted
      (imap (λ k name,
               [(JsString.lit "display_name",
                 Importer.CStr
                   (JsString.trim (name.1 ++ [JsString.SPACE] ++ name.2)));
                (JsString.lit "id",
                 Importer.CStr
                   (JsString.lit "u-imported-"
                      ++ JsString.lit (digits (Z.of_nat (S k)))))])
            names).
Proof.
  intros Hfirst Hlast Hnames.
  unfold Importer.convertCSV.
  change (JsString.getProperty Importer.FIELD_MAPS (JsString.lit "users"))
    with (JsString.Own (Importer.fieldMapOf
      [("student_id", "id"); ("teacher_id", "id"); ("user_id", "id");
       ("id", "id"); ("username", "username"); ("user_name", "username");
       ("login", "username"); ("display_name", "display_name");
       ("name", "display_name"); ("full_name", "display_name");
       ("first_name", "_first_name"); ("last_name", "_last_name");
       ("email", "email"); ("email_address", "email"); ("role", "role");
       ("user_type", "role"); ("type", "role"); ("year_level", "year_level");
       ("grade_level", "year_level"); ("year", "year_level")])).
  cbn iota. f_equal. rewrite imap_fmap.
  apply imap_ext. intros k [f l] Hk. cbn [fst snd compose].
  assert (f ≠ [] ∨ l ≠ []) as Hname.
  { rewrite Forall_forall in Hnames.
    apply (Hnames (f, l)), list_elem_of_lookup. by exists k. }
  cbn [fmap list_fmap]. rewrite Hfirst, Hlast.
  unfold Importer.convertRow.
  change (Importer.underscoreSpaces false (JsString.lit "first_name"))
    with (JsString.lit "first_name").
  change (Importer.underscoreSpaces false (JsString.lit "last_name"))
    with (JsString.lit "last_name").
  cbn [imap fold_left compose].
  set (fm := JsString.Own _).
  assert (∀ st,
    Importer.columnStep stringToNumber builtinProperty builtinKey
      (JsString.lit "users") fm [f; l] st (0%nat, JsString.lit "first_name")
    = Importer.mkRow (Importer.rec st) f (Importer.lastName st)) as Hstep0
    by (intros st; by vm_compute).
  assert (∀ st,
    Importer.columnStep stringToNumber builtinProperty builtinKey
      (JsString.lit "users") fm [f; l] st (1%nat, JsString.lit "last_name")
    = Importer.mkRow (Importer.rec st) (Importer.firstName st) l) as Hstep1
    by (intros st; by vm_compute).
  rewrite Hstep0, Hstep1. cbn [Importer.rec Importer.firstName
                                Importer.lastName].
  rewrite bool_decide_eq_true_2 by done.
  change (Importer.hasTruthy (JsString.lit "display_name") []) with false.
  cbn [negb andb].
  assert (∀ v, Importer.setProperty (JsString.lit "display_name") v []
               = [(JsString.lit "display_name", v)]) as ->
    by (intros v; by vm_compute).
  assert (∀ v, Importer.hasTruthy (JsString.lit "id")
                 [(JsString.lit "display_name", v)] = false) as ->
    by (intros v; by vm_compute).
  cbn [negb]. by vm_compute.
Qed.

Lemma convertCSV_users_names_witness :
  Importer.convertCSV asciiLower (λ _, NaN) (λ _ _, None) (λ h, h)
    ([JsString.lit "first_name"; JsString.lit "last_name"]
       :: ((λ name, [name.1; name.2])
             <$> [(JsString.lit "Ann", JsString.lit "Lee");
                  (JsString.lit "Bob", [])]))
    (JsString.lit "users")
  = Importer.Converted
      [[(JsString.lit "display_name", Importer.CStr (JsString.lit "Ann Lee"));
        (JsString.lit "id", Importer.CStr (JsString.lit "u-imported-1"))];
       [(JsString.lit "display_name", Importer.CStr (JsString.lit "Bob"));
        (JsString.lit "id", Importer.CStr (JsString.lit "u-imported-2"))]].
Proof.
  apply (convertCSV_users_names asciiLower (λ _, NaN) (λ _ _, None) (λ h, h)
           [(JsString.lit "Ann", JsString.lit "Lee");
            (JsString.lit "Bob", [])]).
  - reflexivity.
  - reflexivity.
  - apply Forall_cons. split; [left; discriminate|].
    apply Forall_cons. split; [left; discriminate|]. constructor.
Defined.

(** ** The run of the import script *)

Section ScriptRuns.

Import JsString Importer.

Variable toLowerCase : JsString.t → JsString.t.
Variable stringToNumber : JsString.t → number.
Variable builtinProperty : JsString.t → JsString.t → option JsString.t.
Variable builtinKey : JsString.t → JsString.t.
Variable files : JsString.t → file.
Variable writable : path → bool.

Abbreviation script :=
  (main toLowerCase stringToNumber builtinProperty builtinKey files writable).

Definition isWrite (o : output) : Prop :=
  match o with
  | WriteFile _ _ => True
  | _ => False
  end.

#[global] Instance isWrite_dec o : Decision (isWrite o).
Proof. destruct o; simpl; apply _. Defined.

Lemma convertCSV_exit rows entity printed code :
  convertCSV toLowerCase stringToNumber builtinProperty builtinKey rows entity
    = Exited printed code →
  printed = [ErrUnknownEntity entity; ErrAvailable entityNames] ∧ code = 1%Z.
Proof.
  unfold convertCSV.
  destruct (getProperty FIELD_MAPS entity); destruct rows; by intros [=].
Qed.

Lemma script_writes (args : list JsString.t) :
  (filter isWrite (script args).1 = [] ∧ (script args).2 ≠ Finished)
  ∨ (script args).2 = Finished
    ∧ ∃ to records, filter isWrite (script args).1 = [WriteFile to records].
Proof.
  unfold main. destruct args as [|inputFile [|entity rest]]; [by left..|].
  destruct (files inputFile) as [| |csvText]; [by left..|].
  destruct (Csv.parseCSV csvText) as [|row0 rows]; [by left|].
  destruct (convertCSV _ _ _ _ _ _) as [printed code| |records] eqn:Hconv.
  - left. apply convertCSV_exit in Hconv as [-> ->]. done.
  - by left.
  - destruct (writable _); [|by left].
    right. split; [done|]. eexists _, _. cbn [fst].
    rewrite !filter_app. simpl. reflexivity.
Qed.

Lemma recognized_own (entity : JsString.t) :
  entity ∈ entityNames → ∃ m, getProperty FIELD_MAPS entity = Own m.
Proof.
  revert entity. apply Forall_forall.
  unfold entityNames, FIELD_MAPS. cbn [fmap list_fmap fst].
  repeat (constructor; [eexists; by vm_compute|]). constructor.
Qed.

End ScriptRuns.

(** X24.  Whatever the arguments, the files and the platform, a run of
    the script that does not reach its end writes no file, and a run
    that reaches it writes exactly one: a non-zero exit status means
    that nothing was written. *)
Theorem main_writes_only_on_success
    (toLowerCase : JsString.t → JsString.t)
    (stringToNumber : JsString.t → number)
    (builtinProperty : JsString.t → JsString.t → option JsString.t)
    (builtinKey : JsString.t → JsString.t)
    (files : JsString.t → Importer.file)
    (writable : Importer.path → bool) (args : list JsString.t) :
  let run := Importer.main toLowerCase stringToNumber builtinProperty
                           builtinKey files writable args in
  (Importer.exitCode run.2 ≠ 0%Z → filter isWrite run.1 = [])
  ∧ (run.2 = Importer.Finished →
     ∃ to records, filter isWrite run.1 = [Importer.WriteFile to records])
  ∧ (length (filter isWrite run.1) ≤ 1)%nat.
Proof.
  intros run. subst run.
  destruct (script_writes toLowerCase stringToNumber builtinProperty
              builtinKey files writable args)
    as [[Hnone Hstop]|[Hfin (to & records & Hone)]].
  - split; [done|]. split; [done|]. rewrite Hnone. simpl. lia.
  - split; [by rewrite Hfin|]. split; [by eauto|].
    rewrite Hone. simpl. lia.
Qed.

Lemma main_writes_only_on_success_witness :
  filter isWrite
    (sampleRun [JsString.lit "marks.csv"; JsString.lit "lessons"]).1 = [].
Proof.
  destruct (main_writes_only_on_success asciiLower (λ _, NaN) (λ _ _, None)
              (λ h, h) sampleFiles (λ _, true)
              [JsString.lit "marks.csv"; JsString.lit "lessons"])
    as [Hfail _].
  apply Hfail. by vm_compute.
Defined.

(** X25.  For each of the nine entity names, a readable file with at
    least one row that is not blank is converted, to one record per row
    after the first, and the count of the records is printed.  The
    output path is the third argument if there is one and it is not
    empty, else the sample file of the entity.  When that path can be
    written the records are written to it, once, and the run reaches its
    end without an error; when it cannot, the run stops there with an
    uncaught error and nothing is written. *)
Theorem main_converts_recognized_entity
    (toLowerCase : JsString.t → JsString.t)
    (stringToNumber : JsString.t → number)
    (builtinProperty : JsString.t → JsString.t → option JsString.t)
    (builtinKey : JsString.t → JsString.t)
    (files : JsString.t → Importer.file)
    (writable : Importer.path → bool)
    (inputFile entity csvText : JsString.t) (rest : list JsString.t)
    (row0 : list JsString.t) (rows : list (list JsString.t)) :
  entity ∈ Importer.entityNames →
  files inputFile = Importer.Text csvText →
  Csv.parseCSV csvText = row0 :: rows →
  let to :=
    match rest with
    | outputFile :: _ =>
        if decide (outputFile = [])
        then Importer.Sample (entity ++ JsString.lit ".json")
        else Importer.Given outputFile
    | [] => Importer.Sample (entity ++ JsString.lit ".json")
    end in
  let run := Importer.main toLowerCase stringToNumber builtinProperty
                           builtinKey files writable
                           (inputFile :: entity :: rest) in
  ∃ records,
    Importer.convertCSV toLowerCase stringToNumber builtinProperty
      builtinKey (row0 :: rows) entity = Importer.Converted records
    ∧ length records = length rows
    ∧ (writable to = true →
       run = ([Importer.LogConverting inputFile entity;
               Importer.LogParsed (Z.of_nat (length rows)) (length row0);
               Importer.LogConverted (length records);
               Importer.WriteFile to records; Importer.LogWritten to],
              Importer.Finished))
    ∧ (writable to = false →
       run = ([Importer.LogConverting inputFile entity;
               Importer.LogParsed (Z.of_nat (length rows)) (length row0);
               Importer.LogConverted (length records)],
              Importer.Uncaught)
       ∧ Importer.exitCode run.2 = 1%Z).
Proof.
  intros Hent Hfile Hrows to run. subst run.
  destruct (recognized_own entity Hent) as [m Hown].
  unfold Importer.main, Importer.convertCSV.
  rewrite Hfile, Hrows, Hown. fold to.
  assert (Z.of_nat (length (row0 :: rows)) - 1 = Z.of_nat (length rows))%Z
    as -> by (simpl length; lia).
  eexists. split; [reflexivity|]. split; [by rewrite length_imap|].
  split; intros ->; done.
Qed.

(** A platform on which only the sample files can be written. *)
Definition readOnly (to : Importer.path) : bool :=
  match to with
  | Importer.Given _ => true
  | Importer.Sample _ => false
  end.

Lemma main_converts_recognized_entity_witness :
  (∃ records,
     sampleRun [JsString.lit "marks.csv"; JsString.lit "grades";
                JsString.lit "out.json"]
     = ([Importer.LogConverting (JsString.lit "marks.csv")
                                (JsString.lit "grades");
         Importer.LogParsed 1 2;
         Importer.LogConverted (length records);
         Importer.WriteFile (Importer.Given (JsString.lit "out.json"))
                            records;
         Importer.LogWritten (Importer.Given (JsString.lit "out.json"))],
        Importer.Finished))
  ∧ ∃ records : list Importer.record,
      Importer.main asciiLower (λ _, NaN) (λ _ _, None) (λ h, h) sampleFiles
        (λ to, negb (readOnly to))
        [JsString.lit "marks.csv"; JsString.lit "grades";
         JsString.lit "out.json"]
      = ([Importer.LogConverting (JsString.lit "marks.csv")
                                 (JsString.lit "grades");
          Importer.LogParsed 1 2;
          Importer.LogConverted (length records)],
         Importer.Uncaught).
Proof.
  split.
  - destruct (main_converts_recognized_entity asciiLower (λ _, NaN)
                (λ _ _, None) (λ h, h) sampleFiles (λ _, true)
                (JsString.lit "marks.csv") (JsString.lit "grades")
                (JsString.lit "student,score" ++ [JsString.LF]
                   ++ JsString.lit "u-ann,81")
                [JsString.lit "out.json"]
                [JsString.lit "student"; JsString.lit "score"]
                [[JsString.lit "u-ann"; JsString.lit "81"]])
      as (records & _ & _ & Hrun & _).
    + by apply (bool_decide_unpack _); vm_compute.
    + reflexivity.
    + by vm_compute.
    + exists records. apply Hrun. reflexivity.
  - destruct (main_converts_recognized_entity asciiLower (λ _, NaN)
                (λ _ _, None) (λ h, h) sampleFiles
                (λ to, negb (readOnly to))
                (JsString.lit "marks.csv") (JsString.lit "grades")
                (JsString.lit "student,score" ++ [JsString.LF]
                   ++ JsString.lit "u-ann,81")
                [JsString.lit "out.json"]
                [JsString.lit "student"; JsString.lit "score"]
                [[JsString.lit "u-ann"; JsString.lit "81"]])
      as (records & _ & _ & _ & Hrun).
    + by apply (bool_decide_unpack _); vm_compute.
    + reflexivity.
    + by vm_compute.
    + exists records. apply Hrun. reflexivity.
Defined.

(** ** Blank files *)

(** A unit of a blank text: white space, a line end or a comma. *)
Definition blankUnit (c : JsString.codeunit) : Prop :=
  JsString.isWhite c = true ∨ c = JsString.COMMA.

Lemma trimStart_white (s : JsString.t) :
  Forall (λ c, JsString.isWhite c = true) s → JsString.trimStart s = [].
Proof. induction 1 as [|c s Hc _ IH]; [done|]. simpl. by rewrite Hc. Qed.

Lemma trim_white (s : JsString.t) :
  Forall (λ c, JsString.isWhite c = true) s → JsString.trim s = [].
Proof. intros Hs. unfold JsString.trim. by rewrite trimStart_white. Qed.

Lemma endRow_blank (row : list JsString.t) (field : JsString.t) :
  Forall (λ f, f = []) row →
  Forall (λ c, JsString.isWhite c = true) field →
  Csv.endRow [] row field = [].
Proof.
  intros Hrow Hfield. unfold Csv.endRow, Csv.someNonEmpty.
  rewrite trim_white by done.
  rewrite bool_decide_eq_false_2; [done|].
  rewrite Exists_exists. intros (f & Hf & Hne). apply Hne.
  apply elem_of_app in Hf as [Hf|Hf%list_elem_of_singleton]; [|done].
  rewrite Forall_forall in Hrow. by apply Hrow.
Qed.

Lemma parseLoop_blank (chars : JsString.t) (row : list JsString.t)
    (field : JsString.t) :
  Forall blankUnit chars →
  Forall (λ f, f = []) row →
  Forall (λ c, JsString.isWhite c = true) field →
  Csv.parseLoop chars [] row field false = [].
Proof.
  intros Hchars. revert row field.
  induction Hchars as [|c chars Hc _ IH]; intros row field Hrow Hfield.
  - by apply endRow_blank.
  - cbn [Csv.parseLoop].
    destruct (decide (c = JsString.QUOTE)) as [->|_];
      [by destruct Hc as [Hc|Hc]; vm_compute in Hc|].
    destruct (decide (c = JsString.COMMA)) as [->|Hcomma].
    + apply IH; [|constructor]. apply Forall_app. split; [done|].
      constructor; [by apply trim_white|constructor].
    + destruct Hc as [Hc|Hc]; [|done].
      destruct (decide (c = JsString.LF)).
      * rewrite endRow_blank by done. apply IH; constructor.
      * apply IH; [done|]. apply Forall_app. split; [done|].
        by constructor.
Qed.

Lemma replaceCRLF_Forall (P : JsString.codeunit → Prop) (text : JsString.t) :
  P JsString.LF → Forall P text → Forall P (Csv.replaceCRLF text).
Proof.
  intros HLF.
  induction text as [text IH] using (induction_ltof1 _ length).
  unfold ltof in IH. intros Htext.
  destruct text as [|c [|next rest]]; [done|done|].
  change (Csv.replaceCRLF (c :: next :: rest))
    with (if decide (c = JsString.CR ∧ next = JsString.LF)
          then JsString.LF :: Csv.replaceCRLF rest
          else c :: Csv.replaceCRLF (next :: rest)).
  apply Forall_cons in Htext as [Hc Htext].
  destruct (decide _).
  - constructor; [done|]. apply IH; [simpl; lia|].
    by apply Forall_cons in Htext as [_ ?].
  - constructor; [done|]. apply IH; [simpl; lia|done].
Qed.

(** A text of white space, line ends and commas holds no row. *)
Lemma parseCSV_blank (text : JsString.t) :
  Forall blankUnit text → Csv.parseCSV text = [].
Proof.
  intros Htext. unfold Csv.parseCSV.
  apply parseLoop_blank; [|constructor|constructor].
  unfold Csv.replaceCR. apply Forall_fmap.
  eapply Forall_impl;
    [apply (replaceCRLF_Forall blankUnit); [by left|done]|].
  intros c Hc. simpl. destruct (decide (c = JsString.CR)); [by left|done].
Qed.

(** X26.  Three runs that fail before the entity name is looked at,
    whatever that name is: for a file that does not exist the script
    prints only that the file was not found and exits with status 1;
    for a file without a row that is not blank, and for one that exists
    but cannot be read, it stops with an uncaught error after its first
    line of output, the exit status being 1 as well.  None writes a file
    or lists the entity names. *)
Theorem main_fails_before_entity_check
    (toLowerCase : JsString.t → JsString.t)
    (stringToNumber : JsString.t → number)
    (builtinProperty : JsString.t → JsString.t → option JsString.t)
    (builtinKey : JsString.t → JsString.t)
    (files : JsString.t → Importer.file)
    (writable : Importer.path → bool)
    (inputFile entity : JsString.t) (rest : list JsString.t) :
  let run := Importer.main toLowerCase stringToNumber builtinProperty
                           builtinKey files writable
                           (inputFile :: entity :: rest) in
  (files inputFile = Importer.NoFile →
   run = ([Importer.ErrFileNotFound inputFile], Importer.Exit 1))
  ∧ (∀ csvText,
       files inputFile = Importer.Text csvText → Forall blankUnit csvText →
       run = ([Importer.LogConverting inputFile entity], Importer.Uncaught)
       ∧ Importer.exitCode run.2 = 1%Z)
  ∧ (files inputFile = Importer.Unreadable →
     run = ([Importer.LogConverting inputFile entity], Importer.Uncaught)).
Proof.
  intros run. subst run. unfold Importer.main. split; [|split].
  - by intros ->.
  - intros csvText -> Hblank. by rewrite parseCSV_blank.
  - by intros ->.
Qed.

Definition blankFiles (name : JsString.t) : Importer.file :=
  if decide (name = JsString.lit "empty.csv")
  then Importer.Text (JsString.lit " , " ++ [JsString.CR; JsString.LF]
                      ++ JsString.lit ",")
  else Importer.NoFile.

Lemma main_fails_before_entity_check_witness :
  Importer.main asciiLower (λ _, NaN) (λ _ _, None) (λ h, h) blankFiles
    (λ _, true) [JsString.lit "empty.csv"; JsString.lit "lessons"]
  = ([Importer.LogConverting (JsString.lit "empty.csv")
                             (JsString.lit "lessons")],
     Importer.Uncaught).
Proof.
  destruct (main_fails_before_entity_check asciiLower (λ _, NaN)
              (λ _ _, None) (λ h, h) blankFiles (λ _, true)
              (JsString.lit "empty.csv")
              (JsString.lit "lessons") []) as (_ & Hblank & _).
  apply (Hblank (JsString.lit " , " ++ [JsString.CR; JsString.LF]
                 ++ JsString.lit ",")).
  - reflexivity.
  - repeat (constructor; [first [by left|by right]|]). constructor.
Defined.
